(** * email-buddy: the bulk dispatch engine, embedded and checked

    A shallow embedding of
      - [supabase/functions/send-bulk-emails/index.ts]: the edge function
        [serve] (the batch dispatcher) and its renderer
        [replacePlaceholders];
      - the campaign wizard: [getFilteredContacts], the segment rules,
        [runDeliverabilityCheck], [handleCreateCampaign],
        [getPreviewContent] and [canProceed].

    JavaScript strings are modelled as [string] (sequences of bytes); every
    token, keyword and test input of the development is ASCII, on which
    bytes and UTF-16 code units coincide.  Where a built-in looks at more
    than ASCII ([length], [trim], [toLowerCase]) the definition here is the
    built-in on texts of the ASCII range, and the statements that depend
    on it are made for such texts.  Integers are [Z].  The relational
    store is a record of tables, each table a list of rows.  A select
    without ORDER BY answers in the order of the list, which is one of the
    orders the database may choose: where a statement names the rows of a
    batch, they are the rows that select returned.  The handler is written in a small state monad over a [World]
    that holds the store, the trace of store calls, the outbox of the SMTP
    session and the number of clock readings; the clock and the SMTP server
    are oracles of the environment, indexed by the number of readings and
    of messages handed over so far. *)

From Stdlib Require Import String Ascii List ZArith Bool Lia Arith DecimalString
  Permutation.
Import ListNotations.
Local Open Scope string_scope.

(* ===================================================================== *)
(** * Definitions *)
(* ===================================================================== *)

(** ** JavaScript string built-ins used by the source *)

(** [a || ""] on a nullable string: [null] and [""] are both falsy. *)
Definition or_empty (a : option string) : string :=
  match a with
  | Some s => s
  | None => ""
  end.

(** Truthiness of a nullable string. *)
Definition truthy (a : option string) : bool :=
  match a with
  | Some s => negb (s =? "")
  | None => false
  end.

(** [s.slice(n)] *)
Fixpoint drop (n : nat) (s : string) : string :=
  match n, s with
  | O, _ => s
  | S _, EmptyString => EmptyString
  | S k, String _ s' => drop k s'
  end.

(** [GetSubstitution] of ECMA-262 for a pattern without capture groups:
    in the replacement text [$$] stands for a dollar sign, [$&] for the
    matched text, [$`] for the text before the match and [$'] for the text
    after it; a dollar sign followed by anything else stands for itself. *)
Fixpoint getSubstitution (matched before after replacement : string) : string :=
  match replacement with
  | EmptyString => EmptyString
  | String c r =>
      if Ascii.eqb c "$" then
        match r with
        | EmptyString => String "$" EmptyString
        | String d r' =>
            if Ascii.eqb d "$" then
              String "$" (getSubstitution matched before after r')
            else if Ascii.eqb d "&" then
              matched ++ getSubstitution matched before after r'
            else if Ascii.eqb d "`" then
              before ++ getSubstitution matched before after r'
            else if Ascii.eqb d "'" then
              after ++ getSubstitution matched before after r'
            else
              String "$" (getSubstitution matched before after r)
        end
      else String c (getSubstitution matched before after r)
  end.

(** [text.replace(/pat/g, replacement)] for a regular expression that is a
    non-empty literal (all of the source's are: the braces are escaped).
    The scan goes left to right; [before] is the text already passed,
    [skip] the number of characters of the current match still to pass. *)
Fixpoint replace_from (pat replacement : string) (skip : nat)
    (before rest : string) : string :=
  match rest with
  | EmptyString => EmptyString
  | String c rest' =>
      match skip with
      | S k => replace_from pat replacement k (before ++ String c "") rest'
      | O =>
          if prefix pat rest then
            getSubstitution pat before (drop (String.length pat) rest) replacement
            ++ replace_from pat replacement (String.length pat - 1)
                 (before ++ String c "") rest'
          else
            String c (replace_from pat replacement 0 (before ++ String c "") rest')
      end
  end.

Definition replace_g (pat replacement text : string) : string :=
  replace_from pat replacement 0 "" text.

(** [s.toLowerCase()] on ASCII letters. *)
Definition lower_ascii (c : ascii) : ascii :=
  let n := nat_of_ascii c in
  if (65 <=? n)%nat && (n <=? 90)%nat then ascii_of_nat (n + 32) else c.

Fixpoint toLowerCase (s : string) : string :=
  match s with
  | EmptyString => EmptyString
  | String c s' => String (lower_ascii c) (toLowerCase s')
  end.

(** [s.includes(sub)] *)
Fixpoint includes (s sub : string) : bool :=
  prefix sub s ||
  match s with
  | EmptyString => false
  | String _ s' => includes s' sub
  end.

(** The double-quote character, as a string. *)
Definition dquote : string := String (ascii_of_nat 34) EmptyString.

(** Template-literal rendering of a count. *)
Definition show_nat (n : nat) : string :=
  NilZero.string_of_uint (Nat.to_uint n).

(** ** Rows of the store (supabase/migrations) *)

Record Contact := mkContact {
  contact_id : string;
  email : string;
  first_name : option string;
  last_name : option string;
  company : option string
}.

Record EmailTemplate := mkTemplate {
  template_id : string;
  subject : string;
  html_content : string
}.

(** ** The send-path renderer (index.ts, replacePlaceholders) *)

Definition replacePlaceholders (text : string) (contact : Contact) : string :=
  replace_g "{{company}}" (or_empty (company contact))
    (replace_g "{{email}}" (or_empty (Some (email contact)))
       (replace_g "{{last_name}}" (or_empty (last_name contact))
          (replace_g "{{first_name}}" (or_empty (first_name contact)) text))).

(** ** Templates as sequences of pieces

    To state what the renderer does to the tokens of a template, a template
    is written as a sequence of pieces: literal text, one of the four merge
    tags the send path knows, or a token with any other name (for the send
    path [{{full_name}}] is one of these). *)

Inductive MergeTag := TagFirstName | TagLastName | TagEmail | TagCompany.

Definition tag_name (t : MergeTag) : string :=
  match t with
  | TagFirstName => "first_name"
  | TagLastName => "last_name"
  | TagEmail => "email"
  | TagCompany => "company"
  end.

Definition tag_eqb (t u : MergeTag) : bool :=
  match t, u with
  | TagFirstName, TagFirstName | TagLastName, TagLastName
  | TagEmail, TagEmail | TagCompany, TagCompany => true
  | _, _ => false
  end.

Definition token (name : string) : string := "{{" ++ name ++ "}}".

Inductive Piece :=
  | Text (s : string)
  | Tag (t : MergeTag)
  | Unknown (name : string).

Definition piece_text (p : Piece) : string :=
  match p with
  | Text s => s
  | Tag t => token (tag_name t)
  | Unknown name => token name
  end.

Fixpoint template_text (ps : list Piece) : string :=
  match ps with
  | [] => ""
  | p :: ps' => piece_text p ++ template_text ps'
  end.

(** The contact field behind a tag, [null] read as the empty string. *)
Definition tag_value (c : Contact) (t : MergeTag) : string :=
  match t with
  | TagFirstName => or_empty (first_name c)
  | TagLastName => or_empty (last_name c)
  | TagEmail => or_empty (Some (email c))
  | TagCompany => or_empty (company c)
  end.

(** The renderer as the specification words it: one pass, every tag
    replaced by its field, unknown tokens and text left as they are. *)
Definition render_piece (c : Contact) (p : Piece) : string :=
  match p with
  | Text s => s
  | Tag t => tag_value c t
  | Unknown name => token name
  end.

Fixpoint render_spec (c : Contact) (ps : list Piece) : string :=
  match ps with
  | [] => ""
  | p :: ps' => render_piece c p ++ render_spec c ps'
  end.

Fixpoint has_char (a : ascii) (s : string) : bool :=
  match s with
  | EmptyString => false
  | String b s' => Ascii.eqb a b || has_char a s'
  end.

Definition is_tag_name (name : string) : bool :=
  existsb (fun t => name =? tag_name t)
    [TagFirstName; TagLastName; TagEmail; TagCompany].

(** Text holds no opening brace; the name of an unknown token holds no
    brace and is not the name of a tag. *)
Definition wf_piece (p : Piece) : bool :=
  match p with
  | Text s => negb (has_char "{" s)
  | Tag _ => true
  | Unknown name =>
      negb (has_char "{" name) && negb (has_char "}" name)
      && negb (is_tag_name name)
  end.

(** Every opening brace of [s] stands alone: it is followed, within [s],
    by a character that is not an opening brace.  So [s] holds no [{{] and
    does not end in [{]; the braces of a style sheet are of this kind. *)
Fixpoint lone_braces (s : string) : bool :=
  match s with
  | EmptyString => true
  | String c s' =>
      (if Ascii.eqb c "{" then
         match s' with
         | EmptyString => false
         | String d _ => negb (Ascii.eqb d "{")
         end
       else true)
      && lone_braces s'
  end.

(** The parts of a template in general: text whose opening braces stand
    alone, a merge tag, or a token of another name without braces. *)
Definition wf_part (p : Piece) : bool :=
  match p with
  | Text s => lone_braces s
  | Tag _ => true
  | Unknown name =>
      negb (has_char "{" name) && negb (has_char "}" name)
      && negb (is_tag_name name)
  end.

(** The pieces after one pass for tag [t] with value [v]. *)
Definition fill (t : MergeTag) (v : string) (p : Piece) : Piece :=
  match p with
  | Tag u => if tag_eqb t u then Text v else p
  | _ => p
  end.

(** ** The deliverability check of the campaign wizard *)

Inductive IssueType := warning | error.

Record DeliverabilityIssue := mkIssue {
  issue_type : IssueType;
  message : string
}.

Definition spamWords : list string :=
  ["free"; "winner"; "click here"; "act now"; "limited time"; "urgent"].

Definition unsubscribe_warning : DeliverabilityIssue :=
  mkIssue warning "Consider adding an unsubscribe link for compliance".

(** The issues the check finds in a template.  [subject.length] counts
    UTF-16 code units and [String.length] bytes, the same number for a
    subject of the ASCII range; the statement about the subject threshold
    is made for such subjects. *)
Definition template_issues (template : EmailTemplate) : list DeliverabilityIssue :=
  let content := toLowerCase (subject template ++ " " ++ html_content template) in
  map (fun word =>
         mkIssue warning
           ("Template contains potential spam trigger word: " ++ dquote ++ word
            ++ dquote))
      (filter (fun word => includes content word) spamWords)
  ++ (if negb (includes (html_content template) "unsubscribe")
      then [unsubscribe_warning] else [])
  ++ (if (60 <? String.length (subject template))%nat
      then [mkIssue warning
              "Subject line is longer than 60 characters (may be truncated)"]
      else []).

(** [template] is the result of [templates.find(t => t.id === selectedTemplate)];
    the React state setters of the source receive the list computed here. *)
Definition deliverabilityIssues (template : option EmailTemplate)
    (recipientCount : nat) (smtpPassword : string) : list DeliverabilityIssue :=
  match template with
  | Some t => template_issues t
  | None => []
  end
  ++ (if (500 <? recipientCount)%nat
      then [mkIssue warning
              ("Sending to " ++ show_nat recipientCount
               ++ " recipients. Consider using slow-send settings.")]
      else [])
  ++ (if negb (truthy (Some smtpPassword))
      then [mkIssue error "SMTP password is required to send emails"]
      else []).

Definition is_error (i : DeliverabilityIssue) : bool :=
  match issue_type i with
  | error => true
  | warning => false
  end.

Definition runDeliverabilityCheck (template : option EmailTemplate)
    (recipientCount : nat) (smtpPassword : string) : bool :=
  (List.length (filter is_error
     (deliverabilityIssues template recipientCount smtpPassword)) =? 0)%nat.

Definition issue_eqb (a b : DeliverabilityIssue) : bool :=
  Bool.eqb (is_error a) (is_error b) && (message a =? message b).

Definition warns_unsubscribe (template : option EmailTemplate)
    (recipientCount : nat) (smtpPassword : string) : bool :=
  existsb (issue_eqb unsubscribe_warning)
    (deliverabilityIssues template recipientCount smtpPassword).

(** ** The store of the dispatcher

    Rows are kept in the shape the handler's selects return them: a
    recipient row carries its contact ([select("*, contacts(*)")];
    [contact_id] is NOT NULL with ON DELETE CASCADE, so the joined object is
    always there) and a campaign row carries its template
    ([select("*, email_templates(*)")]; [template_id] is nullable with
    ON DELETE SET NULL, so the joined object may be [null]).  Integer
    columns with a default and no NOT NULL are nullable. *)

Inductive CampaignStatus :=
  CDraft | CScheduled | CSending | CPaused | CCompleted | CFailed.

Inductive RecipientStatus :=
  RPending | RSent | RFailed | ROpened | RClicked | RBounced.

Record Campaign := mkCampaign {
  c_id : string;
  c_name : string;
  email_templates : option EmailTemplate;
  c_status : CampaignStatus;
  total_recipients : option Z;
  sent_count : option Z;
  failed_count : option Z;
  opened_count : option Z;
  clicked_count : option Z;
  scheduled_at : option string;
  started_at : option string;
  completed_at : option string
}.

Record CampaignRecipient := mkRecipient {
  r_id : string;
  campaign_id : string;
  contacts : Contact;
  r_status : RecipientStatus;
  sent_at : option string;
  opened_at : option string;
  clicked_at : option string;
  error_message : option string
}.

Record SmtpSettings := mkSmtpSettings {
  host : string;
  port : Z;
  username : string;
  from_email : string;
  from_name : string;
  use_tls : option bool
}.

Record Store := mkStore {
  campaigns : list Campaign;
  smtp_settings : list SmtpSettings;
  campaign_recipients : list CampaignRecipient
}.

(** ** The environment of one invocation *)

(** A value caught by [catch (err: unknown)]. *)
Inductive Thrown :=
  | ErrorObject (msg : string)
  | OtherValue.

Inductive SendOutcome :=
  | Delivered
  | Rejected (err : Thrown).

Record Connection := mkConnection {
  hostname : string;
  conn_port : Z;
  tls : option bool;
  auth_username : string;
  auth_password : string
}.

Record Message := mkMessage {
  msg_from : string;
  msg_to : string;
  msg_subject : string;
  msg_html : string
}.

(** [clock k] is what the [k]-th evaluation of [new Date().toISOString()]
    of the invocation returns; [smtp_send conn k m] is how the [k]-th call
    of [client.send] of the invocation, with message [m], ends. *)
Record Env := mkEnv {
  clock : nat -> string;
  smtp_send : Connection -> nat -> Message -> SendOutcome
}.

Inductive StoreCall :=
  | SelectCampaign (id : string)
  | SelectSmtpSettings
  | SelectPendingRecipients (cid : string)
  | UpdateCampaign (id : string)
  | UpdateRecipient (id : string)
  | SelectCounters (id : string)
  | CountPendingRecipients (cid : string).

Record World := mkWorld {
  store : Store;
  calls : list StoreCall;
  outbox : list Message;
  clock_reads : nat
}.

(** ** The monad of the handler *)

Definition M (A : Type) : Type := World -> A * World.

Definition ret {A : Type} (a : A) : M A := fun w => (a, w).

Definition bind {A B : Type} (m : M A) (f : A -> M B) : M B :=
  fun w => let (a, w') := m w in f a w'.

Declare Scope handler_scope.
Delimit Scope handler_scope with handler.
Notation "x <- c1 ;; c2" := (bind c1 (fun x => c2))
  (at level 61, c1 at next level, right associativity) : handler_scope.
Notation "c1 ;; c2" := (bind c1 (fun _ => c2))
  (at level 61, right associativity) : handler_scope.
Local Open Scope handler_scope.

Definition with_call (c : StoreCall) (w : World) : World :=
  mkWorld (store w) (calls w ++ [c]) (outbox w) (clock_reads w).

Definition with_store (s : Store) (w : World) : World :=
  mkWorld s (calls w) (outbox w) (clock_reads w).

Definition tick (w : World) : World :=
  mkWorld (store w) (calls w) (outbox w) (S (clock_reads w)).

Definition log (c : StoreCall) : M unit := fun w => (tt, with_call c w).

Definition get_store : M Store := fun w => (store w, w).

Definition put_store (s : Store) : M unit := fun w => (tt, with_store s w).

(** [new Date().toISOString()] *)
Definition now (env : Env) : M string :=
  fun w => (clock env (clock_reads w), tick w).

(** [await client.send(m)] *)
Definition client_send (env : Env) (conn : Connection) (m : Message)
    : M SendOutcome :=
  fun w => (smtp_send env conn (List.length (outbox w)) m,
            mkWorld (store w) (calls w) (outbox w ++ [m]) (clock_reads w)).

(** ** Queries *)

(** [.single()]: data when exactly one row is selected, an error otherwise. *)
Definition single {A : Type} (rows : list A) : option A :=
  match rows with
  | [row] => Some row
  | _ => None
  end.

(** The [{ data, error }] of a select of several rows.  The tables are in
    memory, so a select of several rows always answers. *)
Record QueryResult (A : Type) := mkResult {
  data : option A;
  q_error : option string
}.
Arguments mkResult {A} _ _.
Arguments data {A} _.
Arguments q_error {A} _.

Definition is_pending (r : CampaignRecipient) : bool :=
  match r_status r with
  | RPending => true
  | _ => false
  end.

Definition pending_of (cid : string) (rows : list CampaignRecipient)
    : list CampaignRecipient :=
  filter (fun r => (campaign_id r =? cid) && is_pending r) rows.

Definition select_campaign (cid : string) : M (option Campaign) :=
  log (SelectCampaign cid) ;;
  s <- get_store ;;
  ret (single (filter (fun c => c_id c =? cid) (campaigns s))).

Definition select_smtp_settings : M (option SmtpSettings) :=
  log SelectSmtpSettings ;;
  s <- get_store ;;
  ret (single (firstn 1 (smtp_settings s))).

(** The pending rows of the campaign, at most [limit].  The query has no
    ORDER BY: which [limit] rows of a larger set it returns is the choice of
    the database, taken here to be the first ones of the list. *)
Definition select_pending (cid : string) (limit : nat)
    : M (QueryResult (list CampaignRecipient)) :=
  log (SelectPendingRecipients cid) ;;
  s <- get_store ;;
  ret (mkResult (Some (firstn limit (pending_of cid (campaign_recipients s)))) None).

Definition select_counters (cid : string) : M (option Campaign) :=
  log (SelectCounters cid) ;;
  s <- get_store ;;
  ret (single (filter (fun c => c_id c =? cid) (campaigns s))).

Definition count_pending (cid : string) : M (option Z) :=
  log (CountPendingRecipients cid) ;;
  s <- get_store ;;
  ret (Some (Z.of_nat (List.length (pending_of cid (campaign_recipients s))))).

(** [.update(columns).eq("id", k)] on a table: every row whose key is [k]
    gets the columns. *)
Definition update_where {A : Type} (key : A -> string) (k : string)
    (f : A -> A) (rows : list A) : list A :=
  map (fun r => if key r =? k then f r else r) rows.

Definition update_campaign (cid : string) (f : Campaign -> Campaign) : M unit :=
  log (UpdateCampaign cid) ;;
  s <- get_store ;;
  put_store (mkStore (update_where c_id cid f (campaigns s))
    (smtp_settings s) (campaign_recipients s)).

Definition update_recipient (rid : string)
    (f : CampaignRecipient -> CampaignRecipient) : M unit :=
  log (UpdateRecipient rid) ;;
  s <- get_store ;;
  put_store (mkStore (campaigns s) (smtp_settings s)
    (update_where r_id rid f (campaign_recipients s))).

(** The column sets of the handler's four updates. *)
Definition set_completed (t : string) (c : Campaign) : Campaign :=
  mkCampaign (c_id c) (c_name c) (email_templates c) CCompleted
    (total_recipients c) (sent_count c) (failed_count c) (opened_count c)
    (clicked_count c) (scheduled_at c) (started_at c) (Some t).

Definition set_sending (t : string) (c : Campaign) : Campaign :=
  mkCampaign (c_id c) (c_name c) (email_templates c) CSending
    (total_recipients c) (sent_count c) (failed_count c) (opened_count c)
    (clicked_count c) (scheduled_at c) (Some t) (completed_at c).

Definition set_counts (s f : Z) (c : Campaign) : Campaign :=
  mkCampaign (c_id c) (c_name c) (email_templates c) (c_status c)
    (total_recipients c) (Some s) (Some f) (opened_count c)
    (clicked_count c) (scheduled_at c) (started_at c) (completed_at c).

Definition set_sent (t : string) (r : CampaignRecipient) : CampaignRecipient :=
  mkRecipient (r_id r) (campaign_id r) (contacts r) RSent (Some t)
    (opened_at r) (clicked_at r) (error_message r).

Definition set_failed (errorMsg : string) (r : CampaignRecipient)
    : CampaignRecipient :=
  mkRecipient (r_id r) (campaign_id r) (contacts r) RFailed (sent_at r)
    (opened_at r) (clicked_at r) (Some errorMsg).

(** ** Responses *)

Inductive JValue :=
  | JBool (b : bool)
  | JNum (n : Z)
  | JStr (s : string).

Record Response := mkResponse {
  status : Z;
  body : option (list (string * JValue))
}.

Definition error_response (code : Z) (msg : string) : Response :=
  mkResponse code (Some [("error", JStr msg)]).

(** [new Response(JSON.stringify(o), { headers })]: the status defaults to 200. *)
Definition ok_response (o : list (string * JValue)) : Response :=
  mkResponse 200 (Some o).

Fixpoint jget (key : string) (o : list (string * JValue)) : option JValue :=
  match o with
  | [] => None
  | (k, v) :: o' => if k =? key then Some v else jget key o'
  end.

Definition field (key : string) (r : Response) : option JValue :=
  match body r with
  | Some o => jget key o
  | None => None
  end.

(** [a || 0] on a nullable number. *)
Definition or_zero (a : option Z) : Z :=
  match a with
  | Some z => z
  | None => 0
  end.

(** [err instanceof Error ? err.message : fallback] *)
Definition message_or (fallback : string) (err : Thrown) : string :=
  match err with
  | ErrorObject m => m
  | OtherValue => fallback
  end.

(** ** The dispatcher (index.ts, serve) *)

Record Request := mkRequest {
  method : string;
  json : Thrown + (option string * option string)
}.

(** The message of one recipient, as [client.send] receives it. *)
Definition message_for (smtpSettings : SmtpSettings) (template : EmailTemplate)
    (contact : Contact) : Message :=
  let subject := replacePlaceholders (subject template) contact in
  let html := replacePlaceholders (html_content template) contact in
  mkMessage (from_name smtpSettings ++ " <" ++ from_email smtpSettings ++ ">")
    (email contact) subject html.

Definition null_template_error : Thrown :=
  ErrorObject "Cannot read properties of null (reading 'subject')".

(** One iteration's [try] block up to and including [await client.send]:
    with a [null] template, reading [template.subject] throws a TypeError
    before anything is sent. *)
Definition deliver (env : Env) (conn : Connection) (smtpSettings : SmtpSettings)
    (template : option EmailTemplate) (contact : Contact) : M SendOutcome :=
  match template with
  | None => ret (Rejected null_template_error)
  | Some t => client_send env conn (message_for smtpSettings t contact)
  end.

(** The [for (const recipient of recipients)] loop. *)
Fixpoint send_batch (env : Env) (conn : Connection) (smtpSettings : SmtpSettings)
    (template : option EmailTemplate) (recipients : list CampaignRecipient)
    (sentCount failedCount : Z) : M (Z * Z) :=
  match recipients with
  | [] => ret (sentCount, failedCount)
  | recipient :: rest =>
      outcome <- deliver env conn smtpSettings template (contacts recipient) ;;
      match outcome with
      | Delivered =>
          t <- now env ;;
          update_recipient (r_id recipient) (set_sent t) ;;
          send_batch env conn smtpSettings template rest (sentCount + 1) failedCount
      | Rejected err =>
          update_recipient (r_id recipient)
            (set_failed (message_or "Unknown error" err)) ;;
          send_batch env conn smtpSettings template rest sentCount (failedCount + 1)
      end
  end.

(** The handler after the request has been validated.  The calls whose
    failure the source does not look at are taken to succeed: the updates
    of the store, [new SMTPClient(...)] and [await client.close()]; the
    last two leave the world as it is. *)
Definition dispatch (env : Env) (campaign_id smtp_password : string) : M Response :=
  campaign <- select_campaign campaign_id ;;
  match campaign with
  | None => ret (error_response 404 "Campaign not found")
  | Some campaign =>
      smtpSettings <- select_smtp_settings ;;
      match smtpSettings with
      | None => ret (error_response 400 "SMTP settings not configured")
      | Some smtpSettings =>
          recipients <- select_pending campaign_id 50 ;;
          match q_error recipients with
          | Some _ => ret (error_response 500 "Failed to fetch recipients")
          | None =>
              match data recipients with
              | None | Some [] =>
                  t <- now env ;;
                  update_campaign campaign_id (set_completed t) ;;
                  ret (ok_response
                         [("success", JBool true);
                          ("message", JStr "No pending recipients");
                          ("sent", JNum 0)])
              | Some recipients =>
                  started <- (if truthy (started_at campaign)
                              then ret (or_empty (started_at campaign))
                              else now env) ;;
                  update_campaign campaign_id (set_sending started) ;;
                  let conn :=
                    mkConnection (host smtpSettings) (port smtpSettings)
                      (use_tls smtpSettings) (username smtpSettings)
                      smtp_password in
                  counts <- send_batch env conn smtpSettings
                              (email_templates campaign) recipients 0 0 ;;
                  let sentCount := fst counts in
                  let failedCount := snd counts in
                  currentCampaign <- select_counters campaign_id ;;
                  update_campaign campaign_id
                    (set_counts
                       (or_zero (match currentCampaign with
                                 | Some c => sent_count c
                                 | None => None
                                 end) + sentCount)
                       (or_zero (match currentCampaign with
                                 | Some c => failed_count c
                                 | None => None
                                 end) + failedCount)) ;;
                  count <- count_pending campaign_id ;;
                  ret (ok_response
                         [("success", JBool true);
                          ("sent", JNum sentCount);
                          ("failed", JNum failedCount);
                          ("remaining", JNum (or_zero count));
                          ("message",
                           JStr (if (0 <? or_zero count)%Z
                                 then "Batch completed, more recipients pending"
                                 else "All emails sent"))])
              end
          end
      end
  end.

(** [serve(async (req) => ...)].  The request body is what [await req.json()]
    gives: a thrown value, or the two destructured fields. *)
Definition serve (env : Env) (req : Request) : M Response :=
  if method req =? "OPTIONS" then ret (mkResponse 200 None)
  else
    match json req with
    | inl err => ret (error_response 500 (message_or "Failed to send bulk emails" err))
    | inr (campaign_id, smtp_password) =>
        if negb (truthy campaign_id) || negb (truthy smtp_password) then
          ret (error_response 400 "Missing campaign_id or smtp_password")
        else dispatch env (or_empty campaign_id) (or_empty smtp_password)
    end.

(** A well-formed POST with both fields. *)
Definition post (campaign_id smtp_password : string) : Request :=
  mkRequest "POST" (inr (Some campaign_id, Some smtp_password)).

(** ** Sequential re-invocation *)

(** The world after [n] invocations in sequence, [envs k] being the
    environment of the [k]-th of them (counted from 0). *)
Fixpoint invoke_n (envs : nat -> Env) (req : Request) (n : nat) (w : World) : World :=
  match n with
  | O => w
  | S k => snd (serve (envs k) req (invoke_n envs req k w))
  end.

(** ** Observations on a store *)

Definition find_campaign (cid : string) (s : Store) : option Campaign :=
  find (fun c => c_id c =? cid) (campaigns s).

Definition pending_count (cid : string) (s : Store) : Z :=
  Z.of_nat (List.length (pending_of cid (campaign_recipients s))).

(** The campaign [cid] resolves to the row [c], as [.eq("id", cid).single()]
    resolves it. *)
Definition found (cid : string) (s : Store) (c : Campaign) : Prop :=
  single (filter (fun x => c_id x =? cid) (campaigns s)) = Some c.

(** A numeric field of a response body; an absent field counts as 0. *)
Definition count_field (key : string) (r : Response) : Z :=
  match field key r with
  | Some (JNum n) => n
  | _ => 0%Z
  end.

(** How the [k]-th [client.send] of a session ends for a contact; with a
    [null] template nothing is sent and the iteration ends in a TypeError. *)
Definition outcome_of (env : Env) (conn : Connection) (smtpSettings : SmtpSettings)
    (template : option EmailTemplate) (k : nat) (contact : Contact) : SendOutcome :=
  match template with
  | None => Rejected null_template_error
  | Some t => smtp_send env conn k (message_for smtpSettings t contact)
  end.

(** The number of [client.send] calls made for the first [i] recipients. *)
Definition sends_before (template : option EmailTemplate) (i : nat) : nat :=
  match template with
  | None => 0
  | Some _ => i
  end.

(** The row update of one iteration of the loop, by its outcome. *)
Definition mark_recipient (o : SendOutcome) (t : string)
    : CampaignRecipient -> CampaignRecipient :=
  match o with
  | Delivered => set_sent t
  | Rejected err => set_failed (message_or "Unknown error" err)
  end.

(** The world after the iteration for recipient [r] has ended with [o]. *)
Definition after_recipient (env : Env) (smtpSettings : SmtpSettings)
    (template : option EmailTemplate) (o : SendOutcome) (r : CampaignRecipient)
    (w : World) : World :=
  mkWorld
    (mkStore (campaigns (store w)) (smtp_settings (store w))
       (update_where r_id (r_id r) (mark_recipient o (clock env (clock_reads w)))
          (campaign_recipients (store w))))
    (calls w ++ [UpdateRecipient (r_id r)])
    (outbox w ++ match template with
                 | Some t => [message_for smtpSettings t (contacts r)]
                 | None => []
                 end)
    (match o with
     | Delivered => S (clock_reads w)
     | Rejected _ => clock_reads w
     end).

(** The campaign [cid] can be dispatched and its books balance: it resolves
    to [c], SMTP settings exist, recipient ids are a primary key, and the
    counters of [c] together with its pending rows make up [total]. *)
Definition balanced (cid : string) (s : Store) (c : Campaign) (total : Z) : Prop :=
  found cid s c
  /\ smtp_settings s <> []
  /\ NoDup (map r_id (campaign_recipients s))
  /\ total_recipients c = Some total
  /\ (or_zero (sent_count c) + or_zero (failed_count c) + pending_count cid s
      = total)%Z.

(** ** Concrete inputs *)

Definition ann : Contact := mkContact "k1" "ann@example.com" (Some "Ann") (Some "Lee") None.
Definition bob : Contact := mkContact "k2" "bob@example.com" (Some "Bob") None (Some "Acme").

Definition welcome : EmailTemplate :=
  mkTemplate "t1" "Hello {{first_name}}" "<p>Hi {{first_name}} of {{company}}</p>".

Definition settings1 : SmtpSettings :=
  mkSmtpSettings "smtp.example.com" 587 "mailer" "news@example.com" "News" (Some true).

Definition env1 : Env :=
  mkEnv (fun k => "2026-02-01T00:00:0" ++ show_nat k ++ ".000Z")
        (fun _ k _ => if (k =? 1)%nat then Rejected (ErrorObject "550 mailbox unavailable")
                      else Delivered).

Definition campaign1 (st : CampaignStatus) (sent done : option string) : Campaign :=
  mkCampaign "c1" "January news" (Some welcome) st (Some 2%Z) (Some 2%Z) (Some 0%Z)
    (Some 0%Z) (Some 0%Z) None sent done.

Definition row (rid : string) (k : Contact) (st : RecipientStatus) : CampaignRecipient :=
  mkRecipient rid "c1" k st None None None None.

Definition world_of (s : Store) : World := mkWorld s [] [] 0.

Definition conn1 : Connection :=
  mkConnection "smtp.example.com" 587 (Some true) "mailer" "pw".

Definition rows3 : list CampaignRecipient :=
  [row "r1" ann RPending; row "r2" bob RPending; row "r3" ann RPending].

(** Five pending recipients and a server that rejects the third message. *)
Definition rows5 : list CampaignRecipient :=
  [row "r1" ann RPending; row "r2" bob RPending; row "r3" ann RPending;
   row "r4" bob RPending; row "r5" ann RPending].

Definition env_third_fails : Env :=
  mkEnv (fun _ => "2026-02-01T00:00:00.000Z")
        (fun _ k _ => if (k =? 2)%nat then Rejected (ErrorObject "550 rejected")
                      else Delivered).

(** A server that rejects the second message with an [Error] whose message
    is empty. *)
Definition env_empty_error : Env :=
  mkEnv (fun _ => "2026-02-01T00:00:00.000Z")
        (fun _ k _ => if (k =? 1)%nat then Rejected (ErrorObject "") else Delivered).

(** A template whose unsubscribe link is capitalised. *)
Definition newsletter : EmailTemplate :=
  mkTemplate "t2" "News" "<p>Hi</p><a href='/u'>Unsubscribe</a>".

(** A completed campaign, nothing pending. *)
Definition world_completed : World :=
  world_of (mkStore
    [campaign1 CCompleted (Some "2026-01-01T00:00:00.000Z")
       (Some "2026-01-01T00:10:00.000Z")]
    [settings1] [row "r1" ann RSent; row "r2" bob RSent]).

(** A paused campaign with three pending recipients. *)
Definition world_paused : World :=
  world_of (mkStore
    [campaign1 CPaused (Some "2026-01-01T00:00:00.000Z") None]
    [settings1] rows3).

(** A fresh draft campaign: three recipients, all pending, counters at 0. *)
Definition campaign_fresh : Campaign :=
  mkCampaign "c1" "January news" (Some welcome) CDraft (Some 3%Z) (Some 0%Z)
    (Some 0%Z) (Some 0%Z) (Some 0%Z) None None None.

Definition world_fresh : World :=
  world_of (mkStore [campaign_fresh] [settings1] rows3).

(** A draft campaign in a store without SMTP settings. *)
Definition world_no_smtp : World :=
  world_of (mkStore [campaign1 CDraft None None] [] [row "r1" ann RPending]).

(** Two campaign rows agree on every column but [completed_at]. *)
Definition same_but_completed_at (c c' : Campaign) : Prop :=
  c_id c' = c_id c /\ c_name c' = c_name c
  /\ email_templates c' = email_templates c /\ c_status c' = c_status c
  /\ total_recipients c' = total_recipients c
  /\ sent_count c' = sent_count c /\ failed_count c' = failed_count c
  /\ opened_count c' = opened_count c /\ clicked_count c' = clicked_count c
  /\ scheduled_at c' = scheduled_at c /\ started_at c' = started_at c.

(** The setup preconditions of a dispatch fail: a credential or the campaign
    id is missing, the campaign is not found, or no SMTP settings exist. *)
Definition setup_fails (campaign_id smtp_password : option string) (s : Store)
    : Prop :=
  truthy campaign_id = false
  \/ truthy smtp_password = false
  \/ single (filter (fun c => c_id c =? or_empty campaign_id) (campaigns s)) = None
  \/ smtp_settings s = [].

(** A campaign whose template has been deleted, two recipients pending. *)
Definition campaign_no_template : Campaign :=
  mkCampaign "c1" "January news" None CDraft (Some 2%Z) (Some 0%Z)
    (Some 0%Z) (Some 0%Z) (Some 0%Z) None None None.

Definition world_no_template : World :=
  world_of (mkStore [campaign_no_template] [settings1]
              [row "r1" ann RPending; row "r2" bob RPending]).

(** Two campaigns side by side; the second has one pending and one sent row. *)
Definition campaign_other : Campaign :=
  mkCampaign "c2" "February news" (Some welcome) CSending (Some 2%Z) (Some 1%Z)
    (Some 0%Z) (Some 0%Z) (Some 0%Z) None (Some "2026-01-15T00:00:00.000Z") None.

Definition world_two : World :=
  world_of (mkStore [campaign_fresh; campaign_other] [settings1]
              (rows3 ++ [mkRecipient "r8" "c2" ann RSent
                           (Some "2026-01-15T00:00:01.000Z") None None None;
                         mkRecipient "r9" "c2" bob RPending None None None None])).

(** A campaign of 120 recipients, all pending. *)
Fixpoint many_rows (k n : nat) : list CampaignRecipient :=
  match n with
  | O => []
  | S n' =>
      mkRecipient ("r" ++ show_nat k) "c1" (if Nat.even k then ann else bob)
        RPending None None None None
      :: many_rows (S k) n'
  end.

Definition campaign_large : Campaign :=
  mkCampaign "c1" "January news" (Some welcome) CDraft (Some 120%Z) (Some 0%Z)
    (Some 0%Z) (Some 0%Z) (Some 0%Z) None None None.

Definition world_large : World :=
  world_of (mkStore [campaign_large] [settings1] (many_rows 1 120)).

(** ** Field values and dollar signs *)

(** A contact without a first name, with a dollar sign in the company. *)
Definition contact_cash : Contact :=
  mkContact "k3" "lee@example.com" None (Some "Lee") (Some "Ca$h & Carry").

(** A company with the pattern [$&] in its name. *)
Definition contact_dollar : Contact :=
  mkContact "k4" "pat@example.com" (Some "Pat") None (Some "AT$&T").

(** A first name that holds a token. *)
Definition contact_braces : Contact :=
  mkContact "k5" "lee@example.com" (Some "{{last_name}}") (Some "Lee") None.

(** No dollar sign of [v] begins one of the four patterns that
    [GetSubstitution] expands: [$$], [$&], [$`] and [$']. *)
Fixpoint dollar_literal (v : string) : bool :=
  match v with
  | EmptyString => true
  | String c r =>
      (if Ascii.eqb c "$" then
         match r with
         | EmptyString => true
         | String d _ =>
             negb (Ascii.eqb d "$" || Ascii.eqb d "&" || Ascii.eqb d "`"
                   || Ascii.eqb d "'")
         end
       else true)
      && dollar_literal r
  end.

(** A field value with no opening brace and no expanding dollar pattern. *)
Definition safe (v : string) : bool :=
  negb (has_char "{" v) && dollar_literal v.

Definition safe_contact (c : Contact) : bool :=
  forallb (fun t => safe (tag_value c t))
    [TagFirstName; TagLastName; TagEmail; TagCompany].

(** The pieces of a rendered template: every tag has become text. *)
Definition settle (c : Contact) (p : Piece) : Piece :=
  match p with
  | Tag t => Text (tag_value c t)
  | _ => p
  end.

(** ** The campaign wizard (CampaignCreate): its data *)

(** The wizard's [Contact]: the merge fields of the dispatcher's [Contact]
    with the tags (a nullable array) and the status. *)
Record WizardContact := mkWizardContact {
  fields : Contact;
  tags : option (list string);
  contact_status : string
}.

Inductive RuleField := FieldTags | FieldCompany | FieldStatus | FieldEmailDomain.

Inductive RuleOperator :=
  OpContains | OpEquals | OpNotContains | OpStartsWith | OpEndsWith.

Record SegmentRule := mkRule {
  rule_id : string;
  rule_field : RuleField;
  rule_operator : RuleOperator;
  rule_value : string
}.

Inductive SelectionMode := ModeAll | ModeManual | ModeSegment.

Inductive SegmentLogic := LogicAnd | LogicOr.

Inductive ScheduledTime := SendNow | SendScheduled.

(** The React state of the wizard that its functions read.  The set
    [selectedContacts] is kept as the list of its elements. *)
Record WizardState := mkWizard {
  wz_contacts : list WizardContact;
  wz_templates : list EmailTemplate;
  selectionMode : SelectionMode;
  selectedContacts : list string;
  segmentRules : list SegmentRule;
  segmentLogic : SegmentLogic;
  selectedTemplate : option string;
  campaignName : string;
  scheduledTime : ScheduledTime;
  smtpPassword : string
}.

(** ** Smart segmentation (getFilteredContacts) *)

(** [l.join(sep)] *)
Fixpoint join (sep : string) (l : list string) : string :=
  match l with
  | [] => ""
  | [x] => x
  | x :: l' => x ++ sep ++ join sep l'
  end.

(** The text before the first [a], and the text behind it if there is one. *)
Fixpoint upto (a : ascii) (s : string) : string :=
  match s with
  | EmptyString => EmptyString
  | String c s' => if Ascii.eqb c a then EmptyString else String c (upto a s')
  end.

Fixpoint behind (a : ascii) (s : string) : option string :=
  match s with
  | EmptyString => None
  | String c s' => if Ascii.eqb c a then Some s' else behind a s'
  end.

(** [email.split('@')[1] || ''] *)
Definition email_domain (email : string) : string :=
  match behind "@" email with
  | Some rest => upto "@" rest
  | None => ""
  end.

(** [s.endsWith(suffix)] *)
Fixpoint ends_with (s suffix : string) : bool :=
  (s =? suffix) ||
  match s with
  | EmptyString => false
  | String _ s' => ends_with s' suffix
  end.

Definition field_value (rule : SegmentRule) (contact : WizardContact) : string :=
  match rule_field rule with
  | FieldTags => or_empty (option_map (join ",") (tags contact))
  | FieldCompany => or_empty (company (fields contact))
  | FieldStatus => or_empty (Some (contact_status contact))
  | FieldEmailDomain => email_domain (email (fields contact))
  end.

Definition rule_matches (rule : SegmentRule) (contact : WizardContact) : bool :=
  let val := toLowerCase (field_value rule contact) in
  let ruleVal := toLowerCase (rule_value rule) in
  match rule_operator rule with
  | OpContains => includes val ruleVal
  | OpEquals => val =? ruleVal
  | OpNotContains => negb (includes val ruleVal)
  | OpStartsWith => prefix ruleVal val
  | OpEndsWith => ends_with val ruleVal
  end.

Definition getFilteredContacts (st : WizardState) : list WizardContact :=
  match selectionMode st with
  | ModeAll => wz_contacts st
  | ModeManual =>
      filter (fun c => existsb (String.eqb (contact_id (fields c)))
                         (selectedContacts st))
        (wz_contacts st)
  | ModeSegment =>
      match segmentRules st with
      | [] => wz_contacts st
      | _ =>
          filter (fun contact =>
                    let results :=
                      map (fun rule => rule_matches rule contact) (segmentRules st) in
                    match segmentLogic st with
                    | LogicAnd => forallb (fun r => r) results
                    | LogicOr => existsb (fun r => r) results
                    end)
            (wz_contacts st)
      end
  end.

Definition recipientCount (st : WizardState) : nat :=
  List.length (getFilteredContacts st).

(** The rule [addSegmentRule] appends, [id] being the fresh UUID. *)
Definition default_rule (id : string) : SegmentRule :=
  mkRule id FieldTags OpContains "".

(** ** The preview of the campaign wizard (getPreviewContent) *)

(** A text of the ASCII range.  For such a text the bytes are the UTF-16
    code units, one each, so that [String.length] is [s.length], and the
    white space of [s.trim()] is the white space of the ASCII range. *)
Fixpoint ascii_only (s : string) : bool :=
  match s with
  | EmptyString => true
  | String c s' => (nat_of_ascii c <? 128)%nat && ascii_only s'
  end.

(** [s.trim()] on a text of the ASCII range, whose white space is tab, line
    feed, vertical tab, form feed, carriage return and space.  (On other
    texts [trim()] also strips U+00A0, U+FEFF and the further Unicode white
    space; statements about [trim] are made for ASCII texts only.) *)
Definition is_space (c : ascii) : bool :=
  let n := nat_of_ascii c in
  ((9 <=? n)%nat && (n <=? 13)%nat) || (n =? 32)%nat.

Fixpoint trim_start (s : string) : string :=
  match s with
  | EmptyString => EmptyString
  | String c s' => if is_space c then trim_start s' else s
  end.

Fixpoint trim_end (s : string) : string :=
  match s with
  | EmptyString => EmptyString
  | String c s' =>
      match trim_end s' with
      | EmptyString => if is_space c then EmptyString else String c EmptyString
      | t => String c t
      end
  end.

Definition trim (s : string) : string := trim_end (trim_start s).

(** [a || 'there'] *)
Definition or_there (a : option string) : string :=
  if truthy a then or_empty a else "there".

(** The replacement of [{{full_name}}] in the preview. *)
Definition full_name_of (c : Contact) : string :=
  or_there (Some (trim (or_empty (first_name c) ++ " " ++ or_empty (last_name c)))).

(** The chain of replaces applied to the subject and to the content. *)
Definition previewText (text : string) (sampleContact : Contact) : string :=
  replace_g "{{full_name}}" (full_name_of sampleContact)
    (replace_g "{{company}}" (or_empty (company sampleContact))
       (replace_g "{{email}}" (or_empty (Some (email sampleContact)))
          (replace_g "{{last_name}}" (or_empty (last_name sampleContact))
             (replace_g "{{first_name}}" (or_there (first_name sampleContact))
                text)))).

(** The sample used when no contact is selected; its id is never read. *)
Definition sample_default : Contact :=
  mkContact "" "john@example.com" (Some "John") (Some "Doe") (Some "Acme Inc").

(** [templates.find(t => t.id === selectedTemplate)]; [selectedTemplate] is
    [null] until a template is chosen. *)
Definition find_template (st : WizardState) : option EmailTemplate :=
  find (fun t => match selectedTemplate st with
                 | Some id => template_id t =? id
                 | None => false
                 end) (wz_templates st).

Definition getPreviewContent (st : WizardState) : string * string :=
  match find_template st with
  | None => ("", "")
  | Some template =>
      let sampleContact := match getFilteredContacts st with
                           | c :: _ => fields c
                           | [] => sample_default
                           end in
      (previewText (subject template) sampleContact,
       previewText (html_content template) sampleContact)
  end.

(** The preview as one pass over the pieces: [{{first_name}}] falls back
    to [there], [{{full_name}}] is the trimmed full name or [there]. *)
Definition preview_piece (c : Contact) (p : Piece) : string :=
  match p with
  | Text s => s
  | Tag TagFirstName => or_there (first_name c)
  | Tag t => tag_value c t
  | Unknown name => if name =? "full_name" then full_name_of c else token name
  end.

Fixpoint preview_spec (c : Contact) (ps : list Piece) : string :=
  match ps with
  | [] => ""
  | p :: ps' => preview_piece c p ++ preview_spec c ps'
  end.

(** The values the preview inserts are safe. *)
Definition safe_sample (c : Contact) : bool :=
  safe (or_there (first_name c)) && safe (tag_value c TagLastName)
  && safe (tag_value c TagEmail) && safe (tag_value c TagCompany)
  && safe (full_name_of c).

(** The pieces after the pass for a token that is not a merge tag. *)
Definition fill_unknown (name v : string) (p : Piece) : Piece :=
  match p with
  | Unknown n => if n =? name then Text v else p
  | _ => p
  end.

Definition is_full_name (p : Piece) : bool :=
  match p with
  | Unknown n => n =? "full_name"
  | _ => false
  end.

(** ** The segment rules of the wizard *)

(** [addSegmentRule], [uuid] being the value of [crypto.randomUUID()]. *)
Definition addSegmentRule (uuid : string) (rules : list SegmentRule)
    : list SegmentRule :=
  rules ++ [default_rule uuid].

(** A [Partial<SegmentRule>]. *)
Record RuleUpdates := mkUpdates {
  new_id : option string;
  new_field : option RuleField;
  new_operator : option RuleOperator;
  new_value : option string
}.

(** [{ ...r, ...updates }] *)
Definition apply_updates (u : RuleUpdates) (r : SegmentRule) : SegmentRule :=
  mkRule
    (match new_id u with Some x => x | None => rule_id r end)
    (match new_field u with Some x => x | None => rule_field r end)
    (match new_operator u with Some x => x | None => rule_operator r end)
    (match new_value u with Some x => x | None => rule_value r end).

Definition updateSegmentRule (id : string) (updates : RuleUpdates)
    (rules : list SegmentRule) : list SegmentRule :=
  map (fun r => if rule_id r =? id then apply_updates updates r else r) rules.

Definition removeSegmentRule (id : string) (rules : list SegmentRule)
    : list SegmentRule :=
  filter (fun r => negb (rule_id r =? id)) rules.

(** The state after [setSegmentRules(rules)]. *)
Definition with_rules (rules : list SegmentRule) (st : WizardState) : WizardState :=
  mkWizard (wz_contacts st) (wz_templates st) (selectionMode st)
    (selectedContacts st) rules (segmentLogic st) (selectedTemplate st)
    (campaignName st) (scheduledTime st) (smtpPassword st).

(** ** The steps of the wizard and the creation of a campaign *)

Definition canProceed (step : nat) (st : WizardState) : bool :=
  match step with
  | 1 => (0 <? recipientCount st)%nat
  | 2 => truthy (selectedTemplate st)
  | 3 => truthy (Some (campaignName st)) && truthy (Some (smtpPassword st))
  | 4 => true
  | _ => false
  end.

(** The deliverability check on the state of the wizard. *)
Definition check_issues (st : WizardState) : list DeliverabilityIssue :=
  deliverabilityIssues (find_template st) (recipientCount st) (smtpPassword st).

Definition reports (i : DeliverabilityIssue) (issues : list DeliverabilityIssue)
    : bool :=
  existsb (issue_eqb i) issues.

Definition slow_send_warning (n : nat) : DeliverabilityIssue :=
  mkIssue warning
    ("Sending to " ++ show_nat n ++ " recipients. Consider using slow-send settings.").

Definition subject_warning : DeliverabilityIssue :=
  mkIssue warning "Subject line is longer than 60 characters (may be truncated)".

(** The CHECK constraint on [campaigns.status] (first migration). *)
Definition status_allowed (st : CampaignStatus) : bool :=
  match st with
  | CDraft | CSending | CPaused | CCompleted | CFailed => true
  | CScheduled => false
  end.

(** The strings of a list are pairwise distinct. *)
Fixpoint distinct (l : list string) : bool :=
  match l with
  | [] => true
  | x :: l' => negb (existsb (String.eqb x) l') && distinct l'
  end.

(** The rows [filteredContacts.map(...)] inserts, the [k]-th and following
    values of [gen_random_uuid()] as their ids, the other columns at their
    defaults. *)
Fixpoint new_rows (uuid : nat -> string) (cid : string)
    (cs : list WizardContact) (k : nat) : list CampaignRecipient :=
  match cs with
  | [] => []
  | c :: cs' =>
      mkRecipient (uuid k) cid (fields c) RPending None None None None
      :: new_rows uuid cid cs' (S k)
  end.

Inductive CreateOutcome :=
  | Blocked
  | Failed
  | Created (request : option Request).

(** [handleCreateCampaign].  [uuid k] is the [k]-th value [gen_random_uuid()]
    gives; the templates of the wizard are the rows of [email_templates].
    An insert fails, and stores nothing, when it violates a constraint of
    the schema: the CHECK on the status, the foreign key of the template,
    a primary key.  With [scheduledTime = 'scheduled'] the status is
    [scheduled], which the CHECK rejects, so [scheduled_at] is never
    stored.  The outcomes stand for the three toasts; [Created] carries the
    request of the fire-and-forget [fetch], if one is made. *)
Definition handleCreateCampaign (uuid : nat -> string) (st : WizardState)
    (s : Store) : CreateOutcome * Store :=
  if negb (runDeliverabilityCheck (find_template st) (recipientCount st)
             (smtpPassword st))
  then (Blocked, s)
  else
    let status := match scheduledTime st with
                  | SendScheduled => CScheduled
                  | SendNow => CDraft
                  end in
    let id := uuid 0 in
    let template := find_template st in
    if negb (status_allowed status)
       || (match selectedTemplate st, template with
           | Some _, None => true
           | _, _ => false
           end)
       || existsb (fun c => c_id c =? id) (campaigns s)
    then (Failed, s)
    else
      let campaign :=
        mkCampaign id (campaignName st) template status
          (Some (Z.of_nat (recipientCount st))) (Some 0%Z) (Some 0%Z) (Some 0%Z)
          (Some 0%Z) None None None in
      let s1 := mkStore (campaigns s ++ [campaign]) (smtp_settings s)
                  (campaign_recipients s) in
      let recipients := new_rows uuid id (getFilteredContacts st) 1 in
      if negb (distinct (map r_id (campaign_recipients s ++ recipients)))
      then (Failed, s1)
      else
        (Created (match scheduledTime st with
                  | SendNow => Some (post id (smtpPassword st))
                  | SendScheduled => None
                  end),
         mkStore (campaigns s1) (smtp_settings s1)
           (campaign_recipients s ++ recipients)).

(** ** Concrete inputs of the wizard *)

Definition ann_w : WizardContact := mkWizardContact ann (Some ["vip"; "press"]) "active".
Definition bob_w : WizardContact := mkWizardContact bob None "active".

Definition wizard1 : WizardState :=
  mkWizard [ann_w; bob_w] [welcome] ModeAll [] [] LogicAnd (Some "t1")
    "January news" SendNow "pw".

Definition uuid1 (k : nat) : string := "u" ++ show_nat k.

(** Templates whose subjects have 61 and 60 characters. *)
Definition full_subject : EmailTemplate :=
  mkTemplate "t4" "Your January newsletter from the whole team at Example Works"
    "<p>News</p>".

Definition long_subject : EmailTemplate :=
  mkTemplate "t3" "Your January newsletter from the whole team at Example Studio" "<p>News</p>".

(** The wizard in segment mode with one rule. *)
Definition wizard_segment : WizardState :=
  mkWizard [ann_w; bob_w] [welcome] ModeSegment []
    [mkRule "u1" FieldEmailDomain OpEndsWith "example.com"] LogicAnd (Some "t1")
    "January news" SendNow "pw".

(** The wizard of [wizard1] with "schedule for later" chosen. *)
Definition wizard_scheduled : WizardState :=
  mkWizard [ann_w; bob_w] [welcome] ModeAll [] [] LogicAnd (Some "t1")
    "January news" SendScheduled "pw".

(** The wizard with an audience of 60 contacts. *)
Fixpoint many_contacts (k n : nat) : list WizardContact :=
  match n with
  | O => []
  | S n' =>
      mkWizardContact
        (mkContact ("k" ++ show_nat k) ("user" ++ show_nat k ++ "@example.com")
           (Some "Ann") None None)
        None "active"
      :: many_contacts (S k) n'
  end.

Definition wizard_large : WizardState :=
  mkWizard (many_contacts 1 60) [welcome] ModeAll [] [] LogicAnd (Some "t1")
    "January news" SendNow "pw".

(** A store with the SMTP settings and no campaign yet. *)
Definition store_new : Store := mkStore [] [settings1] [].

(* ===================================================================== *)
(** * Theorems *)
(* ===================================================================== *)

(** ** Strings *)

Lemma append_assoc (s1 s2 s3 : string) : (s1 ++ s2) ++ s3 = s1 ++ (s2 ++ s3).
Proof.
  induction s1 as [|a s1 IH]; cbn; [reflexivity | rewrite IH; reflexivity].
Qed.

Lemma append_nil_r (s : string) : s ++ "" = s.
Proof.
  induction s as [|a s IH]; cbn; [reflexivity | rewrite IH; reflexivity].
Qed.

Lemma prefix_cons_ne (a b : ascii) (p s : string) :
  a <> b -> prefix (String a p) (String b s) = false.
Proof.
  intros H. cbn. destruct (ascii_dec a b); [contradiction | reflexivity].
Qed.

Lemma prefix_cons_eq (a : ascii) (p s : string) :
  prefix (String a p) (String a s) = prefix p s.
Proof.
  cbn. destruct (ascii_dec a a); [reflexivity | contradiction].
Qed.

Lemma prefix_append (p s : string) : prefix p (p ++ s) = true.
Proof.
  induction p as [|a p IH]; cbn [append].
  - destruct s; reflexivity.
  - rewrite prefix_cons_eq. exact IH.
Qed.

Lemma drop_append (p s : string) : drop (String.length p) (p ++ s) = s.
Proof.
  induction p as [|a p IH]; cbn; [destruct s; reflexivity | exact IH].
Qed.

Lemma has_char_append (a : ascii) (s t : string) :
  has_char a (s ++ t) = has_char a s || has_char a t.
Proof.
  induction s as [|b s IH]; cbn; [reflexivity|].
  rewrite IH, orb_assoc. reflexivity.
Qed.

Lemma has_char_cons_false (a b : ascii) (s : string) :
  has_char a (String b s) = false -> a <> b /\ has_char a s = false.
Proof.
  cbn. intros H. apply orb_false_iff in H. destruct H as [H1 H2].
  split; [apply Ascii.eqb_neq; exact H1 | exact H2].
Qed.

Lemma getSubstitution_literal (m b a v : string) :
  dollar_literal v = true -> getSubstitution m b a v = v.
Proof.
  induction v as [|c r IH]; intros H; [reflexivity|].
  cbn [dollar_literal] in H. apply andb_true_iff in H. destruct H as [Hc Hr].
  cbn [getSubstitution]. destruct (Ascii.eqb c "$") eqn:E.
  - apply Ascii.eqb_eq in E. subst c. destruct r as [|d r'].
    + reflexivity.
    + apply negb_true_iff in Hc.
      repeat (apply orb_false_iff in Hc; destruct Hc as [Hc ?]).
      rewrite Hc. repeat match goal with H : Ascii.eqb d _ = false |- _ =>
                          rewrite H; clear H end.
      rewrite (IH Hr). reflexivity.
  - rewrite (IH Hr). reflexivity.
Qed.

(** ** The scan of one [replace] *)

Lemma replace_from_cons (pat v before : string) (c : ascii) (rest : string) :
  replace_from pat v 0 before (String c rest)
  = if prefix pat (String c rest)
    then getSubstitution pat before (drop (String.length pat) (String c rest)) v
         ++ replace_from pat v (String.length pat - 1) (before ++ String c "") rest
    else String c (replace_from pat v 0 (before ++ String c "") rest).
Proof. reflexivity. Qed.

(** Text without an opening brace is copied. *)
Lemma replace_from_text (pat v s : string) :
  forall before rest,
    has_char "{" s = false ->
    replace_from (String "{" pat) v 0 before (s ++ rest)
    = s ++ replace_from (String "{" pat) v 0 (before ++ s) rest.
Proof.
  induction s as [|a s IH]; intros before rest H.
  - cbn [append]. rewrite append_nil_r. reflexivity.
  - apply has_char_cons_false in H. destruct H as [Ha Hs].
    cbn [append]. rewrite replace_from_cons, prefix_cons_ne by exact Ha.
    rewrite (IH _ _ Hs), append_assoc. reflexivity.
Qed.

(** The characters of a match are passed over. *)
Lemma replace_from_skip (pat v u : string) :
  forall before rest,
    replace_from pat v (String.length u) before (u ++ rest)
    = replace_from pat v 0 (before ++ u) rest.
Proof.
  induction u as [|a u IH]; intros before rest.
  - cbn [append String.length]. rewrite append_nil_r. reflexivity.
  - cbn [append String.length replace_from]. rewrite IH, append_assoc. reflexivity.
Qed.

(** Text whose opening braces stand alone is copied by the scan for a
    token, whatever follows the text. *)
Lemma replace_from_lone (pat v s : string) :
  forall before rest,
    lone_braces s = true ->
    replace_from (String "{" (String "{" pat)) v 0 before (s ++ rest)
    = s ++ replace_from (String "{" (String "{" pat)) v 0 (before ++ s) rest.
Proof.
  induction s as [|a s IH]; intros before rest H.
  - cbn [append]. rewrite append_nil_r. reflexivity.
  - cbn [lone_braces] in H. apply andb_true_iff in H. destruct H as [Ha Hs].
    cbn [append]. rewrite replace_from_cons.
    assert (Hp : prefix (String "{" (String "{" pat)) (String a (s ++ rest)) = false).
    { destruct (Ascii.eqb a "{") eqn:E.
      - apply Ascii.eqb_eq in E. subst a. rewrite prefix_cons_eq.
        destruct s as [|d s']; [discriminate|]. cbn [append].
        apply negb_true_iff in Ha. apply Ascii.eqb_neq in Ha.
        apply prefix_cons_ne. intros E'. apply Ha. symmetry. exact E'.
      - apply Ascii.eqb_neq in E.
        apply prefix_cons_ne. intros E'. apply E. symmetry. exact E'. }
    rewrite Hp, (IH _ _ Hs), append_assoc. reflexivity.
Qed.

Lemma lone_braces_none (v : string) :
  has_char "{" v = false -> lone_braces v = true.
Proof.
  induction v as [|c v IH]; intros H; [reflexivity|].
  apply has_char_cons_false in H. destruct H as [Hc Hv].
  cbn [lone_braces]. rewrite (IH Hv), andb_true_r.
  destruct (Ascii.eqb c "{") eqn:E; [|reflexivity].
  apply Ascii.eqb_eq in E. subst c. exfalso. apply Hc. reflexivity.
Qed.

(** An occurrence of the pattern is replaced by a value that
    [GetSubstitution] leaves as it is. *)
Lemma replace_from_match_literal (a : ascii) (pat v before rest : string) :
  dollar_literal v = true ->
  replace_from (String a pat) v 0 before (String a pat ++ rest)
  = v ++ replace_from (String a pat) v 0 (before ++ String a pat) rest.
Proof.
  intros Hv.
  change (String a pat ++ rest) with (String a (pat ++ rest)) at 1.
  rewrite replace_from_cons.
  change (String a (pat ++ rest)) with (String a pat ++ rest).
  rewrite prefix_append, drop_append, (getSubstitution_literal _ _ _ _ Hv).
  cbn [String.length].
  replace (S (String.length pat) - 1) with (String.length pat) by lia.
  rewrite replace_from_skip, append_assoc. reflexivity.
Qed.

Lemma prefix_name (name : string) :
  forall n rest,
    has_char "}" name = false -> has_char "}" n = false ->
    prefix (name ++ "}}") (n ++ "}}" ++ rest) = true -> name = n.
Proof.
  induction name as [|a name IH]; intros [|b n] rest Hname Hn Hp.
  - reflexivity.
  - apply has_char_cons_false in Hn. destruct Hn as [Hb _].
    cbn [append] in Hp. rewrite prefix_cons_ne in Hp by exact Hb. discriminate.
  - apply has_char_cons_false in Hname. destruct Hname as [Ha _].
    cbn [append] in Hp.
    rewrite prefix_cons_ne in Hp by (intros E; apply Ha; symmetry; exact E).
    discriminate.
  - apply has_char_cons_false in Hname, Hn.
    destruct Hname as [_ Hname]. destruct Hn as [_ Hn].
    cbn [append] in Hp. destruct (ascii_dec a b) as [->|Hab].
    + rewrite prefix_cons_eq in Hp. f_equal. exact (IH n rest Hname Hn Hp).
    + rewrite prefix_cons_ne in Hp by exact Hab. discriminate.
Qed.

(** A token with another name is copied. *)
Lemma replace_from_other (name n v before rest : string) :
  has_char "}" name = false ->
  has_char "{" n = false -> has_char "}" n = false ->
  n <> name ->
  replace_from (token name) v 0 before (token n ++ rest)
  = token n ++ replace_from (token name) v 0 (before ++ token n) rest.
Proof.
  intros Hname Hn1 Hn2 Hne. unfold token.
  cbn [append].
  rewrite replace_from_cons, !prefix_cons_eq.
  destruct (prefix (name ++ "}}") ((n ++ "}}") ++ rest)) eqn:Hp.
  { exfalso. apply Hne. symmetry.
    rewrite append_assoc in Hp. exact (prefix_name name n rest Hname Hn2 Hp). }
  rewrite replace_from_cons, prefix_cons_eq.
  assert (Hbody : has_char "{" (n ++ "}}") = false)
    by (rewrite has_char_append, Hn1; reflexivity).
  assert (Hp2 : prefix (String "{" (name ++ "}}")) ((n ++ "}}") ++ rest) = false).
  { destruct n as [|b n]; cbn [append].
    - apply prefix_cons_ne. discriminate.
    - apply has_char_cons_false in Hn1. destruct Hn1 as [Hb _].
      apply prefix_cons_ne. exact Hb. }
  rewrite Hp2.
  rewrite (replace_from_text _ _ _ _ _ Hbody), !append_assoc. reflexivity.
Qed.

(** ** The renderer on templates *)

Lemma tag_name_braces (t : MergeTag) :
  has_char "{" (tag_name t) = false /\ has_char "}" (tag_name t) = false.
Proof.
  destruct t; split; reflexivity.
Qed.

Lemma tag_eqb_name (t u : MergeTag) :
  tag_eqb t u = false -> tag_name u <> tag_name t.
Proof.
  destruct t, u; cbn; intros H; discriminate.
Qed.

Lemma tag_eqb_true (t u : MergeTag) : tag_eqb t u = true -> u = t.
Proof.
  destruct t, u; cbn; intros H; try discriminate; reflexivity.
Qed.

Lemma unknown_is_no_tag (name : string) (t : MergeTag) :
  is_tag_name name = false -> name <> tag_name t.
Proof.
  unfold is_tag_name. cbn [existsb]. intros H E.
  repeat (apply orb_false_iff in H; destruct H as [? H]).
  destruct t; subst name; cbn [tag_name] in *; rewrite String.eqb_refl in *;
    discriminate.
Qed.

(** One [replace] of the chain takes the parts of a template to the parts
    with its tag filled in. *)
Lemma replace_parts (t : MergeTag) (v : string) :
  dollar_literal v = true ->
  forall ps before,
    forallb wf_part ps = true ->
    replace_from (token (tag_name t)) v 0 before (template_text ps)
    = template_text (map (fill t v) ps).
Proof.
  intros Hv. induction ps as [|p ps IH]; intros before Hwf; [reflexivity|].
  cbn [forallb] in Hwf. apply andb_true_iff in Hwf. destruct Hwf as [Hp Hps].
  cbn [template_text map].
  destruct (tag_name_braces t) as [_ Hclose].
  destruct p as [s | u | name]; cbn [piece_text fill wf_part] in *.
  - change (token (tag_name t)) with (String "{" (String "{" (tag_name t ++ "}}"))).
    rewrite (replace_from_lone _ _ _ _ _ Hp).
    change (String "{" (String "{" (tag_name t ++ "}}"))) with (token (tag_name t)).
    rewrite (IH _ Hps). reflexivity.
  - destruct (tag_eqb t u) eqn:E.
    + apply tag_eqb_true in E. subst u. cbn [piece_text].
      change (token (tag_name t)) with (String "{" (String "{" (tag_name t ++ "}}"))).
      rewrite (replace_from_match_literal _ _ _ _ _ Hv).
      change (String "{" (String "{" (tag_name t ++ "}}"))) with (token (tag_name t)).
      rewrite (IH _ Hps). reflexivity.
    + destruct (tag_name_braces u) as [Hu1 Hu2]. cbn [piece_text].
      rewrite (replace_from_other _ _ _ _ _ Hclose Hu1 Hu2 (tag_eqb_name _ _ E)).
      rewrite (IH _ Hps). reflexivity.
  - apply andb_true_iff in Hp. destruct Hp as [Hp Hno].
    apply andb_true_iff in Hp. destruct Hp as [Hn1 Hn2].
    apply negb_true_iff in Hn1, Hn2, Hno.
    rewrite (replace_from_other _ _ _ _ _ Hclose Hn1 Hn2 (unknown_is_no_tag _ t Hno)).
    rewrite (IH _ Hps). reflexivity.
Qed.

Lemma fill_wf_part (t : MergeTag) (v : string) (ps : list Piece) :
  has_char "{" v = false ->
  forallb wf_part ps = true ->
  forallb wf_part (map (fill t v) ps) = true.
Proof.
  intros Hv. induction ps as [|p ps IH]; intros Hwf; [reflexivity|].
  cbn [forallb map] in *. apply andb_true_iff in Hwf. destruct Hwf as [Hp Hps].
  rewrite (IH Hps), andb_true_r.
  destruct p as [s | u | name]; cbn [fill]; try exact Hp.
  destruct (tag_eqb t u); [cbn [wf_part]; apply lone_braces_none; exact Hv | reflexivity].
Qed.

Lemma fill_wf (t : MergeTag) (v : string) (ps : list Piece) :
  has_char "{" v = false ->
  forallb wf_piece ps = true ->
  forallb wf_piece (map (fill t v) ps) = true.
Proof.
  intros Hv. induction ps as [|p ps IH]; intros Hwf; [reflexivity|].
  cbn [forallb map] in *. apply andb_true_iff in Hwf. destruct Hwf as [Hp Hps].
  rewrite (IH Hps), andb_true_r.
  destruct p as [s | u | name]; cbn [fill]; try exact Hp.
  destruct (tag_eqb t u); [cbn; rewrite Hv; reflexivity | reflexivity].
Qed.

Lemma filled_is_rendered (c : Contact) (ps : list Piece) :
  template_text
    (map (fill TagCompany (tag_value c TagCompany))
       (map (fill TagEmail (tag_value c TagEmail))
          (map (fill TagLastName (tag_value c TagLastName))
             (map (fill TagFirstName (tag_value c TagFirstName)) ps))))
  = render_spec c ps.
Proof.
  induction ps as [|p ps IH]; [reflexivity|].
  cbn [map template_text render_spec]. rewrite IH. f_equal.
  destruct p as [s | [] | name]; reflexivity.
Qed.

Lemma safe_parts (v : string) :
  safe v = true -> has_char "{" v = false /\ dollar_literal v = true.
Proof.
  unfold safe. intros H. apply andb_true_iff in H. destruct H as [H1 H2].
  split; [apply negb_true_iff; exact H1 | exact H2].
Qed.

Lemma safe_contact_values (c : Contact) (t : MergeTag) :
  safe_contact c = true -> safe (tag_value c t) = true.
Proof.
  unfold safe_contact. cbn [forallb]. intros H.
  repeat (apply andb_true_iff in H; destruct H as [? H]).
  destruct t; assumption.
Qed.

(** ** C8 *)

(** C8: the send-path renderer replaces every occurrence of each of its
    merge tokens, with the empty string where the contact's field is null,
    and leaves every other token as it stands: on a template made of text
    whose opening braces stand alone, merge tokens and tokens of other
    names, and a contact whose fields hold no opening brace and none of
    the patterns [$$], [$&], [$`], [$'], the chain of replaces gives what
    one pass over the parts gives.  The two examples of the specification
    hold as it writes them, whatever the contact's other fields are. *)
Theorem renders_every_occurrence :
  (forall (ps : list Piece) (c : Contact),
     forallb wf_part ps = true ->
     safe_contact c = true ->
     replacePlaceholders (template_text ps) c = render_spec c ps)
  /\ (forall c : Contact,
        first_name c = Some "Ann" ->
        replacePlaceholders "Hi {{first_name}} {{first_name}}!" c = "Hi Ann Ann!")
  /\ (forall c : Contact,
        first_name c = None ->
        replacePlaceholders "Hi {{first_name}}" c = "Hi ").
Proof.
  split; [|split].
  - intros ps c Hwf Hc.
    destruct (safe_parts _ (safe_contact_values c TagFirstName Hc)) as [Hb1 Hd1].
    destruct (safe_parts _ (safe_contact_values c TagLastName Hc)) as [Hb2 Hd2].
    destruct (safe_parts _ (safe_contact_values c TagEmail Hc)) as [Hb3 Hd3].
    destruct (safe_parts _ (safe_contact_values c TagCompany Hc)) as [Hb4 Hd4].
    unfold replacePlaceholders, replace_g.
    change "{{first_name}}" with (token (tag_name TagFirstName)).
    change "{{last_name}}" with (token (tag_name TagLastName)).
    change "{{email}}" with (token (tag_name TagEmail)).
    change "{{company}}" with (token (tag_name TagCompany)).
    change (or_empty (first_name c)) with (tag_value c TagFirstName).
    change (or_empty (last_name c)) with (tag_value c TagLastName).
    change (or_empty (Some (email c))) with (tag_value c TagEmail).
    change (or_empty (company c)) with (tag_value c TagCompany).
    rewrite (replace_parts TagFirstName _ Hd1 ps "" Hwf).
    rewrite (replace_parts TagLastName _ Hd2 _ "" (fill_wf_part _ _ _ Hb1 Hwf)).
    rewrite (replace_parts TagEmail _ Hd3 _ ""
               (fill_wf_part _ _ _ Hb2 (fill_wf_part _ _ _ Hb1 Hwf))).
    rewrite (replace_parts TagCompany _ Hd4 _ ""
               (fill_wf_part _ _ _ Hb3
                  (fill_wf_part _ _ _ Hb2 (fill_wf_part _ _ _ Hb1 Hwf)))).
    apply filled_is_rendered.
  - intros [i e f l k] H. cbn in H. subst f. reflexivity.
  - intros [i e f l k] H. cbn in H. subst f. reflexivity.
Qed.

(** C8 at a template with a style sheet, a repeated tag, an unknown token
    and a null field, for a contact with a dollar sign in a field. *)
Lemma renders_every_occurrence_witness :
  replacePlaceholders
    (template_text
       [Text "<style>p { margin: 0 }</style>Hi "; Tag TagFirstName; Text " ";
        Tag TagFirstName; Text " of "; Tag TagCompany; Text ", ";
        Tag TagLastName; Unknown "full_name"]) contact_cash
  = render_spec contact_cash
      [Text "<style>p { margin: 0 }</style>Hi "; Tag TagFirstName; Text " ";
       Tag TagFirstName; Text " of "; Tag TagCompany; Text ", ";
       Tag TagLastName; Unknown "full_name"].
Proof.
  apply (proj1 renders_every_occurrence); reflexivity.
Defined.

(** C8, the counterexamples: for some templates and contacts the chain of
    replaces is not the one-pass substitution.  A field with the pattern
    [$&] is not inserted as it stands: the pattern is expanded to the
    token.  A field that holds a token is substituted again by a later
    replace.  Text around a tag whose field is null can close up to a
    token, which a later replace then fills. *)
Lemma renderer_not_one_pass :
  replacePlaceholders "Dear {{company}}" contact_dollar = "Dear AT{{company}}T"
  /\ render_spec contact_dollar [Text "Dear "; Tag TagCompany] = "Dear AT$&T"
  /\ replacePlaceholders "Hi {{first_name}}" contact_braces = "Hi Lee"
  /\ render_spec contact_braces [Text "Hi "; Tag TagFirstName] = "Hi {{last_name}}"
  /\ replacePlaceholders "{{{first_name}}{last_name}}" contact_cash = "Lee"
  /\ render_spec contact_cash [Text "{"; Tag TagFirstName; Text "{last_name}}"]
     = "{{last_name}}"
  /\ ~ (forall (ps : list Piece) (c : Contact),
          replacePlaceholders (template_text ps) c = render_spec c ps).
Proof.
  repeat split; try (vm_compute; reflexivity).
  intros H. specialize (H [Text "Dear "; Tag TagCompany] contact_dollar).
  vm_compute in H. discriminate.
Qed.

Example renders_every_occurrence_text :
  replacePlaceholders
    "<style>p { margin: 0 }</style>Hi {{first_name}} {{first_name}} of {{company}}, {{last_name}}{{full_name}}"
    contact_cash
  = "<style>p { margin: 0 }</style>Hi   of Ca$h & Carry, Lee{{full_name}}".
Proof. vm_compute. reflexivity. Qed.

(** ** C7 *)

(** C7, the code at the failing input: the send path has no rule for
    [{{full_name}}]; for Ann Lee the token reaches the recipient as it
    stands, where the claim expects her full name. *)
Theorem full_name_left_verbatim :
  replacePlaceholders "Hi {{full_name}}" ann = "Hi {{full_name}}"
  /\ replacePlaceholders "Hi {{full_name}}" ann <> "Hi Ann Lee".
Proof.
  split; [vm_compute; reflexivity | vm_compute; discriminate].
Qed.

(** ** C9 *)

(** What the check does on every input: the warning is there exactly when
    the body, as written, does not contain the lower-case word. *)
Lemma unsubscribe_warning_iff (t : EmailTemplate) (recipientCount : nat)
    (smtpPassword : string) :
  warns_unsubscribe (Some t) recipientCount smtpPassword
  = negb (includes (html_content t) "unsubscribe").
Proof.
  unfold warns_unsubscribe, deliverabilityIssues, template_issues.
  rewrite !existsb_app.
  assert (Hspam : forall l,
            existsb (issue_eqb unsubscribe_warning)
              (map (fun word =>
                      mkIssue warning
                        ("Template contains potential spam trigger word: "
                         ++ dquote ++ word ++ dquote)) l) = false).
  { induction l as [|x l IH]; [reflexivity|]. cbn [map existsb]. rewrite IH.
    reflexivity. }
  rewrite Hspam. cbn [orb].
  destruct (includes (html_content t) "unsubscribe"); cbn [negb];
    destruct (60 <? String.length (subject t))%nat;
    destruct (500 <? recipientCount)%nat;
    destruct (truthy (Some smtpPassword)); reflexivity.
Qed.

(** C9, the code at the failing input: the body has an unsubscribe link,
    capitalised; it contains the word under a case-insensitive comparison,
    and the check, which compares case-sensitively, still warns. *)
Theorem unsubscribe_check_case_sensitive :
  includes (toLowerCase (html_content newsletter)) "unsubscribe" = true
  /\ warns_unsubscribe (Some newsletter) 10 "pw" = true.
Proof.
  split; vm_compute; reflexivity.
Qed.

(** ** Running the handler *)

Ltac run_handler :=
  unfold serve, dispatch, select_campaign, select_smtp_settings, select_pending,
    select_counters, count_pending, update_campaign, update_recipient, now,
    log, get_store, put_store, bind, ret, post, update_where,
    with_call, with_store, tick;
  cbn [method json fst snd store calls outbox clock_reads campaigns smtp_settings
       campaign_recipients data q_error].

Lemma single_firstn_1 {A : Type} (l : list A) :
  single (firstn 1 l) = hd_error l.
Proof.
  destruct l as [|a [|b l]]; reflexivity.
Qed.

Lemma single_filter_In {A : Type} (p : A -> bool) (l : list A) (a x : A) :
  single (filter p l) = Some a -> In x l -> p x = true -> x = a.
Proof.
  intros Hs Hin Hp.
  assert (Hx : In x (filter p l)) by (apply filter_In; split; assumption).
  destruct (filter p l) as [|b [|b' l']]; cbn in Hs; try discriminate.
  injection Hs as <-. destruct Hx as [Hx | []]. symmetry; exact Hx.
Qed.

(** ** C10 *)

(** C10: a request whose body lacks [campaign_id] or [smtp_password] (absent
    or empty) is answered with status 400 and the body
    [{error: "Missing campaign_id or smtp_password"}], and the world is left
    as it was: the store is unchanged and the trace of store calls has
    gained no entry, neither a read nor a write. *)
Theorem missing_field_rejected (env : Env) (req : Request) (w : World)
    (campaign_id smtp_password : option string) :
  method req <> "OPTIONS" ->
  json req = inr (campaign_id, smtp_password) ->
  truthy campaign_id = false \/ truthy smtp_password = false ->
  serve env req w
  = (mkResponse 400 (Some [("error", JStr "Missing campaign_id or smtp_password")]), w).
Proof.
  intros Hm Hj Hmiss.
  unfold serve.
  apply String.eqb_neq in Hm. rewrite Hm, Hj.
  destruct Hmiss as [H | H]; rewrite H; cbn.
  - reflexivity.
  - rewrite orb_true_r. reflexivity.
Qed.

Lemma missing_field_rejected_witness :
  serve env1 (mkRequest "POST" (inr (Some "c1", Some ""))) world_paused
  = (mkResponse 400 (Some [("error", JStr "Missing campaign_id or smtp_password")]),
     world_paused).
Proof.
  apply (missing_field_rejected env1 (mkRequest "POST" (inr (Some "c1", Some "")))
           world_paused (Some "c1") (Some "")).
  - cbn. discriminate.
  - reflexivity.
  - right. reflexivity.
Defined.

(** ** C3 *)

(** C3 (as amended): when the setup preconditions fail, the handler fails
    fast with a structured error, a body [{error: msg}] under a 4xx status,
    and writes nothing: no recipient row is touched and the campaign keeps
    the status it had. *)
Theorem setup_failure_fails_fast (env : Env) (w : World)
    (campaign_id smtp_password : option string) :
  setup_fails campaign_id smtp_password (store w) ->
  exists code msg,
    fst (serve env (mkRequest "POST" (inr (campaign_id, smtp_password))) w)
    = error_response code msg
    /\ (400 <= code < 500)%Z
    /\ store (snd (serve env (mkRequest "POST" (inr (campaign_id, smtp_password))) w))
       = store w.
Proof.
  intros Hfail. unfold serve. cbn [method json String.eqb Ascii.eqb Bool.eqb].
  destruct (truthy campaign_id) eqn:Hc; cbn [negb orb];
    [| exists 400%Z, "Missing campaign_id or smtp_password"; cbn; repeat split; lia].
  destruct (truthy smtp_password) eqn:Hp; cbn [negb orb];
    [| exists 400%Z, "Missing campaign_id or smtp_password"; cbn; repeat split; lia].
  destruct Hfail as [H | [H | [H | H]]]; try congruence.
  - run_handler. rewrite H. cbn.
    exists 404%Z, "Campaign not found". repeat split; lia.
  - run_handler.
    destruct (single (filter _ (campaigns (store w)))) as [c|]; cbn.
    + rewrite H. cbn. exists 400%Z, "SMTP settings not configured".
      repeat split; lia.
    + exists 404%Z, "Campaign not found". repeat split; lia.
Qed.

Lemma setup_failure_fails_fast_witness :
  exists code msg,
    fst (serve env1 (mkRequest "POST" (inr (Some "c1", Some "pw"))) world_no_smtp)
    = error_response code msg
    /\ (400 <= code < 500)%Z
    /\ store (snd (serve env1 (mkRequest "POST" (inr (Some "c1", Some "pw")))
                     world_no_smtp))
       = store world_no_smtp.
Proof.
  apply (setup_failure_fails_fast env1 world_no_smtp (Some "c1") (Some "pw")).
  right. right. right. reflexivity.
Defined.

(** C3, the counterexample: with no SMTP settings in the store the setup
    fails, and the draft campaign is still a draft afterwards; it has not
    been moved to the status failed. *)
Lemma setup_failure_leaves_status :
  ~ (setup_fails (Some "c1") (Some "pw") (store world_no_smtp) ->
     option_map c_status
       (find_campaign "c1" (store (snd (serve env1 (post "c1" "pw") world_no_smtp))))
     = Some CFailed).
Proof.
  intros H.
  assert (Hf : setup_fails (Some "c1") (Some "pw") (store world_no_smtp))
    by (right; right; right; reflexivity).
  specialize (H Hf). vm_compute in H. discriminate.
Qed.

(** ** C1 *)

Lemma completed_rows_same (t cid : string) (c : Campaign) (l : list Campaign) :
  (forall x, In x l -> (c_id x =? cid) = true -> x = c) ->
  c_status c = CCompleted ->
  Forall2 same_but_completed_at l
    (map (fun x => if c_id x =? cid then set_completed t x else x) l).
Proof.
  intros Hall Hst. induction l as [|x l IH]; cbn [map].
  - constructor.
  - constructor.
    + destruct (c_id x =? cid) eqn:E.
      * assert (x = c) as -> by (apply Hall; [left; reflexivity | exact E]).
        unfold same_but_completed_at; cbn. rewrite Hst. repeat split.
      * unfold same_but_completed_at. repeat split.
    + apply IH. intros y Hy. apply Hall. right; exact Hy.
Qed.

(** C1 (as amended): a dispatch on a campaign that is already completed and
    has no pending row, with SMTP settings configured, is not an error: it
    answers 200 with [{success: true, message: "No pending recipients",
    sent: 0}] (the body has no [failed] and no [remaining] field), changes
    no recipient row and no SMTP setting, and leaves every column of every
    campaign row other than [completed_at] as it was, the status among
    them. *)
Theorem completed_dispatch_is_quiet (env : Env) (w : World)
    (cid pw : string) (c : Campaign) :
  cid <> "" -> pw <> "" ->
  found cid (store w) c ->
  c_status c = CCompleted ->
  smtp_settings (store w) <> [] ->
  pending_of cid (campaign_recipients (store w)) = [] ->
  fst (serve env (post cid pw) w)
  = mkResponse 200
      (Some [("success", JBool true); ("message", JStr "No pending recipients");
             ("sent", JNum 0)])
  /\ campaign_recipients (store (snd (serve env (post cid pw) w)))
     = campaign_recipients (store w)
  /\ smtp_settings (store (snd (serve env (post cid pw) w)))
     = smtp_settings (store w)
  /\ Forall2 same_but_completed_at (campaigns (store w))
       (campaigns (store (snd (serve env (post cid pw) w)))).
Proof.
  intros Hcid Hpw Hc Hst Hsmtp Hpend.
  apply String.eqb_neq in Hcid, Hpw.
  unfold serve, post. cbn [method json String.eqb Ascii.eqb Bool.eqb truthy or_empty].
  rewrite Hcid, Hpw. cbn [negb orb].
  unfold found in Hc. run_handler. rewrite Hc. cbn -[firstn pending_of].
  rewrite single_firstn_1.
  destruct (smtp_settings (store w)) as [|ss rest] eqn:Es; [contradiction|].
  cbn -[firstn pending_of]. rewrite Hpend. cbn. rewrite Es. repeat split.
  apply (completed_rows_same _ cid c); [|exact Hst].
  intros x Hx Hid. eapply single_filter_In; eauto.
Qed.

Lemma completed_dispatch_is_quiet_witness :
  fst (serve env1 (post "c1" "pw") world_completed)
  = mkResponse 200
      (Some [("success", JBool true); ("message", JStr "No pending recipients");
             ("sent", JNum 0)])
  /\ campaign_recipients (store (snd (serve env1 (post "c1" "pw") world_completed)))
     = campaign_recipients (store world_completed)
  /\ smtp_settings (store (snd (serve env1 (post "c1" "pw") world_completed)))
     = smtp_settings (store world_completed)
  /\ Forall2 same_but_completed_at (campaigns (store world_completed))
       (campaigns (store (snd (serve env1 (post "c1" "pw") world_completed)))).
Proof.
  apply (completed_dispatch_is_quiet env1 world_completed "c1" "pw"
           (campaign1 CCompleted (Some "2026-01-01T00:00:00.000Z")
              (Some "2026-01-01T00:10:00.000Z"))).
  - discriminate.
  - discriminate.
  - reflexivity.
  - reflexivity.
  - cbn. discriminate.
  - reflexivity.
Defined.

(** C1, the counterexample: on a completed campaign with nothing pending
    the answer is not [{sent: 0, failed: 0, remaining: 0}] with every
    campaign column left alone: the body has no [failed] field. *)
Lemma completed_dispatch_not_noop :
  ~ (field "sent" (fst (serve env1 (post "c1" "pw") world_completed)) = Some (JNum 0)
     /\ field "failed" (fst (serve env1 (post "c1" "pw") world_completed)) = Some (JNum 0)
     /\ field "remaining" (fst (serve env1 (post "c1" "pw") world_completed))
        = Some (JNum 0)
     /\ campaign_recipients (store (snd (serve env1 (post "c1" "pw") world_completed)))
        = campaign_recipients (store world_completed)
     /\ campaigns (store (snd (serve env1 (post "c1" "pw") world_completed)))
        = campaigns (store world_completed)).
Proof.
  intros (_ & H & _). vm_compute in H. discriminate.
Qed.

(** ** C6 *)

(** C6, the code at the failing input: the campaign was completed at 00:10
    on 1 January; a dispatch on 1 February finds nothing pending and writes
    its own clock reading over [completed_at]. *)
Theorem completed_at_restamped :
  option_map completed_at (find_campaign "c1" (store world_completed))
  = Some (Some "2026-01-01T00:10:00.000Z")
  /\ option_map completed_at
       (find_campaign "c1" (store (snd (serve env1 (post "c1" "pw") world_completed))))
     = Some (Some "2026-02-01T00:00:00.000Z").
Proof.
  split; vm_compute; reflexivity.
Qed.

(** ** Tables *)

Section Tables.

Context {A : Type}.
Variable key : A -> string.

Lemma update_where_keys (k : string) (f : A -> A) (l : list A) :
  (forall x, key (f x) = key x) ->
  map key (update_where key k f l) = map key l.
Proof.
  intros Hf. unfold update_where. rewrite map_map. apply map_ext.
  intros x. destruct (key x =? k); [apply Hf | reflexivity].
Qed.

Lemma update_where_notin (k : string) (f : A -> A) (l : list A) :
  ~ In k (map key l) -> update_where key k f l = l.
Proof.
  intros Hn. unfold update_where. rewrite <- (map_id l) at 2.
  apply map_ext_in. intros x Hx.
  destruct (String.eqb_spec (key x) k) as [E|E]; [|reflexivity].
  exfalso. apply Hn. rewrite <- E. apply in_map. exact Hx.
Qed.

Lemma update_where_other (k : string) (f : A -> A) (l : list A) (x : A) :
  In x l -> key x <> k -> In x (update_where key k f l).
Proof.
  intros Hx Hk. unfold update_where. apply in_map_iff. exists x. split; [|exact Hx].
  apply String.eqb_neq in Hk. rewrite Hk. reflexivity.
Qed.

Lemma nth_error_update_where (k : string) (f : A -> A) (l : list A) (j : nat) :
  nth_error (update_where key k f l) j
  = option_map (fun r => if key r =? k then f r else r) (nth_error l j).
Proof.
  unfold update_where. apply nth_error_map.
Qed.

Lemma filter_update_where (k : string) (f : A -> A) (l : list A) :
  (forall x, key (f x) = key x) ->
  filter (fun x => key x =? k) (update_where key k f l)
  = map f (filter (fun x => key x =? k) l).
Proof.
  intros Hf. induction l as [|x l IH]; [reflexivity|].
  cbn [update_where map filter]. fold (update_where key k f l).
  destruct (key x =? k) eqn:E.
  - rewrite Hf, E. cbn [map]. rewrite IH. reflexivity.
  - rewrite E. exact IH.
Qed.

Lemma NoDup_keys_filter (p : A -> bool) (l : list A) :
  NoDup (map key l) -> NoDup (map key (filter p l)).
Proof.
  induction l as [|x l IH]; intros Hnd; [constructor|].
  cbn [map] in Hnd. inversion Hnd as [|? ? Hnotin Hnd']; subst.
  cbn [filter]. destruct (p x).
  - cbn [map]. constructor; [|apply IH; exact Hnd'].
    intros Hin. apply Hnotin. apply in_map_iff in Hin.
    destruct Hin as (y & Hy & Hin). apply filter_In in Hin.
    rewrite <- Hy. apply in_map. tauto.
  - apply IH; exact Hnd'.
Qed.

Lemma NoDup_keys_firstn (n : nat) (l : list A) :
  NoDup (map key l) -> NoDup (map key (firstn n l)).
Proof.
  revert n. induction l as [|x l IH]; intros n Hnd.
  - rewrite firstn_nil. constructor.
  - destruct n as [|n]; [constructor|].
    cbn [map] in Hnd. inversion Hnd as [|? ? Hnotin Hnd']; subst.
    cbn [firstn map]. constructor; [|apply IH; exact Hnd'].
    intros Hin. apply Hnotin. apply in_map_iff in Hin.
    destruct Hin as (y & Hy & Hin). rewrite <- Hy. apply in_map.
    rewrite <- (firstn_skipn n l). apply in_or_app. left; exact Hin.
Qed.

End Tables.

Lemma single_found_update (cid : string) (f : Campaign -> Campaign)
    (l : list Campaign) (c : Campaign) :
  (forall x, c_id (f x) = c_id x) ->
  single (filter (fun x => c_id x =? cid) l) = Some c ->
  single (filter (fun x => c_id x =? cid) (update_where c_id cid f l)) = Some (f c).
Proof.
  intros Hf Hs. rewrite filter_update_where by exact Hf.
  destruct (filter (fun x => c_id x =? cid) l) as [|a [|b t]]; cbn in Hs;
    try discriminate.
  injection Hs as ->. reflexivity.
Qed.

Lemma pending_update_one (cid : string)
    (g : CampaignRecipient -> CampaignRecipient) (r : CampaignRecipient)
    (l : list CampaignRecipient) :
  NoDup (map r_id l) -> In r l ->
  campaign_id r = cid -> is_pending r = true -> is_pending (g r) = false ->
  S (List.length (pending_of cid (update_where r_id (r_id r) g l)))
  = List.length (pending_of cid l).
Proof.
  intros Hnd Hin Hcid Hp Hg. induction l as [|x l IH]; [destruct Hin|].
  cbn [map] in Hnd. inversion Hnd as [|? ? Hnotin Hnd']; subst.
  unfold pending_of. cbn [update_where map filter].
  fold (update_where r_id (r_id r) g l).
  destruct (String.eqb_spec (r_id x) (r_id r)) as [E|E].
  - assert (x = r) as ->.
    { destruct Hin as [H|H]; [exact H|].
      exfalso. apply Hnotin. rewrite E. apply in_map. exact H. }
    rewrite update_where_notin by exact Hnotin.
    rewrite Hg, Hp, String.eqb_refl, andb_false_r. cbn. reflexivity.
  - destruct Hin as [H|H]; [subst x; contradiction|].
    specialize (IH Hnd' H). unfold pending_of in IH.
    destruct ((campaign_id x =? campaign_id r) && is_pending x); cbn [List.length];
      rewrite IH; reflexivity.
Qed.

(** ** The batch loop *)

Section Batch.

Variable env : Env.
Variable conn : Connection.
Variable smtpSettings : SmtpSettings.
Variable template : option EmailTemplate.

Lemma send_batch_cons (r : CampaignRecipient) (rest : list CampaignRecipient)
    (s f : Z) (w : World) :
  send_batch env conn smtpSettings template (r :: rest) s f w
  = match outcome_of env conn smtpSettings template (List.length (outbox w))
            (contacts r) with
    | Delivered =>
        send_batch env conn smtpSettings template rest (s + 1) f
          (after_recipient env smtpSettings template Delivered r w)
    | Rejected err =>
        send_batch env conn smtpSettings template rest s (f + 1)
          (after_recipient env smtpSettings template (Rejected err) r w)
    end.
Proof.
  cbn [send_batch]. unfold bind at 1.
  unfold deliver, outcome_of, after_recipient.
  destruct template as [t|].
  - unfold client_send.
    destruct (smtp_send env conn (List.length (outbox w))
                (message_for smtpSettings t (contacts r))); reflexivity.
  - unfold ret. cbn. rewrite app_nil_r. destruct w; reflexivity.
Qed.

(** The loop touches neither the campaigns nor the SMTP settings. *)
Lemma send_batch_frame (rs : list CampaignRecipient) :
  forall s f w,
    campaigns (store (snd (send_batch env conn smtpSettings template rs s f w)))
    = campaigns (store w)
    /\ smtp_settings (store (snd (send_batch env conn smtpSettings template rs s f w)))
       = smtp_settings (store w).
Proof.
  induction rs as [|r rs IH]; intros s f w.
  - split; reflexivity.
  - rewrite send_batch_cons.
    destruct (outcome_of _ _ _ _ _ _);
      match goal with
      | |- context [send_batch _ _ _ _ _ ?s' ?f' ?w'] =>
          destruct (IH s' f' w') as [H1 H2]; split; [exact H1 | exact H2]
      end.
Qed.

(** Every claimed recipient is counted once, as sent or as failed. *)
Lemma send_batch_counts (rs : list CampaignRecipient) :
  forall s f w,
    (fst (fst (send_batch env conn smtpSettings template rs s f w))
     + snd (fst (send_batch env conn smtpSettings template rs s f w))
     = s + f + Z.of_nat (List.length rs))%Z.
Proof.
  induction rs as [|r rs IH]; intros s f w.
  - cbn. lia.
  - rewrite send_batch_cons.
    destruct (outcome_of _ _ _ _ _ _); rewrite IH; cbn [List.length]; lia.
Qed.

Lemma mark_recipient_id (o : SendOutcome) (t : string) (x : CampaignRecipient) :
  r_id (mark_recipient o t x) = r_id x.
Proof.
  destruct o; reflexivity.
Qed.

Lemma mark_recipient_not_pending (o : SendOutcome) (t : string)
    (x : CampaignRecipient) :
  is_pending (mark_recipient o t x) = false.
Proof.
  destruct o; reflexivity.
Qed.

(** A row whose id is not among the claimed ones is left as it is. *)
Lemma send_batch_untouched (rs : list CampaignRecipient) :
  forall s f w j x,
    nth_error (campaign_recipients (store w)) j = Some x ->
    ~ In (r_id x) (map r_id rs) ->
    nth_error
      (campaign_recipients
         (store (snd (send_batch env conn smtpSettings template rs s f w)))) j
    = Some x.
Proof.
  induction rs as [|r rs IH]; intros s f w j x Hj Hnot.
  - exact Hj.
  - rewrite send_batch_cons. cbn [map] in Hnot.
    assert (Hne : (r_id x =? r_id r) = false).
    { apply String.eqb_neq. intros E. apply Hnot. left. symmetry. exact E. }
    destruct (outcome_of _ _ _ _ _ _); apply IH;
      try (intros Hin; apply Hnot; right; exact Hin);
      cbn [after_recipient store campaign_recipients];
      rewrite nth_error_update_where, Hj; cbn [option_map]; rewrite Hne;
      reflexivity.
Qed.

(** The row that an outcome leaves behind. *)
Lemma send_batch_row (rs : list CampaignRecipient) :
  forall (w : World) (i j : nat) (r : CampaignRecipient) (s f : Z),
    NoDup (map r_id rs) ->
    nth_error rs i = Some r ->
    nth_error (campaign_recipients (store w)) j = Some r ->
    nth_error
      (campaign_recipients
         (store (snd (send_batch env conn smtpSettings template rs s f w)))) j
    = Some (mark_recipient
              (outcome_of env conn smtpSettings template
                 (List.length (outbox w) + sends_before template i) (contacts r))
              (clock env
                 (clock_reads
                    (snd (send_batch env conn smtpSettings template (firstn i rs)
                            s f w))))
              r).
Proof.
  induction rs as [|r0 rest IH]; intros w i j r s f Hnd Hi Hj.
  - destruct i; discriminate.
  - cbn [map] in Hnd. inversion Hnd as [|? ? Hnotin Hnd']; subst.
    rewrite send_batch_cons. destruct i as [|i].
    + cbn in Hi. injection Hi as ->.
      assert (Hidx : List.length (outbox w) + sends_before template 0
                     = List.length (outbox w))
        by (destruct template; cbn; lia).
      rewrite Hidx. cbn [firstn send_batch ret snd].
      destruct (outcome_of _ _ _ _ _ _) as [|err] eqn:Ho;
        (apply send_batch_untouched; [|exact Hnotin]);
        cbn [after_recipient store campaign_recipients];
        rewrite nth_error_update_where, Hj; cbn [option_map];
        rewrite String.eqb_refl; reflexivity.
    + cbn [nth_error] in Hi.
      assert (Hne : (r_id r =? r_id r0) = false).
      { apply String.eqb_neq. intros E. apply Hnotin. rewrite <- E.
        apply in_map. eapply nth_error_In. exact Hi. }
      assert (Hidx : forall o,
                 List.length (outbox (after_recipient env smtpSettings template o r0 w))
                 + sends_before template i
                 = List.length (outbox w) + sends_before template (S i)).
      { intros o. cbn [after_recipient outbox]. rewrite length_app.
        destruct template; cbn; lia. }
      cbn [firstn]. rewrite !send_batch_cons.
      destruct (outcome_of env conn smtpSettings template (List.length (outbox w))
                  (contacts r0)) as [|err] eqn:Ho;
        [rewrite <- (Hidx Delivered) | rewrite <- (Hidx (Rejected err))];
        apply IH; try assumption;
        cbn [after_recipient store campaign_recipients];
        rewrite nth_error_update_where, Hj; cbn [option_map]; rewrite Hne;
        reflexivity.
Qed.

(** ** C4 *)

(** C4: in a batch of claimed recipients with distinct ids, the row of the
    [i]-th recipient ends as its own delivery ended, whatever happened to
    the others: sent when the delivery succeeded; failed when it threw,
    with the text of the thrown error as [error_message], which is not
    empty unless the thrown error's own text is.  The loop never stops
    early: the sent and the failed counts add up to the size of the
    batch. *)
Theorem batch_failure_isolated (rs : list CampaignRecipient) (w : World)
    (i j : nat) (r : CampaignRecipient) :
  NoDup (map r_id rs) ->
  nth_error rs i = Some r ->
  nth_error (campaign_recipients (store w)) j = Some r ->
  (exists r',
     nth_error
       (campaign_recipients
          (store (snd (send_batch env conn smtpSettings template rs 0 0 w)))) j
     = Some r'
     /\ r_id r' = r_id r
     /\ match outcome_of env conn smtpSettings template
                (List.length (outbox w) + sends_before template i) (contacts r) with
        | Delivered => r_status r' = RSent
        | Rejected err =>
            r_status r' = RFailed
            /\ error_message r' = Some (message_or "Unknown error" err)
            /\ (err <> ErrorObject "" -> error_message r' <> Some "")
        end)
  /\ (fst (fst (send_batch env conn smtpSettings template rs 0 0 w))
      + snd (fst (send_batch env conn smtpSettings template rs 0 0 w))
      = Z.of_nat (List.length rs))%Z.
Proof.
  intros Hnd Hi Hj. split; [|rewrite send_batch_counts; lia].
  rewrite (send_batch_row rs w i j r 0 0 Hnd Hi Hj).
  eexists. split; [reflexivity|]. split; [apply mark_recipient_id|].
  destruct (outcome_of _ _ _ _ _ _) as [|err]; cbn.
  - reflexivity.
  - repeat split. intros Hne H. injection H as H.
    destruct err as [m|]; cbn in H.
    + apply Hne. rewrite H. reflexivity.
    + discriminate.
Qed.

(** Each claimed row leaves the pending rows of its campaign, once. *)
Lemma send_batch_pending (cid : string) (rs : list CampaignRecipient) :
  forall s f w,
    NoDup (map r_id (campaign_recipients (store w))) ->
    NoDup (map r_id rs) ->
    (forall r, In r rs ->
       In r (campaign_recipients (store w))
       /\ campaign_id r = cid /\ is_pending r = true) ->
    (List.length
       (pending_of cid
          (campaign_recipients
             (store (snd (send_batch env conn smtpSettings template rs s f w)))))
     + List.length rs
     = List.length (pending_of cid (campaign_recipients (store w))))%nat
    /\ map r_id
         (campaign_recipients
            (store (snd (send_batch env conn smtpSettings template rs s f w))))
       = map r_id (campaign_recipients (store w)).
Proof.
  induction rs as [|r rest IH]; intros s f w Hnd Hrs Hall.
  - cbn. split; [lia | reflexivity].
  - cbn [map] in Hrs. inversion Hrs as [|? ? Hnotin Hrs']; subst.
    destruct (Hall r (or_introl eq_refl)) as (Hin & Hcid & Hp).
    rewrite send_batch_cons.
    assert (Hstep : forall o s' f',
      (List.length
         (pending_of cid
            (campaign_recipients
               (store (snd (send_batch env conn smtpSettings template rest s' f'
                              (after_recipient env smtpSettings template o r w))))))
       + List.length (r :: rest)
       = List.length (pending_of cid (campaign_recipients (store w))))%nat
      /\ map r_id
           (campaign_recipients
              (store (snd (send_batch env conn smtpSettings template rest s' f'
                             (after_recipient env smtpSettings template o r w)))))
         = map r_id (campaign_recipients (store w))).
    { intros o s' f'.
      assert (Hkeys : map r_id
                (campaign_recipients
                   (store (after_recipient env smtpSettings template o r w)))
              = map r_id (campaign_recipients (store w))).
      { cbn [after_recipient store campaign_recipients].
        apply update_where_keys. intros x. apply mark_recipient_id. }
      destruct (IH s' f' (after_recipient env smtpSettings template o r w))
        as [Hlen Hids].
      - rewrite Hkeys. exact Hnd.
      - exact Hrs'.
      - intros r' Hr'. destruct (Hall r' (or_intror Hr')) as (Hin' & Hcid' & Hp').
        split; [|split; assumption].
        cbn [after_recipient store campaign_recipients].
        apply update_where_other; [exact Hin'|].
        intros E. apply Hnotin. rewrite <- E. apply in_map. exact Hr'.
      - split; [|rewrite Hids; exact Hkeys].
        rewrite <- (pending_update_one cid
                      (mark_recipient o (clock env (clock_reads w))) r
                      (campaign_recipients (store w)) Hnd Hin Hcid Hp
                      (mark_recipient_not_pending _ _ _)).
        cbn [after_recipient store campaign_recipients] in Hlen.
        cbn [List.length]. lia. }
    destruct (outcome_of _ _ _ _ _ _); apply Hstep.
Qed.

End Batch.

(** C4, at a concrete batch: the server rejects the second message only;
    the second row is failed with the server's text and the loop goes on. *)
Lemma batch_failure_isolated_witness :
  (exists r',
     nth_error
       (campaign_recipients
          (store (snd (send_batch env1 conn1 settings1 (Some welcome) rows3 0 0
                         world_paused)))) 1
     = Some r'
     /\ r_id r' = r_id (row "r2" bob RPending)
     /\ match outcome_of env1 conn1 settings1 (Some welcome)
                (List.length (outbox world_paused) + sends_before (Some welcome) 1)
                (contacts (row "r2" bob RPending)) with
        | Delivered => r_status r' = RSent
        | Rejected err =>
            r_status r' = RFailed
            /\ error_message r' = Some (message_or "Unknown error" err)
            /\ (err <> ErrorObject "" -> error_message r' <> Some "")
        end)
  /\ (fst (fst (send_batch env1 conn1 settings1 (Some welcome) rows3 0 0 world_paused))
      + snd (fst (send_batch env1 conn1 settings1 (Some welcome) rows3 0 0 world_paused))
      = Z.of_nat (List.length rows3))%Z.
Proof.
  apply (batch_failure_isolated env1 conn1 settings1 (Some welcome) rows3
           world_paused 1 1 (row "r2" bob RPending)).
  - cbn. repeat constructor; cbn; intuition discriminate.
  - reflexivity.
  - reflexivity.
Defined.

(** C4, the counterexample: when the transport throws an [Error] whose
    message is empty, the row is marked failed with an empty
    [error_message]; the rows around it are sent. *)
Lemma failed_row_with_empty_text :
  map (fun r => (r_status r, error_message r))
    (campaign_recipients
       (store (snd (send_batch env_empty_error conn1 settings1 (Some welcome) rows3
                      0 0 world_paused))))
  = [(RSent, None); (RFailed, Some ""); (RSent, None)]
  /\ ~ (forall r,
          In r (campaign_recipients
                  (store (snd (send_batch env_empty_error conn1 settings1
                                 (Some welcome) rows3 0 0 world_paused)))) ->
          r_status r = RFailed ->
          exists m, error_message r = Some m /\ m <> "").
Proof.
  split; [vm_compute; reflexivity|].
  intros H.
  destruct (H (set_failed "" (row "r2" bob RPending))) as (m & Hm & Hne).
  - vm_compute. right. left. reflexivity.
  - reflexivity.
  - cbn in Hm. injection Hm as <-. apply Hne. reflexivity.
Qed.

(** The scenario of the specification: recipient 3 of 5 is rejected. *)
Example third_of_five_fails :
  map (fun r => (r_status r, error_message r))
    (campaign_recipients
       (store (snd (send_batch env_third_fails conn1 settings1 (Some welcome) rows5
                      0 0 (world_of (mkStore [campaign_fresh] [settings1] rows5))))))
  = [(RSent, None); (RSent, None); (RFailed, Some "550 rejected");
     (RSent, None); (RSent, None)].
Proof. vm_compute. reflexivity. Qed.

(** ** One invocation that finds pending rows *)

Lemma firstn_S_nonempty {A : Type} (n : nat) (l : list A) :
  l <> [] -> firstn (S n) l <> [].
Proof.
  destruct l; [contradiction | discriminate].
Qed.

Lemma claimed_rows (cid : string) (n : nat) (l : list CampaignRecipient) :
  NoDup (map r_id l) ->
  NoDup (map r_id (firstn n (pending_of cid l)))
  /\ forall r, In r (firstn n (pending_of cid l)) ->
       In r l /\ campaign_id r = cid /\ is_pending r = true.
Proof.
  intros Hnd. split.
  - apply NoDup_keys_firstn. apply NoDup_keys_filter. exact Hnd.
  - intros r Hr.
    assert (Hin : In r (pending_of cid l)).
    { rewrite <- (firstn_skipn n (pending_of cid l)). apply in_or_app. left; exact Hr. }
    apply filter_In in Hin. destruct Hin as [Hin Hc].
    apply andb_true_iff in Hc. destruct Hc as [Hc Hp].
    apply String.eqb_eq in Hc. auto.
Qed.

Lemma select_campaign_run (cid : string) (w : World) :
  select_campaign cid w
  = (single (filter (fun c => c_id c =? cid) (campaigns (store w))),
     with_call (SelectCampaign cid) w).
Proof. reflexivity. Qed.

Lemma select_smtp_settings_run (w : World) :
  select_smtp_settings w
  = (hd_error (smtp_settings (store w)), with_call SelectSmtpSettings w).
Proof.
  unfold select_smtp_settings, bind, log, get_store, ret.
  rewrite single_firstn_1. reflexivity.
Qed.

Lemma select_pending_run (cid : string) (n : nat) (w : World) :
  select_pending cid n w
  = (mkResult (Some (firstn n (pending_of cid (campaign_recipients (store w))))) None,
     with_call (SelectPendingRecipients cid) w).
Proof. reflexivity. Qed.

Lemma select_counters_run (cid : string) (w : World) :
  select_counters cid w
  = (single (filter (fun c => c_id c =? cid) (campaigns (store w))),
     with_call (SelectCounters cid) w).
Proof. reflexivity. Qed.

Lemma count_pending_run (cid : string) (w : World) :
  count_pending cid w
  = (Some (pending_count cid (store w)), with_call (CountPendingRecipients cid) w).
Proof. reflexivity. Qed.

Lemma update_campaign_run (cid : string) (f : Campaign -> Campaign) (w : World) :
  update_campaign cid f w
  = (tt, with_store
           (mkStore (update_where c_id cid f (campaigns (store w)))
              (smtp_settings (store w)) (campaign_recipients (store w)))
           (with_call (UpdateCampaign cid) w)).
Proof. reflexivity. Qed.

Lemma serve_post (env : Env) (cid pw : string) (w : World) :
  cid <> "" -> pw <> "" ->
  serve env (post cid pw) w = dispatch env cid pw w.
Proof.
  intros Hcid Hpw. apply String.eqb_neq in Hcid, Hpw.
  unfold serve, post. cbn [method json String.eqb Ascii.eqb Bool.eqb truthy or_empty].
  rewrite Hcid, Hpw. reflexivity.
Qed.

(** The handler from the point where a batch has been claimed. *)
Lemma dispatch_batch_run (env : Env) (cid pw : string) (w : World)
    (c : Campaign) (ss : SmtpSettings) (others : list SmtpSettings)
    (r0 : CampaignRecipient) (rs0 : list CampaignRecipient) :
  found cid (store w) c ->
  smtp_settings (store w) = ss :: others ->
  firstn 50 (pending_of cid (campaign_recipients (store w))) = r0 :: rs0 ->
  exists w1,
    campaigns (store w1)
    = update_where c_id cid
        (set_sending (if truthy (started_at c) then or_empty (started_at c)
                      else clock env (clock_reads w)))
        (campaigns (store w))
    /\ smtp_settings (store w1) = smtp_settings (store w)
    /\ campaign_recipients (store w1) = campaign_recipients (store w)
    /\ outbox w1 = outbox w
    /\ dispatch env cid pw w
       = (counts <- send_batch env
                      (mkConnection (host ss) (port ss) (use_tls ss) (username ss) pw)
                      ss (email_templates c) (r0 :: rs0) 0 0 ;;
          currentCampaign <- select_counters cid ;;
          update_campaign cid
            (set_counts
               (or_zero (match currentCampaign with
                         | Some c => sent_count c
                         | None => None
                         end) + fst counts)
               (or_zero (match currentCampaign with
                         | Some c => failed_count c
                         | None => None
                         end) + snd counts)) ;;
          count <- count_pending cid ;;
          ret (ok_response
                 [("success", JBool true);
                  ("sent", JNum (fst counts));
                  ("failed", JNum (snd counts));
                  ("remaining", JNum (or_zero count));
                  ("message",
                   JStr (if (0 <? or_zero count)%Z
                         then "Batch completed, more recipients pending"
                         else "All emails sent"))])) w1.
Proof.
  intros Hc Hs Hrows. unfold found in Hc.
  unfold dispatch. unfold bind at 1. rewrite select_campaign_run, Hc.
  unfold bind at 1. rewrite select_smtp_settings_run.
  cbn [store with_call]. rewrite Hs. cbn [hd_error].
  unfold bind at 1. rewrite select_pending_run.
  cbn [store with_call q_error data]. rewrite Hrows.
  unfold bind at 1.
  destruct (truthy (started_at c)).
  - unfold ret at 1. unfold bind at 1. rewrite update_campaign_run.
    eexists. split; [|split; [|split; [|split]]].
    5: reflexivity.
    all: cbn [store with_store with_call campaigns smtp_settings
              campaign_recipients outbox]; auto.
  - unfold now at 1. unfold bind at 1. rewrite update_campaign_run.
    eexists. split; [|split; [|split; [|split]]].
    5: reflexivity.
    all: cbn [store with_store with_call tick campaigns smtp_settings
              campaign_recipients outbox]; auto.
Qed.

Lemma set_sending_id (t : string) (x : Campaign) : c_id (set_sending t x) = c_id x.
Proof. reflexivity. Qed.

Lemma set_counts_id (s f : Z) (x : Campaign) : c_id (set_counts s f x) = c_id x.
Proof. reflexivity. Qed.

Lemma set_completed_id (t : string) (x : Campaign) : c_id (set_completed t x) = c_id x.
Proof. reflexivity. Qed.

(** What one invocation does to a campaign that has pending rows. *)
Lemma serve_batch_step (env : Env) (w : World) (cid pw : string) (c : Campaign) :
  cid <> "" -> pw <> "" ->
  found cid (store w) c ->
  smtp_settings (store w) <> [] ->
  NoDup (map r_id (campaign_recipients (store w))) ->
  pending_of cid (campaign_recipients (store w)) <> [] ->
  exists c',
    found cid (store (snd (serve env (post cid pw) w))) c'
    /\ c_status c' = CSending
    /\ total_recipients c' = total_recipients c
    /\ sent_count c'
       = Some (or_zero (sent_count c)
               + count_field "sent" (fst (serve env (post cid pw) w)))%Z
    /\ failed_count c'
       = Some (or_zero (failed_count c)
               + count_field "failed" (fst (serve env (post cid pw) w)))%Z
    /\ (count_field "sent" (fst (serve env (post cid pw) w))
        + count_field "failed" (fst (serve env (post cid pw) w))
        = Z.of_nat
            (List.length (firstn 50 (pending_of cid (campaign_recipients (store w))))))%Z
    /\ (pending_count cid (store (snd (serve env (post cid pw) w)))
        = pending_count cid (store w)
          - Z.of_nat
              (List.length
                 (firstn 50 (pending_of cid (campaign_recipients (store w))))))%Z
    /\ count_field "remaining" (fst (serve env (post cid pw) w))
       = pending_count cid (store (snd (serve env (post cid pw) w)))
    /\ status (fst (serve env (post cid pw) w)) = 200%Z
    /\ map r_id (campaign_recipients (store (snd (serve env (post cid pw) w))))
       = map r_id (campaign_recipients (store w))
    /\ smtp_settings (store (snd (serve env (post cid pw) w)))
       = smtp_settings (store w).
Proof.
  intros Hcid Hpw Hc Hsmtp Hnd Hpend.
  rewrite (serve_post env cid pw w Hcid Hpw).
  remember (dispatch env cid pw w) as res eqn:Eres.
  destruct (smtp_settings (store w)) as [|ss others] eqn:Es; [contradiction|].
  destruct (claimed_rows cid 50 _ Hnd) as [Hnd_rs Hall].
  pose proof (firstn_S_nonempty 49 _ Hpend) as Hne.
  destruct (firstn 50 (pending_of cid (campaign_recipients (store w))))
    as [|r0 rs0] eqn:Erows; [contradiction|].
  destruct (dispatch_batch_run env cid pw w c ss others r0 rs0 Hc Es Erows)
    as (w1 & Hc1 & Hs1 & Hr1 & Ho1 & Hrun).
  rewrite Hrun in Eres. clear Hrun. unfold bind at 1 in Eres.
  set (conn := mkConnection (host ss) (port ss) (use_tls ss) (username ss) pw) in *.
  destruct (send_batch_frame env conn ss (email_templates c) (r0 :: rs0) 0 0 w1)
    as [Hf1 Hf2].
  pose proof (send_batch_counts env conn ss (email_templates c) (r0 :: rs0) 0 0 w1)
    as Hcnt.
  destruct (send_batch_pending env conn ss (email_templates c) cid (r0 :: rs0) 0 0 w1)
    as [Hlen Hids].
  { rewrite Hr1. exact Hnd. }
  { exact Hnd_rs. }
  { intros r Hr. rewrite Hr1. apply Hall. exact Hr. }
  destruct (send_batch env conn ss (email_templates c) (r0 :: rs0) 0 0 w1)
    as [[sc fc] w2].
  cbn [fst snd] in Hf1, Hf2, Hcnt, Hlen, Hids, Eres.
  unfold bind at 1 in Eres. rewrite select_counters_run in Eres.
  rewrite Hf1, Hc1 in Eres.
  rewrite (single_found_update cid _ _ c (set_sending_id _) Hc) in Eres.
  unfold bind at 1 in Eres. rewrite update_campaign_run in Eres.
  unfold bind at 1 in Eres. rewrite count_pending_run in Eres. unfold ret in Eres.
  subst res.
  cbn [fst snd store with_store with_call campaigns smtp_settings
       campaign_recipients set_sending sent_count failed_count].
  eexists. split.
  { unfold found. cbn [campaigns]. rewrite Hf1, Hc1.
    apply single_found_update; [apply set_counts_id|].
    apply single_found_update; [apply set_sending_id|]. exact Hc. }
  unfold count_field, field, ok_response, pending_count.
  cbn [body jget String.eqb Ascii.eqb Bool.eqb status or_zero
       c_status total_recipients sent_count failed_count set_counts set_sending
       campaign_recipients fst snd store with_store with_call].
  rewrite Hr1 in Hlen, Hids. rewrite Hf2, Hs1, Es.
  cbn [List.length] in Hlen, Hcnt |- *.
  repeat split; try assumption; lia.
Qed.

(** What one invocation does to a campaign that has no pending row. *)
Lemma serve_idle_step (env : Env) (w : World) (cid pw : string) (c : Campaign) :
  cid <> "" -> pw <> "" ->
  found cid (store w) c ->
  smtp_settings (store w) <> [] ->
  pending_of cid (campaign_recipients (store w)) = [] ->
  found cid (store (snd (serve env (post cid pw) w)))
    (set_completed (clock env (clock_reads w)) c)
  /\ count_field "sent" (fst (serve env (post cid pw) w)) = 0%Z
  /\ count_field "failed" (fst (serve env (post cid pw) w)) = 0%Z
  /\ campaign_recipients (store (snd (serve env (post cid pw) w)))
     = campaign_recipients (store w)
  /\ smtp_settings (store (snd (serve env (post cid pw) w)))
     = smtp_settings (store w).
Proof.
  intros Hcid Hpw Hc Hsmtp Hpend.
  rewrite (serve_post env cid pw w Hcid Hpw).
  remember (dispatch env cid pw w) as res eqn:Eres.
  destruct (smtp_settings (store w)) as [|ss others] eqn:Es; [contradiction|].
  unfold dispatch in Eres. unfold bind at 1 in Eres.
  rewrite select_campaign_run in Eres. unfold found in Hc. rewrite Hc in Eres.
  unfold bind at 1 in Eres. rewrite select_smtp_settings_run in Eres.
  cbn [store with_call] in Eres. rewrite Es in Eres. cbn [hd_error] in Eres.
  unfold bind at 1 in Eres. rewrite select_pending_run in Eres.
  cbn [store with_call q_error data] in Eres. rewrite Hpend in Eres.
  cbn [firstn] in Eres.
  unfold bind at 1 in Eres. unfold now at 1 in Eres.
  unfold bind at 1 in Eres. rewrite update_campaign_run in Eres.
  unfold ret in Eres. subst res.
  cbn [fst snd store with_store with_call tick campaigns smtp_settings
       campaign_recipients clock_reads].
  split; [|repeat split; auto].
  unfold found. cbn [campaigns].
  apply single_found_update; [apply set_completed_id | exact Hc].
Qed.

Lemma pending_count_nonneg (cid : string) (s : Store) :
  (0 <= pending_count cid s)%Z.
Proof. unfold pending_count. lia. Qed.

(** One invocation keeps the books balanced, adds the counts it reports to
    the persisted counters and takes one batch off the pending rows. *)
Lemma serve_step (env : Env) (w : World) (cid pw : string) (c : Campaign)
    (total : Z) :
  cid <> "" -> pw <> "" ->
  balanced cid (store w) c total ->
  exists c',
    balanced cid (store (snd (serve env (post cid pw) w))) c' total
    /\ (or_zero (sent_count c')
        = or_zero (sent_count c)
          + count_field "sent" (fst (serve env (post cid pw) w)))%Z
    /\ (or_zero (failed_count c')
        = or_zero (failed_count c)
          + count_field "failed" (fst (serve env (post cid pw) w)))%Z
    /\ (pending_count cid (store (snd (serve env (post cid pw) w)))
        = Z.max 0 (pending_count cid (store w) - 50))%Z.
Proof.
  intros Hcid Hpw (Hc & Hsmtp & Hnd & Htot & Hbal).
  destruct (pending_of cid (campaign_recipients (store w))) as [|p ps] eqn:Ep.
  - destruct (serve_idle_step env w cid pw c Hcid Hpw Hc Hsmtp Ep)
      as (Hc' & Hs & Hf & Hrows & Hsm).
    exists (set_completed (clock env (clock_reads w)) c).
    unfold balanced, pending_count in *. rewrite Hrows, Hsm, Hs, Hf, Ep in *.
    cbn [set_completed total_recipients sent_count failed_count List.length] in *.
    repeat split; try assumption; lia.
  - assert (Hne : pending_of cid (campaign_recipients (store w)) <> [])
      by (rewrite Ep; discriminate).
    destruct (serve_batch_step env w cid pw c Hcid Hpw Hc Hsmtp Hnd Hne)
      as (c' & Hc' & _ & Htot' & Hs & Hf & Hsum & Hpen & _ & _ & Hids & Hsm).
    exists c'. unfold balanced.
    rewrite Hsm, Hids, Hs, Hf, Htot', Hpen. cbn [or_zero].
    rewrite length_firstn in Hsum |- *.
    unfold pending_count in *.
    repeat split; try assumption; lia.
Qed.

(** ** C5 *)

Lemma invoke_n_balanced (envs : nat -> Env) (w : World) (cid pw : string)
    (c : Campaign) (total : Z) :
  cid <> "" -> pw <> "" ->
  balanced cid (store w) c total ->
  forall n,
    exists c',
      balanced cid (store (invoke_n envs (post cid pw) n w)) c' total
      /\ (pending_count cid (store (invoke_n envs (post cid pw) n w))
          = Z.max 0 (pending_count cid (store w) - 50 * Z.of_nat n))%Z.
Proof.
  intros Hcid Hpw Hbal n. induction n as [|n IH].
  - exists c. split; [exact Hbal|].
    pose proof (pending_count_nonneg cid (store w)). cbn [invoke_n]. lia.
  - destruct IH as (cn & Hn & Hpn).
    destruct (serve_step (envs n) _ cid pw cn total Hcid Hpw Hn)
      as (c' & Hb' & _ & _ & Hp').
    exists c'. cbn [invoke_n]. split; [exact Hb'|].
    rewrite Hp', Hpn. lia.
Qed.

(** C5: take a campaign whose books balance (its counters and its pending
    rows make up [total_recipients], as for a fresh campaign with counters
    at 0 and every row pending) and invoke dispatch [n] times in sequence.
    Every invocation adds to the persisted [sent_count] and [failed_count]
    exactly the sent and the failed count it reports (a null counter reads
    as 0, as in the code); and once the invocations have covered the pending
    rows, 50 to a batch, no row is pending and
    [sent_count + failed_count = total_recipients]. *)
Theorem counters_add_up (envs : nat -> Env) (w : World) (cid pw : string)
    (c : Campaign) (total : Z) (n : nat) :
  cid <> "" -> pw <> "" ->
  balanced cid (store w) c total ->
  (forall k, (k < n)%nat ->
     exists ck ck',
       found cid (store (invoke_n envs (post cid pw) k w)) ck
       /\ found cid (store (invoke_n envs (post cid pw) (S k) w)) ck'
       /\ (or_zero (sent_count ck')
           = or_zero (sent_count ck)
             + count_field "sent"
                 (fst (serve (envs k) (post cid pw)
                         (invoke_n envs (post cid pw) k w))))%Z
       /\ (or_zero (failed_count ck')
           = or_zero (failed_count ck)
             + count_field "failed"
                 (fst (serve (envs k) (post cid pw)
                         (invoke_n envs (post cid pw) k w))))%Z)
  /\ ((pending_count cid (store w) <= 50 * Z.of_nat n)%Z ->
      exists c',
        found cid (store (invoke_n envs (post cid pw) n w)) c'
        /\ pending_count cid (store (invoke_n envs (post cid pw) n w)) = 0%Z
        /\ total_recipients c' = Some total
        /\ (or_zero (sent_count c') + or_zero (failed_count c') = total)%Z).
Proof.
  intros Hcid Hpw Hbal. split.
  - intros k _.
    destruct (invoke_n_balanced envs w cid pw c total Hcid Hpw Hbal k)
      as (ck & Hk & _).
    destruct (serve_step (envs k) _ cid pw ck total Hcid Hpw Hk)
      as (ck' & Hb' & Hs & Hf & _).
    exists ck, ck'. cbn [invoke_n].
    repeat split; try assumption; [apply Hk | apply Hb'].
  - intros Hn.
    destruct (invoke_n_balanced envs w cid pw c total Hcid Hpw Hbal n)
      as (c' & Hb & Hp).
    exists c'. destruct Hb as (Hc' & _ & _ & Htot & Hsum).
    assert (Hz : pending_count cid (store (invoke_n envs (post cid pw) n w)) = 0%Z)
      by (rewrite Hp; lia).
    repeat split; try assumption. rewrite Hz in Hsum. lia.
Qed.

Lemma world_fresh_balanced :
  balanced "c1" (store world_fresh) campaign_fresh 3.
Proof.
  unfold balanced. repeat split.
  - cbn. discriminate.
  - cbn. repeat constructor; cbn; intuition discriminate.
Defined.

Lemma counters_add_up_witness :
  (forall k, (k < 2)%nat ->
     exists ck ck',
       found "c1" (store (invoke_n (fun _ => env1) (post "c1" "pw") k world_fresh)) ck
       /\ found "c1"
            (store (invoke_n (fun _ => env1) (post "c1" "pw") (S k) world_fresh)) ck'
       /\ (or_zero (sent_count ck')
           = or_zero (sent_count ck)
             + count_field "sent"
                 (fst (serve env1 (post "c1" "pw")
                         (invoke_n (fun _ => env1) (post "c1" "pw") k world_fresh))))%Z
       /\ (or_zero (failed_count ck')
           = or_zero (failed_count ck)
             + count_field "failed"
                 (fst (serve env1 (post "c1" "pw")
                         (invoke_n (fun _ => env1) (post "c1" "pw") k world_fresh))))%Z)
  /\ ((pending_count "c1" (store world_fresh) <= 50 * Z.of_nat 2)%Z ->
      exists c',
        found "c1" (store (invoke_n (fun _ => env1) (post "c1" "pw") 2 world_fresh)) c'
        /\ pending_count "c1"
             (store (invoke_n (fun _ => env1) (post "c1" "pw") 2 world_fresh)) = 0%Z
        /\ total_recipients c' = Some 3%Z
        /\ (or_zero (sent_count c') + or_zero (failed_count c') = 3)%Z).
Proof.
  apply (counters_add_up (fun _ => env1) world_fresh "c1" "pw" campaign_fresh 3 2).
  - discriminate.
  - discriminate.
  - exact world_fresh_balanced.
Defined.

(** ** C2 *)

(** C2 (as amended): on a paused campaign that has pending rows (and SMTP
    settings) the dispatcher does not consult the status: it answers 200,
    claims the first pending rows, up to 50 of them and at least one, takes
    them off the pending rows and reports them as sent or failed, and sets
    the campaign's status to sending. *)
Theorem paused_campaign_is_dispatched (env : Env) (w : World) (cid pw : string)
    (c : Campaign) :
  cid <> "" -> pw <> "" ->
  found cid (store w) c ->
  c_status c = CPaused ->
  smtp_settings (store w) <> [] ->
  NoDup (map r_id (campaign_recipients (store w))) ->
  pending_of cid (campaign_recipients (store w)) <> [] ->
  exists c',
    found cid (store (snd (serve env (post cid pw) w))) c'
    /\ c_status c' = CSending
    /\ status (fst (serve env (post cid pw) w)) = 200%Z
    /\ (count_field "sent" (fst (serve env (post cid pw) w))
        + count_field "failed" (fst (serve env (post cid pw) w))
        = Z.min 50 (pending_count cid (store w)))%Z
    /\ (pending_count cid (store (snd (serve env (post cid pw) w)))
        = pending_count cid (store w) - Z.min 50 (pending_count cid (store w)))%Z
    /\ (0 < Z.min 50 (pending_count cid (store w)))%Z.
Proof.
  intros Hcid Hpw Hc _ Hsmtp Hnd Hne.
  destruct (serve_batch_step env w cid pw c Hcid Hpw Hc Hsmtp Hnd Hne)
    as (c' & Hc' & Hst & _ & _ & _ & Hsum & Hpen & _ & H200 & _ & _).
  exists c'. rewrite Hsum, Hpen, length_firstn. unfold pending_count.
  destruct (pending_of cid (campaign_recipients (store w))) as [|p ps];
    [contradiction|].
  cbn [List.length]. repeat split; try assumption; lia.
Qed.

Lemma paused_campaign_is_dispatched_witness :
  exists c',
    found "c1" (store (snd (serve env1 (post "c1" "pw") world_paused))) c'
    /\ c_status c' = CSending
    /\ status (fst (serve env1 (post "c1" "pw") world_paused)) = 200%Z
    /\ (count_field "sent" (fst (serve env1 (post "c1" "pw") world_paused))
        + count_field "failed" (fst (serve env1 (post "c1" "pw") world_paused))
        = Z.min 50 (pending_count "c1" (store world_paused)))%Z
    /\ (pending_count "c1" (store (snd (serve env1 (post "c1" "pw") world_paused)))
        = pending_count "c1" (store world_paused)
          - Z.min 50 (pending_count "c1" (store world_paused)))%Z
    /\ (0 < Z.min 50 (pending_count "c1" (store world_paused)))%Z.
Proof.
  apply (paused_campaign_is_dispatched env1 world_paused "c1" "pw"
           (campaign1 CPaused (Some "2026-01-01T00:00:00.000Z") None)).
  - discriminate.
  - discriminate.
  - reflexivity.
  - reflexivity.
  - cbn. discriminate.
  - cbn. repeat constructor; cbn; intuition discriminate.
  - cbn. discriminate.
Defined.

(** C2, the counterexample: a dispatch on a paused campaign with pending
    rows does not leave the rows and the status alone. *)
Lemma paused_campaign_resumed :
  ~ (option_map c_status (find_campaign "c1" (store world_paused)) = Some CPaused ->
     campaign_recipients (store (snd (serve env1 (post "c1" "pw") world_paused)))
     = campaign_recipients (store world_paused)
     /\ option_map c_status
          (find_campaign "c1" (store (snd (serve env1 (post "c1" "pw") world_paused))))
        <> Some CSending).
Proof.
  intros H. destruct (H eq_refl) as [_ H']. apply H'. vm_compute. reflexivity.
Qed.

(* ===================================================================== *)
(** * Further properties of the dispatcher *)
(* ===================================================================== *)

(** ** The two paths of a dispatch that passes its setup *)

(** The path that finds nothing pending, as an equation. *)
Lemma dispatch_idle_result (env : Env) (cid pw : string) (w : World) (c : Campaign) :
  found cid (store w) c ->
  smtp_settings (store w) <> [] ->
  pending_of cid (campaign_recipients (store w)) = [] ->
  dispatch env cid pw w
  = (ok_response
       [("success", JBool true); ("message", JStr "No pending recipients");
        ("sent", JNum 0)],
     with_store
       (mkStore
          (update_where c_id cid (set_completed (clock env (clock_reads w)))
             (campaigns (store w)))
          (smtp_settings (store w)) (campaign_recipients (store w)))
       (with_call (UpdateCampaign cid)
          (tick (with_call (SelectPendingRecipients cid)
                   (with_call SelectSmtpSettings
                      (with_call (SelectCampaign cid) w)))))).
Proof.
  intros Hc Hsmtp Hpend.
  destruct (smtp_settings (store w)) as [|ss others] eqn:Es; [contradiction|].
  unfold dispatch. unfold bind at 1.
  rewrite select_campaign_run. unfold found in Hc. rewrite Hc.
  unfold bind at 1. rewrite select_smtp_settings_run.
  cbn [store with_call]. rewrite Es. cbn [hd_error].
  unfold bind at 1. rewrite select_pending_run.
  cbn [store with_call q_error data]. rewrite Hpend. cbn [firstn].
  unfold bind at 1. unfold now at 1.
  unfold bind at 1. rewrite update_campaign_run. unfold ret.
  cbn [store with_call tick]. rewrite Es. reflexivity.
Qed.

(** The path that claims a batch: the answer and the final store in terms
    of what the loop returns. *)
Lemma dispatch_batch_result (env : Env) (cid pw : string) (w : World)
    (c : Campaign) (ss : SmtpSettings) (others : list SmtpSettings)
    (r0 : CampaignRecipient) (rs0 : list CampaignRecipient) :
  found cid (store w) c ->
  smtp_settings (store w) = ss :: others ->
  firstn 50 (pending_of cid (campaign_recipients (store w))) = r0 :: rs0 ->
  exists w1 b,
    campaigns (store w1)
    = update_where c_id cid
        (set_sending (if truthy (started_at c) then or_empty (started_at c)
                      else clock env (clock_reads w)))
        (campaigns (store w))
    /\ smtp_settings (store w1) = smtp_settings (store w)
    /\ campaign_recipients (store w1) = campaign_recipients (store w)
    /\ outbox w1 = outbox w
    /\ b = send_batch env
             (mkConnection (host ss) (port ss) (use_tls ss) (username ss) pw)
             ss (email_templates c) (r0 :: rs0) 0 0 w1
    /\ fst (dispatch env cid pw w)
       = ok_response
           [("success", JBool true);
            ("sent", JNum (fst (fst b)));
            ("failed", JNum (snd (fst b)));
            ("remaining", JNum (pending_count cid (store (snd b))));
            ("message",
             JStr (if (0 <? pending_count cid (store (snd b)))%Z
                   then "Batch completed, more recipients pending"
                   else "All emails sent"))]
    /\ campaigns (store (snd (dispatch env cid pw w)))
       = update_where c_id cid
           (set_counts (or_zero (sent_count c) + fst (fst b))
              (or_zero (failed_count c) + snd (fst b)))
           (campaigns (store w1))
    /\ smtp_settings (store (snd (dispatch env cid pw w))) = smtp_settings (store w)
    /\ campaign_recipients (store (snd (dispatch env cid pw w)))
       = campaign_recipients (store (snd b))
    /\ outbox (snd (dispatch env cid pw w)) = outbox (snd b).
Proof.
  intros Hc Es Erows.
  destruct (dispatch_batch_run env cid pw w c ss others r0 rs0 Hc Es Erows)
    as (w1 & Hc1 & Hs1 & Hr1 & Ho1 & Hrun).
  exists w1. eexists. split; [exact Hc1|]. split; [exact Hs1|].
  split; [exact Hr1|]. split; [exact Ho1|]. split; [reflexivity|].
  rename Hrun into Eres. unfold bind at 1 in Eres.
  set (conn := mkConnection (host ss) (port ss) (use_tls ss) (username ss) pw) in *.
  destruct (send_batch_frame env conn ss (email_templates c) (r0 :: rs0) 0 0 w1)
    as [Hf1 Hf2].
  destruct (send_batch env conn ss (email_templates c) (r0 :: rs0) 0 0 w1)
    as [[sc fc] w2].
  cbn [fst snd] in Hf1, Hf2, Eres |- *.
  unfold bind at 1 in Eres. rewrite select_counters_run in Eres.
  rewrite Hf1, Hc1 in Eres.
  rewrite (single_found_update cid _ _ c (set_sending_id _) Hc) in Eres.
  unfold bind at 1 in Eres. rewrite update_campaign_run in Eres.
  unfold bind at 1 in Eres. rewrite count_pending_run in Eres. unfold ret in Eres.
  rewrite Eres.
  cbn [fst snd store with_store with_call campaigns smtp_settings
       campaign_recipients outbox set_sending sent_count failed_count or_zero
       pending_count].
  rewrite Hf1, Hf2, Hs1. repeat split.
Qed.

(** A dispatch either fails its setup and leaves store and outbox alone,
    or finds nothing pending, or claims a batch. *)
Lemma dispatch_cases (env : Env) (cid pw : string) (w : World) :
  (store (snd (dispatch env cid pw w)) = store w
   /\ outbox (snd (dispatch env cid pw w)) = outbox w)
  \/ (exists c,
        found cid (store w) c /\ smtp_settings (store w) <> []
        /\ pending_of cid (campaign_recipients (store w)) = [])
  \/ (exists c ss others r0 rs0,
        found cid (store w) c /\ smtp_settings (store w) = ss :: others
        /\ firstn 50 (pending_of cid (campaign_recipients (store w))) = r0 :: rs0).
Proof.
  destruct (single (filter (fun x => c_id x =? cid) (campaigns (store w))))
    as [c|] eqn:Hc.
  - destruct (smtp_settings (store w)) as [|ss others] eqn:Es.
    + left.
      assert (E : dispatch env cid pw w
                  = (error_response 400 "SMTP settings not configured",
                     with_call SelectSmtpSettings (with_call (SelectCampaign cid) w))).
      { unfold dispatch. unfold bind at 1.
        rewrite select_campaign_run, Hc. unfold bind at 1.
        rewrite select_smtp_settings_run. cbn [store with_call]. rewrite Es.
        reflexivity. }
      rewrite E. split; reflexivity.
    + right.
      destruct (pending_of cid (campaign_recipients (store w))) as [|r0 rs] eqn:Ep.
      * left. exists c. repeat split; [exact Hc | discriminate].
      * right. exists c, ss, others, r0, (firstn 49 rs). repeat split; exact Hc.
  - left.
    assert (E : dispatch env cid pw w
                = (error_response 404 "Campaign not found",
                   with_call (SelectCampaign cid) w)).
    { unfold dispatch. unfold bind at 1. rewrite select_campaign_run, Hc.
      reflexivity. }
    rewrite E. split; reflexivity.
Qed.

(** A request either is answered without touching the world or is handed
    to [dispatch]. *)
Lemma serve_cases (env : Env) (req : Request) (w : World) :
  snd (serve env req w) = w
  \/ exists cid pw, serve env req w = dispatch env cid pw w.
Proof.
  unfold serve. destruct (method req =? "OPTIONS"); [left; reflexivity|].
  destruct (json req) as [err | [c p]]; [left; reflexivity|].
  destruct (negb (truthy c) || negb (truthy p)); [left; reflexivity|].
  right. eauto.
Qed.

Lemma NoDup_key_inj {A : Type} (key : A -> string) (l : list A) (x y : A) :
  NoDup (map key l) -> In x l -> In y l -> key x = key y -> x = y.
Proof.
  induction l as [|a l IH]; intros Hnd Hx Hy E; [destruct Hx|].
  cbn [map] in Hnd. inversion Hnd as [|? ? Hnotin Hnd']; subst.
  destruct Hx as [Hx|Hx], Hy as [Hy|Hy]; subst.
  - reflexivity.
  - exfalso. apply Hnotin. rewrite E. apply in_map. exact Hy.
  - exfalso. apply Hnotin. rewrite <- E. apply in_map. exact Hx.
  - apply IH; assumption.
Qed.

Section BatchMore.

Variable env : Env.
Variable conn : Connection.
Variable smtpSettings : SmtpSettings.
Variable template : option EmailTemplate.

(** The loop hands one message per recipient to the session, in order;
    with a [null] template it hands over none. *)
Lemma send_batch_outbox (rs : list CampaignRecipient) :
  forall s f w,
    outbox (snd (send_batch env conn smtpSettings template rs s f w))
    = (outbox w
       ++ match template with
          | Some t => map (fun r => message_for smtpSettings t (contacts r)) rs
          | None => []
          end)%list.
Proof.
  induction rs as [|r rs IH]; intros s f w.
  - cbn. destruct template; rewrite app_nil_r; reflexivity.
  - rewrite send_batch_cons.
    destruct (outcome_of _ _ _ _ _ _); rewrite IH;
      cbn [after_recipient outbox]; destruct template; cbn [map];
      rewrite <- app_assoc; reflexivity.
Qed.

(** The counters of the loop only grow. *)
Lemma send_batch_counts_lower (rs : list CampaignRecipient) :
  forall s f w,
    (s <= fst (fst (send_batch env conn smtpSettings template rs s f w)))%Z
    /\ (f <= snd (fst (send_batch env conn smtpSettings template rs s f w)))%Z.
Proof.
  induction rs as [|r rs IH]; intros s f w.
  - cbn. lia.
  - rewrite send_batch_cons.
    destruct (outcome_of _ _ _ _ _ _);
      match goal with
      | |- context [send_batch _ _ _ _ _ ?s' ?f' ?w'] =>
          destruct (IH s' f' w') as [H1 H2]
      end; lia.
Qed.

(** The first pending row of a campaign, once marked, leaves the pending
    rows; the others stay, in their order. *)
Lemma first_pending_update (cid : string)
    (g : CampaignRecipient -> CampaignRecipient) (r : CampaignRecipient)
    (ps l : list CampaignRecipient) :
  NoDup (map r_id l) ->
  pending_of cid l = r :: ps ->
  is_pending (g r) = false ->
  pending_of cid (update_where r_id (r_id r) g l) = ps.
Proof.
  intros Hnd Hp Hg. induction l as [|x l IH]; [discriminate|].
  cbn [map] in Hnd. inversion Hnd as [|? ? Hnotin Hnd']; subst.
  unfold pending_of in Hp |- *. cbn [filter] in Hp.
  cbn [update_where map filter]. fold (update_where r_id (r_id r) g l).
  destruct ((campaign_id x =? cid) && is_pending x) eqn:Ex.
  - injection Hp as -> Hps.
    rewrite String.eqb_refl, Hg, andb_false_r.
    rewrite update_where_notin by exact Hnotin. exact Hps.
  - assert (Hin : In r l).
    { assert (H : In r (filter (fun r0 => (campaign_id r0 =? cid) && is_pending r0) l))
        by (rewrite Hp; left; reflexivity).
      apply filter_In in H. tauto. }
    assert (Hne : (r_id x =? r_id r) = false).
    { apply String.eqb_neq. intros E. apply Hnotin. rewrite E. apply in_map.
      exact Hin. }
    rewrite Hne, Ex. apply IH; assumption.
Qed.

(** After the loop has run over the first [n] pending rows of a campaign,
    the pending rows are the ones behind them. *)
Lemma send_batch_pending_skipn (cid : string) (n : nat) :
  forall s f w,
    NoDup (map r_id (campaign_recipients (store w))) ->
    pending_of cid
      (campaign_recipients
         (store (snd (send_batch env conn smtpSettings template
                        (firstn n (pending_of cid (campaign_recipients (store w))))
                        s f w))))
    = skipn n (pending_of cid (campaign_recipients (store w))).
Proof.
  induction n as [|n IH]; intros s f w Hnd; [reflexivity|].
  destruct (pending_of cid (campaign_recipients (store w))) as [|r ps] eqn:Ep.
  - cbn. exact Ep.
  - cbn [firstn skipn]. rewrite send_batch_cons.
    assert (Hstep : forall o,
      pending_of cid
        (campaign_recipients
           (store (after_recipient env smtpSettings template o r w))) = ps
      /\ NoDup (map r_id
                  (campaign_recipients
                     (store (after_recipient env smtpSettings template o r w))))).
    { intros o. cbn [after_recipient store campaign_recipients]. split.
      - apply first_pending_update;
          [exact Hnd | exact Ep | apply mark_recipient_not_pending].
      - rewrite update_where_keys by (intros x; apply mark_recipient_id).
        exact Hnd. }
    destruct (outcome_of _ _ _ _ _ _) as [|err].
    + destruct (Hstep Delivered) as [Hps Hnd1].
      rewrite <- Hps at 1. rewrite IH by exact Hnd1. rewrite Hps. reflexivity.
    + destruct (Hstep (Rejected err)) as [Hps Hnd1].
      rewrite <- Hps at 1. rewrite IH by exact Hnd1. rewrite Hps. reflexivity.
Qed.

End BatchMore.

(** With a [null] template every recipient of the batch is counted as
    failed. *)
Lemma send_batch_null_counts (env : Env) (conn : Connection)
    (smtpSettings : SmtpSettings) (rs : list CampaignRecipient) :
  forall s f w,
    fst (send_batch env conn smtpSettings None rs s f w)
    = (s, (f + Z.of_nat (List.length rs))%Z).
Proof.
  induction rs as [|r rs IH]; intros s f w.
  - cbn. f_equal. lia.
  - rewrite send_batch_cons. cbn [outcome_of]. rewrite IH.
    cbn [List.length]. f_equal. lia.
Qed.

Lemma found_unique (cid : string) (s : Store) (c c' : Campaign) :
  found cid s c -> found cid s c' -> c = c'.
Proof.
  unfold found. intros H H'. congruence.
Qed.

(** One dispatch that passes its setup, in full: the campaign row, the
    pending rows, the outbox and the answer afterwards. *)
Lemma dispatch_step_spec (env : Env) (cid pw : string) (w : World)
    (c : Campaign) (ss : SmtpSettings) (others : list SmtpSettings) :
  found cid (store w) c ->
  smtp_settings (store w) = ss :: others ->
  NoDup (map r_id (campaign_recipients (store w))) ->
  exists c',
    found cid (store (snd (dispatch env cid pw w))) c'
    /\ smtp_settings (store (snd (dispatch env cid pw w))) = smtp_settings (store w)
    /\ map r_id (campaign_recipients (store (snd (dispatch env cid pw w))))
       = map r_id (campaign_recipients (store w))
    /\ pending_of cid (campaign_recipients (store (snd (dispatch env cid pw w))))
       = skipn 50 (pending_of cid (campaign_recipients (store w)))
    /\ outbox (snd (dispatch env cid pw w))
       = (outbox w
          ++ match email_templates c with
             | Some t =>
                 map (fun r => message_for ss t (contacts r))
                   (firstn 50 (pending_of cid (campaign_recipients (store w))))
             | None => []
             end)%list
    /\ (pending_of cid (campaign_recipients (store w)) = [] ->
        c' = set_completed (clock env (clock_reads w)) c
        /\ campaign_recipients (store (snd (dispatch env cid pw w)))
           = campaign_recipients (store w)
        /\ fst (dispatch env cid pw w)
           = ok_response
               [("success", JBool true); ("message", JStr "No pending recipients");
                ("sent", JNum 0)])
    /\ (pending_of cid (campaign_recipients (store w)) <> [] ->
        exists sc fc,
          (0 <= sc)%Z /\ (0 <= fc)%Z
          /\ (sc + fc
              = Z.of_nat
                  (List.length
                     (firstn 50 (pending_of cid (campaign_recipients (store w))))))%Z
          /\ (email_templates c = None -> sc = 0%Z)
          /\ c' = set_counts (or_zero (sent_count c) + sc)
                    (or_zero (failed_count c) + fc)
                    (set_sending
                       (if truthy (started_at c) then or_empty (started_at c)
                        else clock env (clock_reads w)) c)
          /\ fst (dispatch env cid pw w)
             = ok_response
                 [("success", JBool true); ("sent", JNum sc); ("failed", JNum fc);
                  ("remaining",
                   JNum (pending_count cid (store (snd (dispatch env cid pw w)))));
                  ("message",
                   JStr (if (0 <? pending_count cid
                                    (store (snd (dispatch env cid pw w))))%Z
                         then "Batch completed, more recipients pending"
                         else "All emails sent"))]).
Proof.
  intros Hc Es Hnd.
  destruct (pending_of cid (campaign_recipients (store w))) as [|p ps] eqn:Ep.
  - assert (Hsm : smtp_settings (store w) <> []) by (rewrite Es; discriminate).
    rewrite (dispatch_idle_result env cid pw w c Hc Hsm Ep).
    exists (set_completed (clock env (clock_reads w)) c).
    cbn [fst snd store with_store with_call tick campaigns smtp_settings
         campaign_recipients outbox].
    rewrite Ep. cbn [firstn skipn map].
    split; [apply single_found_update; [apply set_completed_id | exact Hc]|].
    repeat split; try reflexivity.
    + destruct (email_templates c); rewrite app_nil_r; reflexivity.
    + intros H; contradiction.
  - assert (Erows : firstn 50 (pending_of cid (campaign_recipients (store w)))
                    = p :: firstn 49 ps) by (rewrite Ep; reflexivity).
    destruct (dispatch_batch_result env cid pw w c ss others p (firstn 49 ps)
                Hc Es Erows)
      as (w1 & b & Hc1 & Hs1 & Hr1 & Ho1 & Hb & Hresp & Hcamp & Hsm & Hrec & Hout).
    set (conn := mkConnection (host ss) (port ss) (use_tls ss) (username ss) pw) in *.
    assert (Hnd1 : NoDup (map r_id (campaign_recipients (store w1))))
      by (rewrite Hr1; exact Hnd).
    assert (Hrs : p :: firstn 49 ps
                  = firstn 50 (pending_of cid (campaign_recipients (store w1))))
      by (rewrite Hr1, Ep; reflexivity).
    rewrite Hrs in Hb.
    pose proof (send_batch_pending_skipn env conn ss (email_templates c) cid 50
                  0%Z 0%Z w1 Hnd1) as Hskip.
    pose proof (send_batch_outbox env conn ss (email_templates c)
                  (firstn 50 (pending_of cid (campaign_recipients (store w1))))
                  0%Z 0%Z w1) as Houtb.
    pose proof (send_batch_counts env conn ss (email_templates c)
                  (firstn 50 (pending_of cid (campaign_recipients (store w1))))
                  0%Z 0%Z w1) as Hcnt.
    destruct (send_batch_counts_lower env conn ss (email_templates c)
                (firstn 50 (pending_of cid (campaign_recipients (store w1))))
                0%Z 0%Z w1) as [Hlo1 Hlo2].
    destruct (claimed_rows cid 50 _ Hnd1) as [Hnd_rs Hall].
    destruct (send_batch_pending env conn ss (email_templates c) cid
                (firstn 50 (pending_of cid (campaign_recipients (store w1))))
                0%Z 0%Z w1 Hnd1 Hnd_rs Hall) as [_ Hids].
    assert (Hnull : email_templates c = None -> fst (fst b) = 0%Z).
    { intros Hn. rewrite Hb, Hn, send_batch_null_counts. reflexivity. }
    rewrite <- Hb in Hskip, Houtb, Hcnt, Hlo1, Hlo2, Hids.
    rewrite Hr1 in Hskip, Houtb, Hcnt, Hids. rewrite Ho1 in Houtb.
    rewrite Ep in Hskip, Houtb, Hcnt.
    exists (set_counts (or_zero (sent_count c) + fst (fst b))
              (or_zero (failed_count c) + snd (fst b))
              (set_sending
                 (if truthy (started_at c) then or_empty (started_at c)
                  else clock env (clock_reads w)) c)).
    split.
    { unfold found. rewrite Hcamp, Hc1.
      apply single_found_update; [apply set_counts_id|].
      apply single_found_update; [apply set_sending_id|]. exact Hc. }
    split; [exact Hsm|]. split; [rewrite Hrec; exact Hids|].
    split; [rewrite Hrec; exact Hskip|]. split; [rewrite Hout; exact Houtb|].
    split; [intros H; discriminate|].
    intros _. exists (fst (fst b)), (snd (fst b)).
    split; [exact Hlo1|]. split; [exact Hlo2|]. split; [lia|].
    split; [exact Hnull|]. split; [reflexivity|].
    rewrite Hresp. unfold pending_count. rewrite Hrec. reflexivity.
Qed.

Lemma dispatch_untouched_row (env : Env) (cid pw : string) (w : World)
    (j : nat) (x : CampaignRecipient) :
  NoDup (map r_id (campaign_recipients (store w))) ->
  nth_error (campaign_recipients (store w)) j = Some x ->
  (campaign_id x =? cid) && is_pending x = false ->
  nth_error (campaign_recipients (store (snd (dispatch env cid pw w)))) j = Some x.
Proof.
  intros Hnd Hj Hx.
  destruct (dispatch_cases env cid pw w)
    as [[Hs _] | [(c & Hc & Hsm & Hp) | (c & ss & others & r0 & rs0 & Hc & Es & Er)]].
  - rewrite Hs. exact Hj.
  - rewrite (dispatch_idle_result env cid pw w c Hc Hsm Hp). exact Hj.
  - destruct (dispatch_batch_result env cid pw w c ss others r0 rs0 Hc Es Er)
      as (w1 & b & _ & _ & Hr1 & _ & Hb & _ & _ & _ & Hrec & _).
    rewrite Hrec, Hb. apply send_batch_untouched; [rewrite Hr1; exact Hj|].
    intros Hin. apply in_map_iff in Hin. destruct Hin as (r & Hid & Hr).
    destruct (claimed_rows cid 50 _ Hnd) as [_ Hall].
    rewrite <- Er in Hr. destruct (Hall r Hr) as (Hrin & Hrc & Hrp).
    assert (r = x).
    { apply (NoDup_key_inj r_id _ r x Hnd Hrin); [|exact Hid].
      eapply nth_error_In. exact Hj. }
    subst r. rewrite Hrc, Hrp, String.eqb_refl in Hx. discriminate.
Qed.

(** ** X1 *)

(** X1: whatever the request, a recipient row that is no longer pending is
    never written again: it is the same after the call, at the same place
    of the table (recipient ids being a primary key). *)
Theorem settled_rows_are_final (env : Env) (req : Request) (w : World)
    (j : nat) (x : CampaignRecipient) :
  NoDup (map r_id (campaign_recipients (store w))) ->
  nth_error (campaign_recipients (store w)) j = Some x ->
  is_pending x = false ->
  nth_error (campaign_recipients (store (snd (serve env req w)))) j = Some x.
Proof.
  intros Hnd Hj Hx.
  destruct (serve_cases env req w) as [E | (cid & pw & E)]; rewrite E.
  - exact Hj.
  - apply dispatch_untouched_row; [exact Hnd | exact Hj |].
    rewrite Hx. apply andb_false_r.
Qed.

Lemma settled_rows_are_final_witness :
  nth_error
    (campaign_recipients (store (snd (serve env1 (post "c2" "pw") world_two)))) 3
  = Some (mkRecipient "r8" "c2" ann RSent (Some "2026-01-15T00:00:01.000Z")
            None None None).
Proof.
  apply (settled_rows_are_final env1 (post "c2" "pw") world_two 3).
  - cbn. repeat constructor; cbn; intuition discriminate.
  - reflexivity.
  - reflexivity.
Defined.

(** ** X2 *)

(** X2: a dispatch for one campaign leaves the other campaigns alone: a
    campaign row with another id and a recipient row of another campaign,
    pending or not, are the same after the call. *)
Theorem other_campaigns_untouched (env : Env) (w : World) (cid pw : string)
    (j k : nat) (x : Campaign) (r : CampaignRecipient) :
  cid <> "" -> pw <> "" ->
  NoDup (map r_id (campaign_recipients (store w))) ->
  nth_error (campaigns (store w)) j = Some x -> c_id x <> cid ->
  nth_error (campaign_recipients (store w)) k = Some r -> campaign_id r <> cid ->
  nth_error (campaigns (store (snd (serve env (post cid pw) w)))) j = Some x
  /\ nth_error (campaign_recipients (store (snd (serve env (post cid pw) w)))) k
     = Some r.
Proof.
  intros Hcid Hpw Hnd Hj Hx Hk Hr. rewrite (serve_post env cid pw w Hcid Hpw). split.
  - apply String.eqb_neq in Hx.
    destruct (dispatch_cases env cid pw w)
      as [[Hs _] | [(c & Hc & Hsm & Hp) | (c & ss & others & r0 & rs0 & Hc & Es & Er)]].
    + rewrite Hs. exact Hj.
    + rewrite (dispatch_idle_result env cid pw w c Hc Hsm Hp).
      cbn [snd store with_store campaigns].
      rewrite nth_error_update_where, Hj. cbn [option_map]. rewrite Hx. reflexivity.
    + destruct (dispatch_batch_result env cid pw w c ss others r0 rs0 Hc Es Er)
        as (w1 & b & Hc1 & _ & _ & _ & _ & _ & Hcamp & _).
      rewrite Hcamp, Hc1, !nth_error_update_where, Hj. cbn [option_map].
      rewrite Hx. cbn [option_map]. rewrite Hx. reflexivity.
  - apply dispatch_untouched_row; [exact Hnd | exact Hk |].
    apply String.eqb_neq in Hr. rewrite Hr. reflexivity.
Qed.

Lemma other_campaigns_untouched_witness :
  nth_error (campaigns (store (snd (serve env1 (post "c1" "pw") world_two)))) 1
  = Some campaign_other
  /\ nth_error
       (campaign_recipients (store (snd (serve env1 (post "c1" "pw") world_two)))) 4
     = Some (mkRecipient "r9" "c2" bob RPending None None None None).
Proof.
  apply (other_campaigns_untouched env1 world_two "c1" "pw" 1 4).
  - discriminate.
  - discriminate.
  - cbn. repeat constructor; cbn; intuition discriminate.
  - reflexivity.
  - cbn. discriminate.
  - reflexivity.
  - cbn. discriminate.
Defined.

(** ** X3 *)

(** X3: a dispatch that passes its setup hands the SMTP session exactly one
    message per claimed row, in the order of the rows, built from the
    template and that row's contact (none at all when the template is
    [null]); so never more than 50 per call. *)
Theorem one_message_per_claimed_row (env : Env) (w : World) (cid pw : string)
    (c : Campaign) (ss : SmtpSettings) (others : list SmtpSettings) :
  cid <> "" -> pw <> "" ->
  found cid (store w) c ->
  smtp_settings (store w) = ss :: others ->
  outbox (snd (serve env (post cid pw) w))
  = (outbox w
     ++ match email_templates c with
        | Some t =>
            map (fun r => message_for ss t (contacts r))
              (firstn 50 (pending_of cid (campaign_recipients (store w))))
        | None => []
        end)%list
  /\ (List.length (outbox (snd (serve env (post cid pw) w)))
      <= List.length (outbox w) + 50)%nat.
Proof.
  intros Hcid Hpw Hc Es. rewrite (serve_post env cid pw w Hcid Hpw).
  assert (Hout : outbox (snd (dispatch env cid pw w))
                 = (outbox w
                    ++ match email_templates c with
                       | Some t =>
                           map (fun r => message_for ss t (contacts r))
                             (firstn 50
                                (pending_of cid (campaign_recipients (store w))))
                       | None => []
                       end)%list).
  { destruct (pending_of cid (campaign_recipients (store w))) as [|p ps] eqn:Ep.
    - assert (Hsm : smtp_settings (store w) <> []) by (rewrite Es; discriminate).
      rewrite (dispatch_idle_result env cid pw w c Hc Hsm Ep).
      cbn [snd outbox with_store with_call tick firstn map].
      destruct (email_templates c); rewrite app_nil_r; reflexivity.
    - assert (Er : firstn 50 (pending_of cid (campaign_recipients (store w)))
                   = p :: firstn 49 ps) by (rewrite Ep; reflexivity).
      destruct (dispatch_batch_result env cid pw w c ss others p (firstn 49 ps)
                  Hc Es Er)
        as (w1 & b & _ & _ & _ & Ho1 & Hb & _ & _ & _ & _ & Hout).
      rewrite Hout, Hb, send_batch_outbox, Ho1. reflexivity. }
  split; [exact Hout|].
  rewrite Hout, length_app.
  destruct (email_templates c); cbn [List.length]; [|lia].
  rewrite length_map, length_firstn. lia.
Qed.

Lemma one_message_per_claimed_row_witness :
  outbox (snd (serve env1 (post "c1" "pw") world_fresh))
  = (outbox world_fresh
     ++ match email_templates campaign_fresh with
        | Some t =>
            map (fun r => message_for settings1 t (contacts r))
              (firstn 50
                 (pending_of "c1" (campaign_recipients (store world_fresh))))
        | None => []
        end)%list
  /\ (List.length (outbox (snd (serve env1 (post "c1" "pw") world_fresh)))
      <= List.length (outbox world_fresh) + 50)%nat.
Proof.
  apply (one_message_per_claimed_row env1 world_fresh "c1" "pw" campaign_fresh
           settings1 []).
  - discriminate.
  - discriminate.
  - reflexivity.
  - reflexivity.
Defined.

(** ** X4 *)

(** X4: when the campaign's template is [null] (deleted), a dispatch sends
    nothing and marks every claimed row failed with the text of the
    TypeError that reading [template.subject] raises; the answer counts no
    row as sent and all of them as failed. *)
Theorem deleted_template_fails_batch (env : Env) (w : World) (cid pw : string)
    (c : Campaign) (i j : nat) (r : CampaignRecipient) :
  cid <> "" -> pw <> "" ->
  found cid (store w) c ->
  email_templates c = None ->
  smtp_settings (store w) <> [] ->
  NoDup (map r_id (campaign_recipients (store w))) ->
  nth_error (firstn 50 (pending_of cid (campaign_recipients (store w)))) i = Some r ->
  nth_error (campaign_recipients (store w)) j = Some r ->
  outbox (snd (serve env (post cid pw) w)) = outbox w
  /\ count_field "sent" (fst (serve env (post cid pw) w)) = 0%Z
  /\ count_field "failed" (fst (serve env (post cid pw) w))
     = Z.of_nat
         (List.length (firstn 50 (pending_of cid (campaign_recipients (store w)))))
  /\ nth_error (campaign_recipients (store (snd (serve env (post cid pw) w)))) j
     = Some (set_failed "Cannot read properties of null (reading 'subject')" r).
Proof.
  intros Hcid Hpw Hc Hnull Hsm Hnd Hi Hj.
  rewrite (serve_post env cid pw w Hcid Hpw).
  destruct (smtp_settings (store w)) as [|ss others] eqn:Es; [contradiction|].
  destruct (firstn 50 (pending_of cid (campaign_recipients (store w))))
    as [|r0 rs0] eqn:Er; [destruct i; discriminate|].
  destruct (dispatch_batch_result env cid pw w c ss others r0 rs0 Hc Es Er)
    as (w1 & b & _ & _ & Hr1 & Ho1 & Hb & Hresp & _ & _ & Hrec & Hout).
  rewrite Hnull in Hb.
  destruct (claimed_rows cid 50 _ Hnd) as [Hnd_rs _]. rewrite Er in Hnd_rs.
  rewrite Hout, Hresp, Hrec, Hb.
  rewrite send_batch_outbox, send_batch_null_counts, Ho1, app_nil_r.
  rewrite <- Hr1 in Hj.
  rewrite (send_batch_row _ _ _ _ (r0 :: rs0) w1 i j r 0 0 Hnd_rs Hi Hj).
  unfold count_field, field, ok_response.
  cbn [body jget String.eqb Ascii.eqb Bool.eqb fst snd outcome_of mark_recipient
       null_template_error message_or].
  repeat split.
Qed.

Lemma deleted_template_fails_batch_witness :
  outbox (snd (serve env1 (post "c1" "pw") world_no_template))
  = outbox world_no_template
  /\ count_field "sent" (fst (serve env1 (post "c1" "pw") world_no_template)) = 0%Z
  /\ count_field "failed" (fst (serve env1 (post "c1" "pw") world_no_template))
     = Z.of_nat
         (List.length
            (firstn 50
               (pending_of "c1" (campaign_recipients (store world_no_template)))))
  /\ nth_error
       (campaign_recipients
          (store (snd (serve env1 (post "c1" "pw") world_no_template)))) 1
     = Some (set_failed "Cannot read properties of null (reading 'subject')"
               (row "r2" bob RPending)).
Proof.
  apply (deleted_template_fails_batch env1 world_no_template "c1" "pw"
           campaign_no_template 1 1 (row "r2" bob RPending)).
  - discriminate.
  - discriminate.
  - reflexivity.
  - reflexivity.
  - cbn. discriminate.
  - cbn. repeat constructor; cbn; intuition discriminate.
  - reflexivity.
  - reflexivity.
Defined.

Lemma truthy_some (a : option string) : truthy a = true -> Some (or_empty a) = a.
Proof.
  destruct a; cbn; [reflexivity | discriminate].
Qed.

(** The campaign row after any dispatch: the same row, or the row marked
    completed, or the row set to sending with its counters raised. *)
Lemma dispatch_found (env : Env) (cid pw : string) (w : World) (c : Campaign) :
  found cid (store w) c ->
  found cid (store (snd (dispatch env cid pw w))) c
  \/ found cid (store (snd (dispatch env cid pw w)))
       (set_completed (clock env (clock_reads w)) c)
  \/ exists sc fc,
       (0 <= sc)%Z /\ (0 <= fc)%Z
       /\ found cid (store (snd (dispatch env cid pw w)))
            (set_counts (or_zero (sent_count c) + sc) (or_zero (failed_count c) + fc)
               (set_sending
                  (if truthy (started_at c) then or_empty (started_at c)
                   else clock env (clock_reads w)) c)).
Proof.
  intros Hc.
  destruct (dispatch_cases env cid pw w)
    as [[Hs _] | [(c0 & Hc0 & Hsm & Hp) | (c0 & ss & others & r0 & rs0 & Hc0 & Es & Er)]].
  - left. rewrite Hs. exact Hc.
  - right. left. rewrite (dispatch_idle_result env cid pw w c Hc Hsm Hp).
    cbn [snd store with_store]. unfold found. cbn [campaigns].
    apply single_found_update; [apply set_completed_id | exact Hc].
  - right. right.
    destruct (dispatch_batch_result env cid pw w c ss others r0 rs0 Hc Es Er)
      as (w1 & b & Hc1 & _ & _ & _ & Hb & _ & Hcamp & _).
    exists (fst (fst b)), (snd (fst b)).
    destruct (send_batch_counts_lower env
                (mkConnection (host ss) (port ss) (use_tls ss) (username ss) pw)
                ss (email_templates c) (r0 :: rs0) 0%Z 0%Z w1) as [H1 H2].
    rewrite <- Hb in H1, H2.
    split; [exact H1|]. split; [exact H2|].
    unfold found. rewrite Hcamp, Hc1.
    apply single_found_update; [apply set_counts_id|].
    apply single_found_update; [apply set_sending_id|]. exact Hc.
Qed.

(** ** X5 *)

(** X5: [started_at] is stamped once: whatever a dispatch does to a campaign
    whose [started_at] is set, the campaign still resolves afterwards and
    its [started_at] is the one it had. *)
Theorem started_at_kept (env : Env) (w : World) (cid pw : string) (c : Campaign) :
  cid <> "" -> pw <> "" ->
  found cid (store w) c ->
  truthy (started_at c) = true ->
  exists c',
    found cid (store (snd (serve env (post cid pw) w))) c'
    /\ started_at c' = started_at c.
Proof.
  intros Hcid Hpw Hc Hst. rewrite (serve_post env cid pw w Hcid Hpw).
  destruct (dispatch_found env cid pw w c Hc) as [H | [H | (sc & fc & _ & _ & H)]];
    eexists; (split; [exact H|]); cbn; [reflexivity | reflexivity |].
  rewrite Hst. apply truthy_some. exact Hst.
Qed.

Lemma started_at_kept_witness :
  exists c',
    found "c1" (store (snd (serve env1 (post "c1" "pw") world_paused))) c'
    /\ started_at c' = started_at (campaign1 CPaused (Some "2026-01-01T00:00:00.000Z") None).
Proof.
  apply (started_at_kept env1 world_paused "c1" "pw"
           (campaign1 CPaused (Some "2026-01-01T00:00:00.000Z") None)).
  - discriminate.
  - discriminate.
  - reflexivity.
  - reflexivity.
Defined.

(** ** X6 *)

(** X6: completion is recorded one call late.  A dispatch that claims the
    last pending rows of a campaign (at most 50) reports [remaining: 0] and
    leaves the status at sending and [completed_at] as it was; only the next
    dispatch, which finds nothing pending, sets the status to completed and
    stamps [completed_at] with its own clock. *)
Theorem completion_needs_another_call (env env' : Env) (w : World)
    (cid pw : string) (c : Campaign) :
  cid <> "" -> pw <> "" ->
  found cid (store w) c ->
  smtp_settings (store w) <> [] ->
  NoDup (map r_id (campaign_recipients (store w))) ->
  pending_of cid (campaign_recipients (store w)) <> [] ->
  (List.length (pending_of cid (campaign_recipients (store w))) <= 50)%nat ->
  count_field "remaining" (fst (serve env (post cid pw) w)) = 0%Z
  /\ pending_of cid
       (campaign_recipients (store (snd (serve env (post cid pw) w)))) = []
  /\ exists c1 c2,
       found cid (store (snd (serve env (post cid pw) w))) c1
       /\ c_status c1 = CSending
       /\ completed_at c1 = completed_at c
       /\ found cid
            (store (snd (serve env' (post cid pw) (snd (serve env (post cid pw) w)))))
            c2
       /\ c_status c2 = CCompleted
       /\ completed_at c2
          = Some (clock env' (clock_reads (snd (serve env (post cid pw) w)))).
Proof.
  intros Hcid Hpw Hc Hsm Hnd Hne Hlen.
  rewrite !(serve_post _ cid pw _ Hcid Hpw).
  destruct (smtp_settings (store w)) as [|ss others] eqn:Es; [contradiction|].
  destruct (dispatch_step_spec env cid pw w c ss others Hc Es Hnd)
    as (c1 & Hc1 & Hs1 & Hids & Hp1 & _ & _ & Hbatch).
  destruct (Hbatch Hne) as (sc & fc & _ & _ & _ & _ & Ec1 & Hresp).
  rewrite skipn_all2 in Hp1 by exact Hlen.
  assert (Hnd1 : NoDup (map r_id
                          (campaign_recipients (store (snd (dispatch env cid pw w))))))
    by (rewrite Hids; exact Hnd).
  rewrite Es in Hs1.
  destruct (dispatch_step_spec env' cid pw _ c1 ss others Hc1 Hs1 Hnd1)
    as (c2 & Hc2 & _ & _ & _ & _ & Hidle & _).
  destruct (Hidle Hp1) as (Ec2 & _ & _).
  split.
  { rewrite Hresp. unfold count_field, field, ok_response, pending_count.
    cbn [body jget String.eqb Ascii.eqb Bool.eqb]. rewrite Hp1. reflexivity. }
  split; [exact Hp1|].
  exists c1, c2. split; [exact Hc1|].
  split; [rewrite Ec1; reflexivity|]. split; [rewrite Ec1; reflexivity|].
  split; [exact Hc2|]. rewrite Ec2. split; reflexivity.
Qed.

Lemma completion_needs_another_call_witness :
  count_field "remaining" (fst (serve env1 (post "c1" "pw") world_fresh)) = 0%Z
  /\ pending_of "c1"
       (campaign_recipients (store (snd (serve env1 (post "c1" "pw") world_fresh))))
     = []
  /\ exists c1 c2,
       found "c1" (store (snd (serve env1 (post "c1" "pw") world_fresh))) c1
       /\ c_status c1 = CSending
       /\ completed_at c1 = completed_at campaign_fresh
       /\ found "c1"
            (store (snd (serve env_third_fails (post "c1" "pw")
                           (snd (serve env1 (post "c1" "pw") world_fresh)))))
            c2
       /\ c_status c2 = CCompleted
       /\ completed_at c2
          = Some (clock env_third_fails
                    (clock_reads (snd (serve env1 (post "c1" "pw") world_fresh)))).
Proof.
  apply (completion_needs_another_call env1 env_third_fails world_fresh "c1" "pw"
           campaign_fresh).
  - discriminate.
  - discriminate.
  - reflexivity.
  - cbn. discriminate.
  - cbn. repeat constructor; cbn; intuition discriminate.
  - cbn. discriminate.
  - cbn. lia.
Defined.

(** ** X7 *)

(** X7: the answer of a dispatch that passes its setup accounts for every
    row that was pending: sent, failed and remaining (an absent field read
    as 0) add up to the number of rows pending before the call. *)
Theorem answer_accounts_for_pending (env : Env) (w : World) (cid pw : string)
    (c : Campaign) :
  cid <> "" -> pw <> "" ->
  found cid (store w) c ->
  smtp_settings (store w) <> [] ->
  NoDup (map r_id (campaign_recipients (store w))) ->
  (count_field "sent" (fst (serve env (post cid pw) w))
   + count_field "failed" (fst (serve env (post cid pw) w))
   + count_field "remaining" (fst (serve env (post cid pw) w))
   = pending_count cid (store w))%Z.
Proof.
  intros Hcid Hpw Hc Hsm Hnd. rewrite (serve_post env cid pw w Hcid Hpw).
  destruct (smtp_settings (store w)) as [|ss others] eqn:Es; [contradiction|].
  destruct (dispatch_step_spec env cid pw w c ss others Hc Es Hnd)
    as (c1 & _ & _ & _ & Hp1 & _ & Hidle & Hbatch).
  destruct (pending_of cid (campaign_recipients (store w))) as [|p ps] eqn:Ep.
  - destruct (Hidle eq_refl) as (_ & _ & Hresp). rewrite Hresp.
    unfold pending_count. rewrite Ep. reflexivity.
  - destruct Hbatch as (sc & fc & _ & _ & Hsum & _ & _ & Hresp); [discriminate|].
    rewrite Hresp. unfold count_field, field, ok_response, pending_count.
    cbn [body jget String.eqb Ascii.eqb Bool.eqb]. rewrite Hp1, Ep.
    pose proof (f_equal (@List.length _) (firstn_skipn 50 (p :: ps))) as Hl.
    rewrite length_app in Hl. lia.
Qed.

Lemma answer_accounts_for_pending_witness :
  (count_field "sent" (fst (serve env1 (post "c1" "pw") world_paused))
   + count_field "failed" (fst (serve env1 (post "c1" "pw") world_paused))
   + count_field "remaining" (fst (serve env1 (post "c1" "pw") world_paused))
   = pending_count "c1" (store world_paused))%Z.
Proof.
  apply (answer_accounts_for_pending env1 world_paused "c1" "pw"
           (campaign1 CPaused (Some "2026-01-01T00:00:00.000Z") None)).
  - discriminate.
  - discriminate.
  - reflexivity.
  - cbn. discriminate.
  - cbn. repeat constructor; cbn; intuition discriminate.
Defined.

(** ** X8 *)

(** X8: a campaign without pending rows is marked completed by a dispatch
    whatever its status was (a draft with no recipients, a paused or a
    failed campaign alike): status completed, [completed_at] the clock of
    the call; its counters, every recipient row and the outbox stay as they
    were. *)
Theorem nothing_pending_completes (env : Env) (w : World) (cid pw : string)
    (c : Campaign) :
  cid <> "" -> pw <> "" ->
  found cid (store w) c ->
  smtp_settings (store w) <> [] ->
  pending_of cid (campaign_recipients (store w)) = [] ->
  exists c',
    found cid (store (snd (serve env (post cid pw) w))) c'
    /\ c_status c' = CCompleted
    /\ completed_at c' = Some (clock env (clock_reads w))
    /\ sent_count c' = sent_count c
    /\ failed_count c' = failed_count c
    /\ campaign_recipients (store (snd (serve env (post cid pw) w)))
       = campaign_recipients (store w)
    /\ outbox (snd (serve env (post cid pw) w)) = outbox w.
Proof.
  intros Hcid Hpw Hc Hsm Hp. rewrite (serve_post env cid pw w Hcid Hpw).
  rewrite (dispatch_idle_result env cid pw w c Hc Hsm Hp).
  exists (set_completed (clock env (clock_reads w)) c).
  cbn [snd store with_store with_call tick campaigns campaign_recipients outbox].
  split; [|repeat split].
  unfold found. cbn [campaigns].
  apply single_found_update; [apply set_completed_id | exact Hc].
Qed.

Lemma nothing_pending_completes_witness :
  exists c',
    found "c1"
      (store (snd (serve env1 (post "c1" "pw")
                     (world_of (mkStore [campaign1 CPaused None None] [settings1] [])))))
      c'
    /\ c_status c' = CCompleted
    /\ completed_at c'
       = Some (clock env1
                 (clock_reads
                    (world_of (mkStore [campaign1 CPaused None None] [settings1] []))))
    /\ sent_count c' = sent_count (campaign1 CPaused None None)
    /\ failed_count c' = failed_count (campaign1 CPaused None None)
    /\ campaign_recipients
         (store (snd (serve env1 (post "c1" "pw")
                        (world_of (mkStore [campaign1 CPaused None None]
                                     [settings1] [])))))
       = campaign_recipients
           (store (world_of (mkStore [campaign1 CPaused None None] [settings1] [])))
    /\ outbox (snd (serve env1 (post "c1" "pw")
                      (world_of (mkStore [campaign1 CPaused None None]
                                   [settings1] []))))
       = outbox (world_of (mkStore [campaign1 CPaused None None] [settings1] [])).
Proof.
  apply (nothing_pending_completes env1
           (world_of (mkStore [campaign1 CPaused None None] [settings1] []))
           "c1" "pw" (campaign1 CPaused None None)).
  - discriminate.
  - discriminate.
  - reflexivity.
  - cbn. discriminate.
  - reflexivity.
Defined.

(** ** X9 *)

(** X9: no dispatch lowers a counter or touches [total_recipients]: the
    campaign still resolves afterwards, with the same [total_recipients]
    and with [sent_count] and [failed_count] (null read as 0) at least what
    they were. *)
Theorem counters_never_decrease (env : Env) (w : World) (cid pw : string)
    (c : Campaign) :
  cid <> "" -> pw <> "" ->
  found cid (store w) c ->
  exists c',
    found cid (store (snd (serve env (post cid pw) w))) c'
    /\ total_recipients c' = total_recipients c
    /\ (or_zero (sent_count c) <= or_zero (sent_count c'))%Z
    /\ (or_zero (failed_count c) <= or_zero (failed_count c'))%Z.
Proof.
  intros Hcid Hpw Hc. rewrite (serve_post env cid pw w Hcid Hpw).
  destruct (dispatch_found env cid pw w c Hc) as [H | [H | (sc & fc & H1 & H2 & H)]];
    eexists; (split; [exact H|]); cbn; repeat split; lia.
Qed.

Lemma counters_never_decrease_witness :
  exists c',
    found "c1" (store (snd (serve env1 (post "c1" "pw") world_paused))) c'
    /\ total_recipients c'
       = total_recipients (campaign1 CPaused (Some "2026-01-01T00:00:00.000Z") None)
    /\ (or_zero (sent_count (campaign1 CPaused (Some "2026-01-01T00:00:00.000Z") None))
        <= or_zero (sent_count c'))%Z
    /\ (or_zero (failed_count (campaign1 CPaused (Some "2026-01-01T00:00:00.000Z") None))
        <= or_zero (failed_count c'))%Z.
Proof.
  apply (counters_never_decrease env1 world_paused "c1" "pw"
           (campaign1 CPaused (Some "2026-01-01T00:00:00.000Z") None)).
  - discriminate.
  - discriminate.
  - reflexivity.
Defined.

(** ** X10 *)

Lemma invoke_n_ready (envs : nat -> Env) (w : World) (cid pw : string)
    (c : Campaign) (ss : SmtpSettings) (others : list SmtpSettings) :
  cid <> "" -> pw <> "" ->
  found cid (store w) c ->
  smtp_settings (store w) = ss :: others ->
  NoDup (map r_id (campaign_recipients (store w))) ->
  forall n,
    (exists c', found cid (store (invoke_n envs (post cid pw) n w)) c')
    /\ smtp_settings (store (invoke_n envs (post cid pw) n w)) = ss :: others
    /\ NoDup (map r_id (campaign_recipients (store (invoke_n envs (post cid pw) n w))))
    /\ pending_of cid (campaign_recipients (store (invoke_n envs (post cid pw) n w)))
       = skipn (50 * n) (pending_of cid (campaign_recipients (store w))).
Proof.
  intros Hcid Hpw Hc Es Hnd n. induction n as [|n IH].
  - cbn [invoke_n]. rewrite Nat.mul_0_r. cbn [skipn]. eauto.
  - destruct IH as ((cn & Hcn) & Hsn & Hndn & Hpn).
    cbn [invoke_n]. rewrite (serve_post (envs n) cid pw _ Hcid Hpw).
    destruct (dispatch_step_spec (envs n) cid pw _ cn ss others Hcn Hsn Hndn)
      as (c' & Hc' & Hs' & Hids & Hp' & _).
    split; [eauto|]. split; [rewrite Hs'; exact Hsn|].
    split; [rewrite Hids; exact Hndn|].
    rewrite Hp', Hpn, skipn_skipn. f_equal. lia.
Qed.

Lemma distinct_NoDup (l : list string) : distinct l = true -> NoDup l.
Proof.
  induction l as [|x l IH]; intros H; [constructor|].
  cbn [distinct] in H. apply andb_true_iff in H. destruct H as [Hx Hl].
  constructor; [|exact (IH Hl)].
  intros Hin. apply negb_true_iff in Hx.
  assert (Ht : existsb (String.eqb x) l = true)
    by (apply existsb_exists; exists x; split; [exact Hin | apply String.eqb_refl]).
  congruence.
Qed.

(** X10: batches drain the pending rows 50 at a time.  After [n]
    dispatches in sequence the rows still pending are rows that were
    pending at the start, as they were; their number is the number at the
    start less [50 * n], or none; and none is pending exactly when [50 * n]
    covers the number at the start.  So 120 pending rows take three calls.
    Which rows a batch takes is not said. *)
Theorem batches_drain_fifty_at_a_time (envs : nat -> Env) (w : World)
    (cid pw : string) (c : Campaign) (n : nat) :
  cid <> "" -> pw <> "" ->
  found cid (store w) c ->
  smtp_settings (store w) <> [] ->
  NoDup (map r_id (campaign_recipients (store w))) ->
  incl (pending_of cid
          (campaign_recipients (store (invoke_n envs (post cid pw) n w))))
       (pending_of cid (campaign_recipients (store w)))
  /\ (List.length
        (pending_of cid
           (campaign_recipients (store (invoke_n envs (post cid pw) n w))))
      = List.length (pending_of cid (campaign_recipients (store w))) - 50 * n)%nat
  /\ (pending_of cid
        (campaign_recipients (store (invoke_n envs (post cid pw) n w))) = []
      <-> (List.length (pending_of cid (campaign_recipients (store w)))
           <= 50 * n)%nat).
Proof.
  intros Hcid Hpw Hc Hsm Hnd.
  destruct (smtp_settings (store w)) as [|ss others] eqn:Es; [contradiction|].
  destruct (invoke_n_ready envs w cid pw c ss others Hcid Hpw Hc Es Hnd n)
    as (_ & _ & _ & Hp).
  rewrite Hp. split; [|split].
  - intros x Hx.
    rewrite <- (firstn_skipn (50 * n) (pending_of cid (campaign_recipients (store w)))).
    apply in_or_app. right. exact Hx.
  - apply length_skipn.
  - split.
    + intros E. apply (f_equal (@List.length _)) in E.
      rewrite length_skipn in E. cbn [List.length] in E. lia.
    + intros Hle. apply skipn_all2. exact Hle.
Qed.

Lemma batches_drain_fifty_at_a_time_witness :
  incl (pending_of "c1"
          (campaign_recipients
             (store (invoke_n (fun _ => env1) (post "c1" "pw") 2 world_large))))
       (pending_of "c1" (campaign_recipients (store world_large)))
  /\ (List.length
        (pending_of "c1"
           (campaign_recipients
              (store (invoke_n (fun _ => env1) (post "c1" "pw") 2 world_large))))
      = List.length (pending_of "c1" (campaign_recipients (store world_large)))
        - 50 * 2)%nat
  /\ (pending_of "c1"
        (campaign_recipients
           (store (invoke_n (fun _ => env1) (post "c1" "pw") 2 world_large))) = []
      <-> (List.length (pending_of "c1" (campaign_recipients (store world_large)))
           <= 50 * 2)%nat).
Proof.
  apply (batches_drain_fifty_at_a_time (fun _ => env1) world_large "c1" "pw"
           campaign_large 2).
  - discriminate.
  - discriminate.
  - reflexivity.
  - cbn. discriminate.
  - apply distinct_NoDup. vm_compute. reflexivity.
Defined.

(** A campaign of 120 pending rows: 70, 20 and none are pending after the
    first, second and third call. *)
Example large_campaign_takes_three_calls :
  map (fun n =>
         List.length
           (pending_of "c1"
              (campaign_recipients
                 (store (invoke_n (fun _ => env1) (post "c1" "pw") n world_large)))))
    [0; 1; 2; 3]
  = [120; 70; 20; 0].
Proof. vm_compute. reflexivity. Qed.

(* ===================================================================== *)
(** * Further properties of the renderer *)
(* ===================================================================== *)

Lemma replace_pieces_literal (t : MergeTag) (v : string) :
  dollar_literal v = true ->
  forall ps before,
    forallb wf_piece ps = true ->
    replace_from (token (tag_name t)) v 0 before (template_text ps)
    = template_text (map (fill t v) ps).
Proof.
  intros Hv. induction ps as [|p ps IH]; intros before Hwf; [reflexivity|].
  cbn [forallb] in Hwf. apply andb_true_iff in Hwf. destruct Hwf as [Hp Hps].
  cbn [template_text map].
  destruct (tag_name_braces t) as [_ Hclose].
  destruct p as [s | u | name]; cbn [piece_text fill wf_piece] in *.
  - apply negb_true_iff in Hp.
    change (token (tag_name t)) with (String "{" (String "{" (tag_name t ++ "}}"))).
    rewrite (replace_from_text _ _ _ _ _ Hp).
    change (String "{" (String "{" (tag_name t ++ "}}"))) with (token (tag_name t)).
    rewrite (IH _ Hps). reflexivity.
  - destruct (tag_eqb t u) eqn:E.
    + apply tag_eqb_true in E. subst u. cbn [piece_text].
      change (token (tag_name t)) with (String "{" (String "{" (tag_name t ++ "}}"))).
      rewrite (replace_from_match_literal _ _ _ _ _ Hv).
      change (String "{" (String "{" (tag_name t ++ "}}"))) with (token (tag_name t)).
      rewrite (IH _ Hps). reflexivity.
    + destruct (tag_name_braces u) as [Hu1 Hu2]. cbn [piece_text].
      rewrite (replace_from_other _ _ _ _ _ Hclose Hu1 Hu2 (tag_eqb_name _ _ E)).
      rewrite (IH _ Hps). reflexivity.
  - apply andb_true_iff in Hp. destruct Hp as [Hp Hno].
    apply andb_true_iff in Hp. destruct Hp as [Hn1 Hn2].
    apply negb_true_iff in Hn1, Hn2, Hno.
    rewrite (replace_from_other _ _ _ _ _ Hclose Hn1 Hn2 (unknown_is_no_tag _ t Hno)).
    rewrite (IH _ Hps). reflexivity.
Qed.

(** The chain of four replaces with any four safe values. *)
Lemma four_passes (v1 v2 v3 v4 : string) (ps : list Piece) :
  safe v1 = true -> safe v2 = true -> safe v3 = true -> safe v4 = true ->
  forallb wf_piece ps = true ->
  replace_g "{{company}}" v4
    (replace_g "{{email}}" v3
       (replace_g "{{last_name}}" v2 (replace_g "{{first_name}}" v1 (template_text ps))))
  = template_text
      (map (fill TagCompany v4)
         (map (fill TagEmail v3)
            (map (fill TagLastName v2) (map (fill TagFirstName v1) ps))))
  /\ forallb wf_piece
       (map (fill TagCompany v4)
          (map (fill TagEmail v3)
             (map (fill TagLastName v2) (map (fill TagFirstName v1) ps)))) = true.
Proof.
  intros H1 H2 H3 H4 Hwf.
  destruct (safe_parts _ H1) as [Hb1 Hd1]. destruct (safe_parts _ H2) as [Hb2 Hd2].
  destruct (safe_parts _ H3) as [Hb3 Hd3]. destruct (safe_parts _ H4) as [Hb4 Hd4].
  unfold replace_g.
  change "{{first_name}}" with (token (tag_name TagFirstName)).
  change "{{last_name}}" with (token (tag_name TagLastName)).
  change "{{email}}" with (token (tag_name TagEmail)).
  change "{{company}}" with (token (tag_name TagCompany)).
  rewrite (replace_pieces_literal TagFirstName _ Hd1 ps "" Hwf).
  rewrite (replace_pieces_literal TagLastName _ Hd2 _ "" (fill_wf _ _ _ Hb1 Hwf)).
  rewrite (replace_pieces_literal TagEmail _ Hd3 _ ""
             (fill_wf _ _ _ Hb2 (fill_wf _ _ _ Hb1 Hwf))).
  rewrite (replace_pieces_literal TagCompany _ Hd4 _ ""
             (fill_wf _ _ _ Hb3 (fill_wf _ _ _ Hb2 (fill_wf _ _ _ Hb1 Hwf)))).
  split; [reflexivity|].
  apply fill_wf; [exact Hb4|]. apply fill_wf; [exact Hb3|].
  apply fill_wf; [exact Hb2|]. apply fill_wf; [exact Hb1 | exact Hwf].
Qed.

Lemma filled_is_settled (c : Contact) (ps : list Piece) :
  map (fill TagCompany (tag_value c TagCompany))
    (map (fill TagEmail (tag_value c TagEmail))
       (map (fill TagLastName (tag_value c TagLastName))
          (map (fill TagFirstName (tag_value c TagFirstName)) ps)))
  = map (settle c) ps.
Proof.
  rewrite !map_map. apply map_ext. intros [s | [] | name]; reflexivity.
Qed.

Lemma settled_text (c : Contact) (ps : list Piece) :
  template_text (map (settle c) ps) = render_spec c ps.
Proof.
  induction ps as [|p ps IH]; [reflexivity|].
  cbn [map template_text render_spec]. rewrite IH. destruct p; reflexivity.
Qed.

Lemma settled_again (c : Contact) (ps : list Piece) :
  map (settle c) (map (settle c) ps) = map (settle c) ps.
Proof.
  rewrite map_map. apply map_ext. intros [s | t | name]; reflexivity.
Qed.

(** The renderer on the pieces of a template, for safe contacts. *)
Lemma render_pieces (c : Contact) (ps : list Piece) :
  forallb wf_piece ps = true ->
  safe_contact c = true ->
  replacePlaceholders (template_text ps) c = template_text (map (settle c) ps)
  /\ forallb wf_piece (map (settle c) ps) = true.
Proof.
  intros Hwf Hc.
  destruct (four_passes (tag_value c TagFirstName) (tag_value c TagLastName)
              (tag_value c TagEmail) (tag_value c TagCompany) ps
              (safe_contact_values c _ Hc) (safe_contact_values c _ Hc)
              (safe_contact_values c _ Hc) (safe_contact_values c _ Hc) Hwf)
    as [Heq Hwf'].
  rewrite filled_is_settled in Heq, Hwf'. split; [exact Heq | exact Hwf'].
Qed.

Lemma template_text_app (ps qs : list Piece) :
  template_text (ps ++ qs) = template_text ps ++ template_text qs.
Proof.
  induction ps as [|p ps IH]; [reflexivity|].
  cbn [app template_text]. rewrite IH, append_assoc. reflexivity.
Qed.

(** ** X11 *)

(** X11: a text without an opening brace comes back from the renderer as it
    went in, for every contact, whatever its fields hold. *)
Theorem text_without_braces_unchanged (text : string) (c : Contact) :
  has_char "{" text = false ->
  replacePlaceholders text c = text.
Proof.
  intros H.
  assert (Hg : forall pat v, replace_g (String "{" pat) v text = text).
  { intros pat v. unfold replace_g.
    rewrite <- (append_nil_r text) at 1.
    rewrite (replace_from_text _ _ _ _ _ H). apply append_nil_r. }
  unfold replacePlaceholders. rewrite !Hg. reflexivity.
Qed.

Lemma text_without_braces_unchanged_witness :
  replacePlaceholders "Sale: $& off, all $$ back"
    (mkContact "k" "a@b.c" (Some "$&") (Some "$`") (Some "$$"))
  = "Sale: $& off, all $$ back".
Proof.
  apply text_without_braces_unchanged. reflexivity.
Defined.

(** ** X12 *)

(** X12: a dollar sign in a contact field is inserted as it stands unless it
    begins one of [$$], [$&], [$`], [$']: on a template of brace-free text,
    merge tokens and other tokens, and a contact whose fields hold no
    opening brace and none of these four patterns, the renderer gives the
    one-pass substitution. *)
Theorem plain_dollars_are_literal (ps : list Piece) (c : Contact) :
  forallb wf_piece ps = true ->
  safe_contact c = true ->
  replacePlaceholders (template_text ps) c = render_spec c ps.
Proof.
  intros Hwf Hc. destruct (render_pieces c ps Hwf Hc) as [H _].
  rewrite H. apply settled_text.
Qed.

Lemma plain_dollars_are_literal_witness :
  replacePlaceholders
    (template_text [Text "Dear "; Tag TagFirstName; Text ", "; Tag TagCompany;
                    Text " owes $5"])
    (mkContact "k" "a@b.c" (Some "Ann") None (Some "A$AP & Sons $"))
  = render_spec (mkContact "k" "a@b.c" (Some "Ann") None (Some "A$AP & Sons $"))
      [Text "Dear "; Tag TagFirstName; Text ", "; Tag TagCompany; Text " owes $5"].
Proof.
  apply plain_dollars_are_literal; reflexivity.
Defined.

(** ** X13 *)

(** X13: rendering is idempotent on such templates and contacts: rendering
    the rendered text once more, for the same contact, changes nothing. *)
Theorem rendering_twice_is_once (ps : list Piece) (c : Contact) :
  forallb wf_piece ps = true ->
  safe_contact c = true ->
  replacePlaceholders (replacePlaceholders (template_text ps) c) c
  = replacePlaceholders (template_text ps) c.
Proof.
  intros Hwf Hc. destruct (render_pieces c ps Hwf Hc) as [H Hwf'].
  rewrite H. destruct (render_pieces c _ Hwf' Hc) as [H' _].
  rewrite H', settled_again. reflexivity.
Qed.

Lemma rendering_twice_is_once_witness :
  replacePlaceholders
    (replacePlaceholders
       (template_text [Text "Hi "; Tag TagFirstName; Unknown "full_name"]) ann) ann
  = replacePlaceholders
      (template_text [Text "Hi "; Tag TagFirstName; Unknown "full_name"]) ann.
Proof.
  apply rendering_twice_is_once; reflexivity.
Defined.

(** ** X14 *)

(** X14: on such templates rendering goes piece by piece: the rendering of
    two templates written one after the other is the two renderings one
    after the other. *)
Theorem rendering_is_compositional (ps qs : list Piece) (c : Contact) :
  forallb wf_piece ps = true ->
  forallb wf_piece qs = true ->
  safe_contact c = true ->
  replacePlaceholders (template_text ps ++ template_text qs) c
  = replacePlaceholders (template_text ps) c
    ++ replacePlaceholders (template_text qs) c.
Proof.
  intros Hp Hq Hc.
  assert (Hpq : forallb wf_piece (ps ++ qs) = true)
    by (rewrite forallb_app, Hp, Hq; reflexivity).
  rewrite <- template_text_app.
  destruct (render_pieces c _ Hpq Hc) as [H _].
  destruct (render_pieces c _ Hp Hc) as [H1 _].
  destruct (render_pieces c _ Hq Hc) as [H2 _].
  rewrite H, H1, H2, map_app, template_text_app. reflexivity.
Qed.

Lemma rendering_is_compositional_witness :
  replacePlaceholders
    (template_text [Text "Hi "; Tag TagFirstName]
     ++ template_text [Text " of "; Tag TagCompany]) bob
  = replacePlaceholders (template_text [Text "Hi "; Tag TagFirstName]) bob
    ++ replacePlaceholders (template_text [Text " of "; Tag TagCompany]) bob.
Proof.
  apply rendering_is_compositional; reflexivity.
Defined.

(* ===================================================================== *)
(** * The preview of the wizard *)
(* ===================================================================== *)

(** The pass for [{{full_name}}] over the pieces of a template: a value
    that holds an expanding dollar pattern is harmless when the template
    has no such token. *)
Lemma replace_full_name (v : string) :
  forall ps before,
    forallb wf_piece ps = true ->
    dollar_literal v = true
    \/ forallb (fun p => negb (is_full_name p)) ps = true ->
    replace_from (token "full_name") v 0 before (template_text ps)
    = template_text (map (fill_unknown "full_name" v) ps).
Proof.
  induction ps as [|p ps IH]; intros before Hwf Hv; [reflexivity|].
  cbn [forallb] in Hwf. apply andb_true_iff in Hwf. destruct Hwf as [Hp Hps].
  assert (Hv' : dollar_literal v = true
                \/ forallb (fun p => negb (is_full_name p)) ps = true).
  { destruct Hv as [Hv|Hv]; [left; exact Hv|].
    cbn [forallb] in Hv. apply andb_true_iff in Hv. right. tauto. }
  cbn [template_text map].
  destruct p as [s | u | name]; cbn [piece_text fill_unknown wf_piece] in *.
  - apply negb_true_iff in Hp.
    change (token "full_name") with (String "{" (String "{" ("full_name" ++ "}}"))).
    rewrite (replace_from_text _ _ _ _ _ Hp).
    change (String "{" (String "{" ("full_name" ++ "}}"))) with (token "full_name").
    rewrite (IH _ Hps Hv'). reflexivity.
  - destruct (tag_name_braces u) as [Hu1 Hu2].
    rewrite (replace_from_other "full_name" (tag_name u) v before _
               eq_refl Hu1 Hu2).
    + rewrite (IH _ Hps Hv'). reflexivity.
    + destruct u; discriminate.
  - apply andb_true_iff in Hp. destruct Hp as [Hp Hno].
    apply andb_true_iff in Hp. destruct Hp as [Hn1 Hn2].
    apply negb_true_iff in Hn1, Hn2.
    destruct (String.eqb_spec name "full_name") as [E|E].
    + subst name. cbn [piece_text].
      assert (Hd : dollar_literal v = true).
      { destruct Hv as [Hv|Hv]; [exact Hv|]. cbn in Hv. discriminate. }
      change (token "full_name")
        with (String "{" (String "{" ("full_name" ++ "}}"))).
      rewrite (replace_from_match_literal _ _ _ _ _ Hd).
      change (String "{" (String "{" ("full_name" ++ "}}")))
        with (token "full_name").
      rewrite (IH _ Hps Hv'). reflexivity.
    + cbn [piece_text].
      rewrite (replace_from_other "full_name" name v before _ eq_refl Hn1 Hn2 E).
      rewrite (IH _ Hps Hv'). reflexivity.
Qed.

Lemma preview_pieces (c : Contact) (ps : list Piece) :
  template_text
    (map (fill_unknown "full_name" (full_name_of c))
       (map (fill TagCompany (tag_value c TagCompany))
          (map (fill TagEmail (tag_value c TagEmail))
             (map (fill TagLastName (tag_value c TagLastName))
                (map (fill TagFirstName (or_there (first_name c))) ps)))))
  = preview_spec c ps.
Proof.
  induction ps as [|p ps IH]; [reflexivity|].
  cbn [map template_text preview_spec]. rewrite IH. f_equal.
  destruct p as [s | [] | name]; try reflexivity.
  cbn [fill fill_unknown preview_piece piece_text].
  destruct (name =? "full_name"); reflexivity.
Qed.

(** ** X15 *)

(** X15: the preview is a one-pass substitution of its own: on a template
    of brace-free text and tokens, with a sample contact whose first and
    last name are texts of the ASCII range and whose inserted values are
    safe, [{{first_name}}] becomes the first name or [there],
    [{{last_name}}], [{{email}}] and [{{company}}] become the field or
    nothing, [{{full_name}}] becomes the trimmed full name or [there], and
    every other token stays. *)
Theorem preview_is_one_pass (ps : list Piece) (c : Contact) :
  forallb wf_piece ps = true ->
  ascii_only (or_empty (first_name c)) = true ->
  ascii_only (or_empty (last_name c)) = true ->
  safe_sample c = true ->
  previewText (template_text ps) c = preview_spec c ps.
Proof.
  intros Hwf _ _ Hc. unfold safe_sample in Hc.
  apply andb_true_iff in Hc. destruct Hc as [Hc H5].
  apply andb_true_iff in Hc. destruct Hc as [Hc H4].
  apply andb_true_iff in Hc. destruct Hc as [Hc H3].
  apply andb_true_iff in Hc. destruct Hc as [H1 H2].
  destruct (four_passes (or_there (first_name c)) (tag_value c TagLastName)
              (tag_value c TagEmail) (tag_value c TagCompany) ps H1 H2 H3 H4 Hwf)
    as [Heq Hwf'].
  unfold previewText.
  change (or_empty (last_name c)) with (tag_value c TagLastName).
  change (or_empty (Some (email c))) with (tag_value c TagEmail).
  change (or_empty (company c)) with (tag_value c TagCompany).
  rewrite Heq. unfold replace_g.
  change "{{full_name}}" with (token "full_name").
  rewrite (replace_full_name _ _ "" Hwf' (or_introl (proj2 (safe_parts _ H5)))).
  apply preview_pieces.
Qed.

Lemma preview_is_one_pass_witness :
  previewText
    (template_text [Text "Hi "; Tag TagFirstName; Text " ("; Unknown "full_name";
                    Text ") of "; Tag TagCompany; Unknown "nickname"])
    (mkContact "k" "a@b.c" None (Some "Lee") None)
  = preview_spec (mkContact "k" "a@b.c" None (Some "Lee") None)
      [Text "Hi "; Tag TagFirstName; Text " ("; Unknown "full_name";
       Text ") of "; Tag TagCompany; Unknown "nickname"].
Proof.
  apply preview_is_one_pass; reflexivity.
Defined.

Example preview_is_one_pass_text :
  previewText "Hi {{first_name}} ({{full_name}}) of {{company}}{{nickname}}"
    (mkContact "k" "a@b.c" None (Some "Lee") None)
  = "Hi there (Lee) of {{nickname}}".
Proof. vm_compute. reflexivity. Qed.

Lemma preview_equals_render (c : Contact) (ps : list Piece) :
  forallb wf_piece ps = true ->
  forallb (fun p => negb (is_full_name p)) ps = true ->
  truthy (first_name c) = true ->
  safe_contact c = true ->
  previewText (template_text ps) c = replacePlaceholders (template_text ps) c.
Proof.
  intros Hwf Hno Hfirst Hc.
  assert (Hthere : or_there (first_name c) = tag_value c TagFirstName)
    by (unfold or_there; rewrite Hfirst; reflexivity).
  destruct (four_passes (tag_value c TagFirstName) (tag_value c TagLastName)
              (tag_value c TagEmail) (tag_value c TagCompany) ps
              (safe_contact_values c _ Hc) (safe_contact_values c _ Hc)
              (safe_contact_values c _ Hc) (safe_contact_values c _ Hc) Hwf)
    as [Heq Hwf'].
  unfold previewText, replacePlaceholders. rewrite Hthere.
  change (or_empty (first_name c)) with (tag_value c TagFirstName).
  change (or_empty (last_name c)) with (tag_value c TagLastName).
  change (or_empty (Some (email c))) with (tag_value c TagEmail).
  change (or_empty (company c)) with (tag_value c TagCompany).
  rewrite Heq. unfold replace_g.
  change "{{full_name}}" with (token "full_name").
  rewrite filled_is_settled in Hwf' |- *.
  assert (Hno' : forallb (fun p => negb (is_full_name p)) (map (settle c) ps) = true).
  { clear - Hno. induction ps as [|p ps IH]; [reflexivity|].
    cbn [map forallb] in *. apply andb_true_iff in Hno. destruct Hno as [Hp Hps].
    rewrite (IH Hps), andb_true_r. destruct p; [reflexivity | reflexivity | exact Hp]. }
  rewrite (replace_full_name _ _ "" Hwf' (or_intror Hno')).
  f_equal. rewrite map_map. clear - Hno.
  induction ps as [|p ps IH]; [reflexivity|].
  cbn [map forallb] in *. apply andb_true_iff in Hno. destruct Hno as [Hp Hps].
  rewrite (IH Hps). f_equal.
  destruct p as [s | t | name]; try reflexivity.
  cbn in *. apply negb_true_iff in Hp. rewrite Hp. reflexivity.
Qed.

(** ** X16 *)

(** X16: the preview shows what is sent.  When the selected template is
    well-formed and has no [{{full_name}}] token, and the first contact of
    the audience has a first name and safe fields, the subject and content
    of the preview are those of the message the dispatcher builds for that
    contact. *)
Theorem preview_shows_what_is_sent (st : WizardState) (t : EmailTemplate)
    (wc : WizardContact) (others : list WizardContact) (ps qs : list Piece)
    (ss : SmtpSettings) :
  find_template st = Some t ->
  getFilteredContacts st = wc :: others ->
  subject t = template_text ps ->
  html_content t = template_text qs ->
  forallb wf_piece ps = true -> forallb wf_piece qs = true ->
  forallb (fun p => negb (is_full_name p)) ps = true ->
  forallb (fun p => negb (is_full_name p)) qs = true ->
  truthy (first_name (fields wc)) = true ->
  safe_contact (fields wc) = true ->
  getPreviewContent st
  = (msg_subject (message_for ss t (fields wc)),
     msg_html (message_for ss t (fields wc))).
Proof.
  intros Ht Hc Hs Hh Hps Hqs Hnp Hnq Hfirst Hsafe.
  unfold getPreviewContent. rewrite Ht, Hc.
  unfold message_for. cbn [msg_subject msg_html]. rewrite Hs, Hh.
  rewrite (preview_equals_render _ _ Hps Hnp Hfirst Hsafe).
  rewrite (preview_equals_render _ _ Hqs Hnq Hfirst Hsafe). reflexivity.
Qed.

Lemma preview_shows_what_is_sent_witness :
  getPreviewContent wizard1
  = (msg_subject (message_for settings1 welcome (fields ann_w)),
     msg_html (message_for settings1 welcome (fields ann_w))).
Proof.
  apply (preview_shows_what_is_sent wizard1 welcome ann_w [bob_w]
           [Text "Hello "; Tag TagFirstName]
           [Text "<p>Hi "; Tag TagFirstName; Text " of "; Tag TagCompany;
            Text "</p>"]
           settings1); reflexivity.
Defined.

(* ===================================================================== *)
(** * Further properties of the deliverability check *)
(* ===================================================================== *)

Lemma template_issues_no_error (t : EmailTemplate) :
  filter is_error (template_issues t) = [].
Proof.
  unfold template_issues. rewrite !filter_app.
  assert (H : forall l,
            filter is_error
              (map (fun word =>
                      mkIssue warning
                        ("Template contains potential spam trigger word: "
                         ++ dquote ++ word ++ dquote)) l) = []).
  { induction l as [|x l IH]; [reflexivity | cbn; exact IH]. }
  rewrite H.
  destruct (negb (includes (html_content t) "unsubscribe"));
    destruct (60 <? String.length (subject t))%nat; reflexivity.
Qed.

Lemma check_errors (template : option EmailTemplate) (n : nat) (pw : string) :
  filter is_error (deliverabilityIssues template n pw)
  = if truthy (Some pw) then []
    else [mkIssue error "SMTP password is required to send emails"].
Proof.
  unfold deliverabilityIssues. rewrite !filter_app.
  assert (H : filter is_error
                match template with Some t => template_issues t | None => [] end = [])
    by (destruct template; [apply template_issues_no_error | reflexivity]).
  rewrite H. destruct (500 <? n)%nat; destruct (truthy (Some pw)); reflexivity.
Qed.

Lemma template_issues_length (t : EmailTemplate) :
  (List.length (template_issues t) <= 8)%nat.
Proof.
  unfold template_issues. rewrite !length_app, length_map.
  pose proof (filter_length_le
                (fun word =>
                   includes (toLowerCase (subject t ++ " " ++ html_content t)) word)
                spamWords) as H.
  cbn [spamWords List.length] in H.
  destruct (negb (includes (html_content t) "unsubscribe"));
    destruct (60 <? String.length (subject t))%nat; cbn [List.length]; lia.
Qed.

(** ** X17 *)

(** X17: only a missing password blocks a send.  For every template,
    recipient count and password the check returns true exactly when the
    password is not empty; its list holds one error when the password is
    empty and none otherwise, and never more than ten issues in all. *)
Theorem check_passes_iff_password (template : option EmailTemplate) (n : nat)
    (pw : string) :
  runDeliverabilityCheck template n pw = negb (pw =? "")
  /\ List.length (filter is_error (deliverabilityIssues template n pw))
     = (if (pw =? "")%string then 1%nat else 0%nat)
  /\ (List.length (deliverabilityIssues template n pw) <= 10)%nat.
Proof.
  unfold runDeliverabilityCheck. rewrite check_errors.
  cbn [truthy]. split; [|split].
  - destruct (pw =? ""); reflexivity.
  - destruct (pw =? ""); reflexivity.
  - unfold deliverabilityIssues. rewrite !length_app.
    assert (H : (List.length
                   match template with Some t => template_issues t | None => [] end
                 <= 8)%nat)
      by (destruct template; [apply template_issues_length | cbn; lia]).
    destruct (500 <? n)%nat; destruct (negb (truthy (Some pw)));
      cbn [List.length]; lia.
Qed.

(** ** X18 *)

(** X18: the two thresholds of the check are strict.  The slow-send warning
    is in the list exactly when there are more than 500 recipients, and,
    for a subject of the ASCII range, the long-subject warning exactly when
    the subject has more than 60 characters; 500 recipients or a subject of
    60 characters draw none. *)
Theorem thresholds_are_strict (t : EmailTemplate) (template : option EmailTemplate)
    (n : nat) (pw : string) :
  ascii_only (subject t) = true ->
  reports (slow_send_warning n) (deliverabilityIssues template n pw) = (500 <? n)%nat
  /\ reports subject_warning (deliverabilityIssues (Some t) n pw)
     = (60 <? String.length (subject t))%nat.
Proof.
  intros _.
  assert (Hspam : forall i l,
            (exists c r, message i = String "S" (String c r)) ->
            existsb (issue_eqb i)
              (map (fun word =>
                      mkIssue warning
                        ("Template contains potential spam trigger word: "
                         ++ dquote ++ word ++ dquote)) l) = false).
  { intros i l (c & r & Hi). induction l as [|x l IH]; [reflexivity|].
    cbn [map existsb]. rewrite IH. unfold issue_eqb. cbn [message].
    rewrite Hi. cbn. rewrite andb_false_r. reflexivity. }
  unfold reports, deliverabilityIssues. split.
  - rewrite !existsb_app.
    assert (Ht : existsb (issue_eqb (slow_send_warning n))
                   match template with Some t0 => template_issues t0 | None => [] end
                 = false).
    { destruct template as [t0|]; [|reflexivity].
      unfold template_issues. rewrite !existsb_app, Hspam
        by (unfold slow_send_warning; cbn; eauto).
      destruct (negb (includes (html_content t0) "unsubscribe"));
        destruct (60 <? String.length (subject t0))%nat; reflexivity. }
    rewrite Ht. cbn [orb].
    destruct (500 <? n)%nat; destruct (negb (truthy (Some pw))); cbn [existsb orb].
    + unfold issue_eqb, slow_send_warning. cbn [is_error issue_type message].
      rewrite String.eqb_refl. reflexivity.
    + unfold issue_eqb, slow_send_warning. cbn [is_error issue_type message].
      rewrite String.eqb_refl. reflexivity.
    + reflexivity.
    + reflexivity.
  - rewrite !existsb_app. unfold template_issues. rewrite !existsb_app, Hspam
      by (unfold subject_warning; cbn; eauto).
    destruct (negb (includes (html_content t) "unsubscribe"));
      destruct (60 <? String.length (subject t))%nat;
      destruct (500 <? n)%nat; destruct (negb (truthy (Some pw))); reflexivity.
Qed.

Lemma thresholds_are_strict_witness :
  reports (slow_send_warning 501) (deliverabilityIssues (Some long_subject) 501 "pw")
  = (500 <? 501)%nat
  /\ reports subject_warning (deliverabilityIssues (Some long_subject) 501 "pw")
     = (60 <? String.length (subject long_subject))%nat.
Proof.
  apply (thresholds_are_strict long_subject (Some long_subject) 501 "pw").
  reflexivity.
Defined.

(** At the thresholds and one above them. *)
Example thresholds_are_strict_values :
  map (fun n => reports (slow_send_warning n)
                  (deliverabilityIssues (Some long_subject) n "pw")) [500; 501]
  = [false; true]
  /\ String.length (subject long_subject) = 61
  /\ reports subject_warning (deliverabilityIssues (Some long_subject) 10 "pw") = true
  /\ String.length (subject full_subject) = 60
  /\ reports subject_warning (deliverabilityIssues (Some full_subject) 10 "pw") = false.
Proof. repeat split; vm_compute; reflexivity. Qed.

(** ** X19 *)

(** X19: a wizard that lets the user pass its first three steps has an
    audience, a chosen template id, a campaign name, and a deliverability
    check that passes. *)
Theorem steps_imply_check_passes (st : WizardState) :
  canProceed 1 st = true -> canProceed 2 st = true -> canProceed 3 st = true ->
  getFilteredContacts st <> []
  /\ (exists id, selectedTemplate st = Some id /\ id <> "")
  /\ campaignName st <> ""
  /\ runDeliverabilityCheck (find_template st) (recipientCount st) (smtpPassword st)
     = true.
Proof.
  cbn [canProceed]. intros H1 H2 H3.
  apply andb_true_iff in H3. destruct H3 as [Hn Hp].
  split; [|split; [|split]].
  - unfold recipientCount in H1. destruct (getFilteredContacts st); [discriminate|].
    discriminate.
  - destruct (selectedTemplate st) as [id|]; [|discriminate].
    exists id. split; [reflexivity|]. cbn in H2. apply negb_true_iff in H2.
    apply String.eqb_neq. exact H2.
  - cbn in Hn. apply negb_true_iff in Hn. apply String.eqb_neq. exact Hn.
  - unfold runDeliverabilityCheck. rewrite check_errors, Hp. reflexivity.
Qed.

Lemma steps_imply_check_passes_witness :
  getFilteredContacts wizard1 <> []
  /\ (exists id, selectedTemplate wizard1 = Some id /\ id <> "")
  /\ campaignName wizard1 <> ""
  /\ runDeliverabilityCheck (find_template wizard1) (recipientCount wizard1)
       (smtpPassword wizard1) = true.
Proof.
  apply steps_imply_check_passes; reflexivity.
Defined.

(* ===================================================================== *)
(** * Smart segmentation *)
(* ===================================================================== *)

Lemma includes_empty (s : string) : includes s "" = true.
Proof. destruct s; reflexivity. Qed.

Lemma default_rule_matches (id : string) (c : WizardContact) :
  rule_matches (default_rule id) c = true.
Proof. unfold rule_matches. cbn. apply includes_empty. Qed.

Lemma filter_all {A : Type} (f : A -> bool) (l : list A) :
  (forall x, In x l -> f x = true) -> filter f l = l.
Proof.
  induction l as [|x l IH]; intros H; [reflexivity|].
  cbn. rewrite (H x (or_introl eq_refl)). f_equal.
  apply IH. intros y Hy. apply H. right. exact Hy.
Qed.

Lemma filter_filter {A : Type} (f g : A -> bool) (l : list A) :
  filter f (filter g l) = filter (fun x => g x && f x) l.
Proof.
  induction l as [|x l IH]; [reflexivity|].
  cbn. destruct (g x); cbn; [|exact IH].
  destruct (f x); [f_equal|]; exact IH.
Qed.

Lemma filter_length_mono {A : Type} (f g : A -> bool) (l : list A) :
  (forall x, f x = true -> g x = true) ->
  (List.length (filter f l) <= List.length (filter g l))%nat.
Proof.
  intros H. induction l as [|x l IH]; [apply Nat.le_refl|].
  cbn. destruct (f x) eqn:Ef.
  - rewrite (H x Ef). cbn. lia.
  - destruct (g x); cbn; lia.
Qed.

Lemma filter_incl_mono {A : Type} (f g : A -> bool) (l : list A) :
  (forall x, f x = true -> g x = true) -> incl (filter f l) (filter g l).
Proof.
  intros H x Hx. apply filter_In in Hx. destruct Hx as [Hin Hf].
  apply filter_In. split; [exact Hin | apply H; exact Hf].
Qed.

Lemma filter_split_length {A : Type} (f : A -> bool) (l : list A) :
  (List.length (filter f l) + List.length (filter (fun x => negb (f x)) l)
   = List.length l)%nat.
Proof.
  induction l as [|x l IH]; [reflexivity|].
  cbn. destruct (f x); cbn; lia.
Qed.

Lemma forallb_of_map {A : Type} (f : A -> bool) (l : list A) :
  forallb (fun b => b) (map f l) = forallb f l.
Proof. induction l as [|x l IH]; [reflexivity | cbn; rewrite IH; reflexivity]. Qed.

Lemma existsb_of_map {A : Type} (f : A -> bool) (l : list A) :
  existsb (fun b => b) (map f l) = existsb f l.
Proof. induction l as [|x l IH]; [reflexivity | cbn; rewrite IH; reflexivity]. Qed.

(** The audience in segment mode for a non-empty list of rules. *)
Lemma segment_audience (st : WizardState) (r : SegmentRule) (rules : list SegmentRule) :
  selectionMode st = ModeSegment ->
  getFilteredContacts (with_rules (r :: rules) st)
  = filter (fun contact =>
              match segmentLogic st with
              | LogicAnd => forallb (fun x => rule_matches x contact) (r :: rules)
              | LogicOr => existsb (fun x => rule_matches x contact) (r :: rules)
              end) (wz_contacts st).
Proof.
  intros Hm. unfold getFilteredContacts, with_rules.
  cbn [selectionMode segmentRules segmentLogic wz_contacts]. rewrite Hm.
  apply filter_ext. intros c.
  destruct (segmentLogic st).
  - apply forallb_of_map.
  - apply existsb_of_map.
Qed.

Lemma segment_audience_none (st : WizardState) :
  selectionMode st = ModeSegment ->
  getFilteredContacts (with_rules [] st) = wz_contacts st.
Proof.
  intros Hm. unfold getFilteredContacts, with_rules.
  cbn [selectionMode segmentRules segmentLogic wz_contacts]. rewrite Hm.
  reflexivity.
Qed.

Lemma app_one_cons {A : Type} (l : list A) (x : A) :
  exists y l', (l ++ [x])%list = y :: l'.
Proof. destruct l as [|y l]; cbn; eauto. Qed.

(** ** X20 *)

(** X20: the audience is always a selection of the loaded contacts in their
    order: some test on single contacts filters the contact list to it, so
    it holds no contact twice that was loaded once, none that was not
    loaded, and the recipient count never exceeds the number of contacts. *)
Theorem audience_within_contacts (st : WizardState) :
  (exists keep, getFilteredContacts st = filter keep (wz_contacts st))
  /\ (recipientCount st <= List.length (wz_contacts st))%nat.
Proof.
  assert (H : exists keep, getFilteredContacts st = filter keep (wz_contacts st)).
  { unfold getFilteredContacts.
    destruct (selectionMode st).
    - exists (fun _ => true). symmetry. apply filter_all. reflexivity.
    - eexists. reflexivity.
    - destruct (segmentRules st).
      + exists (fun _ => true). symmetry. apply filter_all. reflexivity.
      + eexists. reflexivity. }
  split; [exact H|].
  destruct H as [keep Hk]. unfold recipientCount. rewrite Hk.
  apply filter_length_le.
Qed.

(** ** X21 *)

(** X21: the rule that "add rule" appends (tags contains the empty text)
    matches every contact.  In segment mode, appending it leaves the
    audience as it was when the rules are combined with AND, and makes the
    audience all contacts when they are combined with OR. *)
Theorem new_rule_matches_everyone (st : WizardState) (uuid : string) :
  selectionMode st = ModeSegment ->
  getFilteredContacts (with_rules (addSegmentRule uuid (segmentRules st)) st)
  = match segmentLogic st with
    | LogicAnd => getFilteredContacts st
    | LogicOr => wz_contacts st
    end.
Proof.
  intros Hm. unfold addSegmentRule.
  destruct (app_one_cons (segmentRules st) (default_rule uuid)) as (y & l' & E).
  rewrite E, (segment_audience st y l' Hm), <- E.
  destruct (segmentLogic st) eqn:El.
  - unfold getFilteredContacts. rewrite Hm, El.
    destruct (segmentRules st) as [|r rules] eqn:Er.
    + apply filter_all. intros c _. cbn [app forallb].
      rewrite default_rule_matches. reflexivity.
    + apply filter_ext. intros c. rewrite forallb_app, forallb_of_map. cbn [forallb].
      rewrite default_rule_matches, !andb_true_r. reflexivity.
  - apply filter_all. intros c _. rewrite existsb_app. cbn [existsb].
    rewrite default_rule_matches. rewrite orb_true_r. reflexivity.
Qed.

Lemma new_rule_matches_everyone_witness :
  getFilteredContacts
    (with_rules (addSegmentRule "u7" (segmentRules wizard_segment)) wizard_segment)
  = getFilteredContacts wizard_segment.
Proof.
  apply (new_rule_matches_everyone wizard_segment "u7"). reflexivity.
Defined.

(** ** X22 *)

(** X22: one more rule.  In segment mode the first rule, and under AND every
    further rule, filters the audience there was: the new audience is the
    old one restricted to the contacts the rule matches.  Under OR a
    further rule only adds contacts: the old audience is within the new
    one and not larger. *)
Theorem further_rule_narrows_or_widens (st : WizardState) (rules : list SegmentRule)
    (r : SegmentRule) :
  selectionMode st = ModeSegment ->
  match segmentLogic st, rules with
  | LogicOr, _ :: _ =>
      incl (getFilteredContacts (with_rules rules st))
           (getFilteredContacts (with_rules (rules ++ [r]) st))
      /\ (recipientCount (with_rules rules st)
          <= recipientCount (with_rules (rules ++ [r]) st))%nat
  | _, _ =>
      getFilteredContacts (with_rules (rules ++ [r]) st)
      = filter (rule_matches r) (getFilteredContacts (with_rules rules st))
  end.
Proof.
  intros Hm.
  assert (Hfirst : getFilteredContacts (with_rules ([] ++ [r]) st)
                   = filter (rule_matches r) (getFilteredContacts (with_rules [] st))).
  { cbn [app]. rewrite (segment_audience st r [] Hm), (segment_audience_none st Hm).
    apply filter_ext. intros c. destruct (segmentLogic st); cbn.
    - apply andb_true_r.
    - apply orb_false_r. }
  destruct (segmentLogic st) eqn:El; destruct rules as [|r0 rules]; try exact Hfirst.
  - cbn [app]. rewrite !(segment_audience st _ _ Hm), El, filter_filter.
    apply filter_ext. intros c. cbn [forallb]. rewrite forallb_app. cbn [forallb].
    rewrite andb_true_r, andb_assoc. reflexivity.
  - unfold recipientCount. cbn [app].
    rewrite !(segment_audience st _ _ Hm), El.
    assert (H : forall c,
              existsb (fun x => rule_matches x c) (r0 :: rules) = true ->
              existsb (fun x => rule_matches x c) (r0 :: (rules ++ [r])%list) = true).
    { intros c Hc. cbn [existsb] in *. rewrite existsb_app.
      apply orb_true_iff in Hc. destruct Hc as [Hc|Hc]; rewrite Hc;
        [reflexivity | apply orb_true_r]. }
    split; [apply filter_incl_mono | apply filter_length_mono]; exact H.
Qed.

Lemma further_rule_narrows_or_widens_witness :
  getFilteredContacts
    (with_rules (segmentRules wizard_segment ++ [mkRule "u8" FieldStatus OpEquals "ACTIVE"])
       wizard_segment)
  = filter (rule_matches (mkRule "u8" FieldStatus OpEquals "ACTIVE"))
      (getFilteredContacts (with_rules (segmentRules wizard_segment) wizard_segment)).
Proof.
  apply (further_rule_narrows_or_widens wizard_segment (segmentRules wizard_segment)
           (mkRule "u8" FieldStatus OpEquals "ACTIVE")).
  reflexivity.
Defined.

(** ** X23 *)

(** X23: "contains" and "not contains" split the contacts.  In segment mode
    with a single rule, the audience of a "contains" rule and the audience
    of the "not contains" rule on the same field and value share no contact
    and together number the loaded contacts. *)
Theorem contains_and_not_contains_split (st : WizardState) (i j : string)
    (f : RuleField) (v : string) :
  selectionMode st = ModeSegment ->
  (recipientCount (with_rules [mkRule i f OpContains v] st)
   + recipientCount (with_rules [mkRule j f OpNotContains v] st)
   = List.length (wz_contacts st))%nat
  /\ forall c,
       In c (getFilteredContacts (with_rules [mkRule i f OpContains v] st)) ->
       ~ In c (getFilteredContacts (with_rules [mkRule j f OpNotContains v] st)).
Proof.
  intros Hm. unfold recipientCount. rewrite !(segment_audience st _ [] Hm).
  assert (Hc : forall r,
            filter (fun contact =>
                      match segmentLogic st with
                      | LogicAnd => forallb (fun x => rule_matches x contact) [r]
                      | LogicOr => existsb (fun x => rule_matches x contact) [r]
                      end) (wz_contacts st)
            = filter (rule_matches r) (wz_contacts st)).
  { intros r. apply filter_ext. intros c. destruct (segmentLogic st); cbn.
    - apply andb_true_r.
    - apply orb_false_r. }
  rewrite !Hc.
  assert (Hn : filter (rule_matches (mkRule j f OpNotContains v)) (wz_contacts st)
               = filter (fun c => negb (rule_matches (mkRule i f OpContains v) c))
                   (wz_contacts st))
    by (apply filter_ext; intros c; reflexivity).
  rewrite Hn. split; [apply filter_split_length|].
  intros c H1 H2. apply filter_In in H1, H2.
  destruct H1 as [_ H1], H2 as [_ H2]. rewrite H1 in H2. discriminate.
Qed.

Lemma contains_and_not_contains_split_witness :
  (recipientCount (with_rules [mkRule "a" FieldTags OpContains "VIP"] wizard_segment)
   + recipientCount (with_rules [mkRule "b" FieldTags OpNotContains "VIP"] wizard_segment)
   = 2)%nat.
Proof.
  apply (contains_and_not_contains_split wizard_segment "a" "b" FieldTags "VIP").
  reflexivity.
Defined.

Lemma behind_app (local rest : string) :
  has_char "@" local = false ->
  behind "@" (local ++ String "@" rest) = Some rest.
Proof.
  induction local as [|c local IH]; intros H; [reflexivity|].
  cbn [has_char] in H. apply orb_false_iff in H. destruct H as [Hc Hl].
  cbn [append behind upto]. rewrite Ascii.eqb_sym, Hc. exact (IH Hl).
Qed.

Lemma behind_none (s : string) :
  has_char "@" s = false -> behind "@" s = None.
Proof.
  induction s as [|c s IH]; intros H; [reflexivity|].
  cbn [has_char] in H. apply orb_false_iff in H. destruct H as [Hc Hl].
  cbn [append behind upto]. rewrite Ascii.eqb_sym, Hc. exact (IH Hl).
Qed.

Lemma upto_app (domain rest : string) :
  has_char "@" domain = false ->
  upto "@" (domain ++ String "@" rest) = domain.
Proof.
  induction domain as [|c domain IH]; intros H; [reflexivity|].
  cbn [has_char] in H. apply orb_false_iff in H. destruct H as [Hc Hl].
  cbn [append behind upto]. rewrite Ascii.eqb_sym, Hc. f_equal. exact (IH Hl).
Qed.

Lemma upto_all (domain : string) :
  has_char "@" domain = false -> upto "@" domain = domain.
Proof.
  induction domain as [|c domain IH]; intros H; [reflexivity|].
  cbn [has_char] in H. apply orb_false_iff in H. destruct H as [Hc Hl].
  cbn [append behind upto]. rewrite Ascii.eqb_sym, Hc. f_equal. exact (IH Hl).
Qed.

(** ** X24 *)

(** X24: the domain a rule on [email_domain] sees.  For an address
    [local@domain] it is [domain]; when the address holds a second [@] it
    is only the text between the first two; for an address without [@] it is
    empty. *)
Theorem email_domain_of_address (local domain more : string) :
  has_char "@" local = false -> has_char "@" domain = false ->
  email_domain (local ++ "@" ++ domain) = domain
  /\ email_domain (local ++ "@" ++ domain ++ "@" ++ more) = domain
  /\ email_domain local = "".
Proof.
  intros Hl Hd. unfold email_domain. split; [|split].
  - change ("@" ++ domain) with (String "@" domain).
    rewrite (behind_app local domain Hl). apply upto_all. exact Hd.
  - change ("@" ++ domain ++ "@" ++ more)
      with (String "@" (domain ++ String "@" more)).
    rewrite (behind_app local _ Hl). apply upto_app. exact Hd.
  - rewrite (behind_none local Hl). reflexivity.
Qed.

Lemma email_domain_of_address_witness :
  email_domain ("ann" ++ "@" ++ "example.com") = "example.com"
  /\ email_domain ("ann" ++ "@" ++ "example.com" ++ "@" ++ "evil.org") = "example.com"
  /\ email_domain "ann" = "".
Proof.
  apply (email_domain_of_address "ann" "example.com" "evil.org"); reflexivity.
Defined.

(** ** X25 *)

(** X25: editing the rule just added.  When no rule has the id [id] yet,
    removing [id] after adding a rule with it gives back the rules there
    were, and an update of [id] changes the added rule only: the rules
    before it stay as they are and in their order. *)
Theorem added_rule_is_the_one_edited (id : string) (updates : RuleUpdates)
    (rules : list SegmentRule) :
  existsb (fun r => rule_id r =? id) rules = false ->
  removeSegmentRule id (addSegmentRule id rules) = rules
  /\ updateSegmentRule id updates (addSegmentRule id rules)
     = (rules ++ [apply_updates updates (default_rule id)])%list.
Proof.
  intros H. unfold removeSegmentRule, updateSegmentRule, addSegmentRule.
  rewrite filter_app, map_app. cbn [filter map default_rule rule_id].
  rewrite String.eqb_refl. cbn [negb]. rewrite app_nil_r.
  assert (Hr : forall r, In r rules -> (rule_id r =? id) = false).
  { intros r Hin. destruct (rule_id r =? id) eqn:E; [|reflexivity].
    rewrite <- H. symmetry. apply existsb_exists. exists r. split; assumption. }
  split.
  - apply filter_all. intros r Hin. rewrite (Hr r Hin). reflexivity.
  - f_equal. rewrite <- (map_id rules) at 2. apply map_ext_in.
    intros r Hin. rewrite (Hr r Hin). reflexivity.
Qed.

Lemma added_rule_is_the_one_edited_witness :
  removeSegmentRule "u9" (addSegmentRule "u9" (segmentRules wizard_segment))
  = segmentRules wizard_segment
  /\ updateSegmentRule "u9" (mkUpdates None (Some FieldCompany) None (Some "acme"))
       (addSegmentRule "u9" (segmentRules wizard_segment))
     = (segmentRules wizard_segment
        ++ [apply_updates (mkUpdates None (Some FieldCompany) None (Some "acme"))
              (default_rule "u9")])%list.
Proof.
  apply (added_rule_is_the_one_edited "u9"
           (mkUpdates None (Some FieldCompany) None (Some "acme"))
           (segmentRules wizard_segment)).
  reflexivity.
Defined.

(* ===================================================================== *)
(** * Creating a campaign *)
(* ===================================================================== *)

Lemma check_passes (template : option EmailTemplate) (n : nat) (pw : string) :
  runDeliverabilityCheck template n pw = negb (pw =? "").
Proof.
  unfold runDeliverabilityCheck. rewrite check_errors. cbn [truthy].
  destruct (pw =? ""); reflexivity.
Qed.

Lemma new_rows_pending (uuid : nat -> string) (cid : string)
    (cs : list WizardContact) (k : nat) :
  pending_of cid (new_rows uuid cid cs k) = new_rows uuid cid cs k.
Proof.
  revert k. induction cs as [|c cs IH]; intros k; [reflexivity|].
  unfold pending_of in *. cbn [new_rows filter campaign_id is_pending r_status].
  rewrite String.eqb_refl. cbn [andb]. f_equal. apply IH.
Qed.

Lemma new_rows_contacts (uuid : nat -> string) (cid : string)
    (cs : list WizardContact) (k : nat) :
  map contacts (new_rows uuid cid cs k) = map fields cs.
Proof.
  revert k. induction cs as [|c cs IH]; intros k; [reflexivity|].
  cbn [new_rows map contacts]. f_equal. apply IH.
Qed.

Lemma new_rows_length (uuid : nat -> string) (cid : string)
    (cs : list WizardContact) (k : nat) :
  List.length (new_rows uuid cid cs k) = List.length cs.
Proof.
  rewrite <- (length_map contacts), new_rows_contacts. apply length_map.
Qed.

Lemma filter_none {A : Type} (f : A -> bool) (l : list A) :
  existsb f l = false -> filter f l = [].
Proof.
  induction l as [|x l IH]; intros H; [reflexivity|].
  cbn [existsb] in H. apply orb_false_iff in H. destruct H as [Hx Hl].
  cbn [filter]. rewrite Hx. exact (IH Hl).
Qed.

(** Rows that reference existing campaigns hold none of a campaign that
    does not exist yet. *)
Lemma no_rows_of_new_campaign (cid : string) (s : Store) :
  forallb (fun r => existsb (fun c => c_id c =? campaign_id r) (campaigns s))
    (campaign_recipients s) = true ->
  existsb (fun c => c_id c =? cid) (campaigns s) = false ->
  pending_of cid (campaign_recipients s) = [].
Proof.
  intros Hfk Hnew. unfold pending_of.
  induction (campaign_recipients s) as [|r rows IH]; [reflexivity|].
  cbn [forallb] in Hfk. apply andb_true_iff in Hfk. destruct Hfk as [Hr Hrows].
  cbn [filter]. destruct (campaign_id r =? cid) eqn:E.
  - apply String.eqb_eq in E. subst cid. congruence.
  - cbn [andb]. exact (IH Hrows).
Qed.

(** The campaign row a successful creation inserts. *)
Lemma create_now_result (uuid : nat -> string) (st : WizardState) (s : Store)
    (t : EmailTemplate) :
  scheduledTime st = SendNow ->
  smtpPassword st <> "" ->
  find_template st = Some t ->
  existsb (fun c => c_id c =? uuid 0) (campaigns s) = false ->
  distinct (map r_id (campaign_recipients s
                      ++ new_rows uuid (uuid 0) (getFilteredContacts st) 1)) = true ->
  handleCreateCampaign uuid st s
  = (Created (Some (post (uuid 0) (smtpPassword st))),
     mkStore
       (campaigns s
        ++ [mkCampaign (uuid 0) (campaignName st) (Some t) CDraft
              (Some (Z.of_nat (recipientCount st))) (Some 0%Z) (Some 0%Z) (Some 0%Z)
              (Some 0%Z) None None None])
       (smtp_settings s)
       (campaign_recipients s ++ new_rows uuid (uuid 0) (getFilteredContacts st) 1)).
Proof.
  intros Hnow Hpw Ht Hid Hrows. unfold handleCreateCampaign.
  rewrite check_passes. apply String.eqb_neq in Hpw. rewrite Hpw.
  cbn [negb]. rewrite Hnow, Ht, Hid, Hrows. cbn [status_allowed negb orb].
  destruct (selectedTemplate st); reflexivity.
Qed.

Lemma created_store_balanced (uuid : nat -> string) (st : WizardState) (s : Store)
    (t : EmailTemplate) :
  scheduledTime st = SendNow ->
  smtpPassword st <> "" ->
  find_template st = Some t ->
  existsb (fun c => c_id c =? uuid 0) (campaigns s) = false ->
  distinct (map r_id (campaign_recipients s
                      ++ new_rows uuid (uuid 0) (getFilteredContacts st) 1)) = true ->
  forallb (fun r => existsb (fun c => c_id c =? campaign_id r) (campaigns s))
    (campaign_recipients s) = true ->
  smtp_settings s <> [] ->
  balanced (uuid 0) (snd (handleCreateCampaign uuid st s))
    (mkCampaign (uuid 0) (campaignName st) (Some t) CDraft
       (Some (Z.of_nat (recipientCount st))) (Some 0%Z) (Some 0%Z) (Some 0%Z)
       (Some 0%Z) None None None)
    (Z.of_nat (recipientCount st))
  /\ pending_of (uuid 0) (campaign_recipients (snd (handleCreateCampaign uuid st s)))
     = new_rows uuid (uuid 0) (getFilteredContacts st) 1.
Proof.
  intros Hnow Hpw Ht Hid Hrows Hfk Hsm.
  rewrite (create_now_result uuid st s t Hnow Hpw Ht Hid Hrows).
  cbn [snd campaign_recipients].
  assert (Hp : pending_of (uuid 0)
                 (campaign_recipients s
                  ++ new_rows uuid (uuid 0) (getFilteredContacts st) 1)
               = new_rows uuid (uuid 0) (getFilteredContacts st) 1).
  { unfold pending_of. rewrite filter_app.
    fold (pending_of (uuid 0) (campaign_recipients s)).
    fold (pending_of (uuid 0) (new_rows uuid (uuid 0) (getFilteredContacts st) 1)).
    rewrite (no_rows_of_new_campaign _ s Hfk Hid), new_rows_pending. reflexivity. }
  split; [|exact Hp].
  unfold balanced, found, pending_count.
  cbn [campaigns smtp_settings campaign_recipients total_recipients sent_count
       failed_count or_zero].
  rewrite Hp, new_rows_length. fold (recipientCount st).
  split; [|split; [exact Hsm | split; [apply distinct_NoDup; exact Hrows |
                                       split; [reflexivity | lia]]]].
  rewrite filter_app. cbn [filter c_id]. rewrite String.eqb_refl.
  rewrite (filter_none _ _ Hid). reflexivity.
Qed.

(** ** X26 *)

(** X26: creation is refused exactly when the SMTP password is empty: then,
    and only then, the wizard answers "Please fix errors before sending",
    and it has written nothing.  Spam words, a missing unsubscribe link, a
    long subject or a large audience never cause this refusal. *)
Theorem only_empty_password_blocks_creation (uuid : nat -> string)
    (st : WizardState) (s : Store) :
  (handleCreateCampaign uuid st s = (Blocked, s) <-> smtpPassword st = "")
  /\ (fst (handleCreateCampaign uuid st s) = Blocked <-> smtpPassword st = "").
Proof.
  assert (H : smtpPassword st = "" -> handleCreateCampaign uuid st s = (Blocked, s)).
  { intros Hpw. unfold handleCreateCampaign. rewrite check_passes, Hpw. reflexivity. }
  assert (H' : fst (handleCreateCampaign uuid st s) = Blocked -> smtpPassword st = "").
  { unfold handleCreateCampaign. rewrite check_passes.
    destruct (smtpPassword st =? "") eqn:E; [intros _; apply String.eqb_eq; exact E|].
    cbn [negb].
    repeat match goal with
           | |- context [if ?b then _ else _] => destruct b
           end; cbn [fst]; discriminate. }
  split; split; try exact H.
  - intros E. apply H'. rewrite E. reflexivity.
  - exact H'.
  - intros Hpw. rewrite (H Hpw). reflexivity.
Qed.

(** ** X27 *)

(** X27: a scheduled campaign is never stored.  With "schedule for later"
    the wizard inserts the status [scheduled], which the CHECK constraint
    on [campaigns.status] does not admit; so whatever the state of the
    wizard and of the store, nothing is written and no request is sent to
    the dispatcher: the result is the refusal of the check when the
    password is empty and "Failed to create campaign" otherwise. *)
Theorem scheduled_campaign_is_not_stored (uuid : nat -> string)
    (st : WizardState) (s : Store) :
  scheduledTime st = SendScheduled ->
  handleCreateCampaign uuid st s
  = (if smtpPassword st =? "" then Blocked else Failed, s).
Proof.
  intros Hs. unfold handleCreateCampaign. rewrite check_passes, Hs.
  destruct (smtpPassword st =? ""); reflexivity.
Qed.

Lemma scheduled_campaign_is_not_stored_witness :
  handleCreateCampaign uuid1 wizard_scheduled store_new = (Failed, store_new).
Proof.
  apply (scheduled_campaign_is_not_stored uuid1 wizard_scheduled store_new).
  reflexivity.
Defined.

(** ** X28 *)

(** X28: a campaign created with "send now" is processed in full.  Let the
    password be non-empty, the selected template exist, the generated ids
    be fresh, the rows of the store reference existing campaigns and the
    SMTP settings be there.  Then the wizard stores the campaign and posts
    its id and the password to the dispatcher; and once the dispatcher has
    answered that request [n] times in sequence, with 50 times [n] at least
    the recipient count, no row of the campaign is pending and the sent and
    failed counters add up to the recipient count of the wizard, which is
    the stored total. *)
Theorem created_campaign_is_processed (uuid : nat -> string) (st : WizardState)
    (s : Store) (t : EmailTemplate) (envs : nat -> Env) (w : World) (n : nat) :
  scheduledTime st = SendNow ->
  smtpPassword st <> "" ->
  find_template st = Some t ->
  uuid 0 <> "" ->
  existsb (fun c => c_id c =? uuid 0) (campaigns s) = false ->
  distinct (map r_id (campaign_recipients s
                      ++ new_rows uuid (uuid 0) (getFilteredContacts st) 1)) = true ->
  forallb (fun r => existsb (fun c => c_id c =? campaign_id r) (campaigns s))
    (campaign_recipients s) = true ->
  smtp_settings s <> [] ->
  store w = snd (handleCreateCampaign uuid st s) ->
  (recipientCount st <= 50 * n)%nat ->
  fst (handleCreateCampaign uuid st s)
  = Created (Some (post (uuid 0) (smtpPassword st)))
  /\ exists c,
       found (uuid 0)
         (store (invoke_n envs (post (uuid 0) (smtpPassword st)) n w)) c
       /\ pending_count (uuid 0)
            (store (invoke_n envs (post (uuid 0) (smtpPassword st)) n w)) = 0%Z
       /\ total_recipients c = Some (Z.of_nat (recipientCount st))
       /\ (or_zero (sent_count c) + or_zero (failed_count c)
           = Z.of_nat (recipientCount st))%Z.
Proof.
  intros Hnow Hpw Ht Hid Hnew Hrows Hfk Hsm Hw Hn.
  split; [rewrite (create_now_result uuid st s t Hnow Hpw Ht Hnew Hrows);
          reflexivity|].
  destruct (created_store_balanced uuid st s t Hnow Hpw Ht Hnew Hrows Hfk Hsm)
    as [Hbal Hpend].
  rewrite <- Hw in Hbal, Hpend.
  destruct (invoke_n_balanced envs w (uuid 0) (smtpPassword st) _ _ Hid Hpw Hbal n)
    as (c & Hc & Hp).
  assert (Hzero : pending_count (uuid 0)
                    (store (invoke_n envs (post (uuid 0) (smtpPassword st)) n w))
                  = 0%Z).
  { rewrite Hp. unfold pending_count. rewrite Hpend, new_rows_length.
    fold (recipientCount st). lia. }
  exists c. destruct Hc as (Hf & _ & _ & Htot & Hsum).
  split; [exact Hf|]. split; [exact Hzero|]. split; [exact Htot|].
  rewrite Hzero in Hsum. lia.
Qed.

Lemma created_campaign_is_processed_witness :
  fst (handleCreateCampaign uuid1 wizard1 store_new)
  = Created (Some (post (uuid1 0) (smtpPassword wizard1)))
  /\ exists c,
       found (uuid1 0)
         (store (invoke_n (fun _ => env1) (post (uuid1 0) (smtpPassword wizard1)) 1
                   (world_of (snd (handleCreateCampaign uuid1 wizard1 store_new))))) c
       /\ pending_count (uuid1 0)
            (store (invoke_n (fun _ => env1) (post (uuid1 0) (smtpPassword wizard1)) 1
                      (world_of (snd (handleCreateCampaign uuid1 wizard1 store_new)))))
          = 0%Z
       /\ total_recipients c = Some (Z.of_nat (recipientCount wizard1))
       /\ (or_zero (sent_count c) + or_zero (failed_count c)
           = Z.of_nat (recipientCount wizard1))%Z.
Proof.
  apply (created_campaign_is_processed uuid1 wizard1 store_new welcome
           (fun _ => env1)
           (world_of (snd (handleCreateCampaign uuid1 wizard1 store_new))) 1);
    try reflexivity; try discriminate.
  vm_compute. lia.
Defined.

Lemma serve_outbox (env : Env) (w : World) (cid pw : string) (c : Campaign)
    (ss : SmtpSettings) (others : list SmtpSettings) :
  cid <> "" -> pw <> "" ->
  found cid (store w) c ->
  smtp_settings (store w) = ss :: others ->
  outbox (snd (serve env (post cid pw) w))
  = (outbox w
     ++ match email_templates c with
        | Some t =>
            map (fun r => message_for ss t (contacts r))
              (firstn 50 (pending_of cid (campaign_recipients (store w))))
        | None => []
        end)%list.
Proof.
  intros Hcid Hpw Hc Es. rewrite (serve_post env cid pw w Hcid Hpw).
  destruct (pending_of cid (campaign_recipients (store w))) as [|p ps] eqn:Ep.
  - assert (Hsm : smtp_settings (store w) <> []) by (rewrite Es; discriminate).
    rewrite (dispatch_idle_result env cid pw w c Hc Hsm Ep).
    cbn [snd outbox with_store with_call tick firstn map].
    destruct (email_templates c); rewrite app_nil_r; reflexivity.
  - assert (Er : firstn 50 (pending_of cid (campaign_recipients (store w)))
                 = p :: firstn 49 ps) by (rewrite Ep; reflexivity).
    destruct (dispatch_batch_result env cid pw w c ss others p (firstn 49 ps)
                Hc Es Er)
      as (w1 & b & _ & _ & _ & Ho1 & Hb & _ & _ & _ & _ & Hout).
    rewrite Hout, Hb, send_batch_outbox, Ho1. reflexivity.
Qed.

(** ** X29 *)

(** X29: the first batch goes to the audience of the wizard.  Under the
    conditions of a successful "send now" creation, the first answer of
    the dispatcher to the wizard's request hands the mail server the
    messages of a batch of contacts and nothing else, each message
    rendered from the selected template for its contact.  The batch
    numbers 50 contacts, or the whole audience if that is smaller, and
    together with the contacts left for later it makes up the audience:
    nobody outside the audience is written to, and nobody more often than
    the audience names them.  Which contacts of a larger audience are in
    the batch, and in which order, is not said. *)
Theorem first_batch_goes_to_audience (uuid : nat -> string) (st : WizardState)
    (s : Store) (t : EmailTemplate) (ss : SmtpSettings) (others : list SmtpSettings)
    (env : Env) (w : World) :
  scheduledTime st = SendNow ->
  smtpPassword st <> "" ->
  find_template st = Some t ->
  uuid 0 <> "" ->
  existsb (fun c => c_id c =? uuid 0) (campaigns s) = false ->
  distinct (map r_id (campaign_recipients s
                      ++ new_rows uuid (uuid 0) (getFilteredContacts st) 1)) = true ->
  forallb (fun r => existsb (fun c => c_id c =? campaign_id r) (campaigns s))
    (campaign_recipients s) = true ->
  smtp_settings s = ss :: others ->
  store w = snd (handleCreateCampaign uuid st s) ->
  exists batch later : list WizardContact,
    outbox (snd (serve env (post (uuid 0) (smtpPassword st)) w))
    = (outbox w ++ map (fun c => message_for ss t (fields c)) batch)%list
    /\ Permutation (batch ++ later) (getFilteredContacts st)
    /\ List.length batch = Nat.min 50 (recipientCount st).
Proof.
  intros Hnow Hpw Ht Hid Hnew Hrows Hfk Es Hw.
  assert (Hsm : smtp_settings s <> []) by (rewrite Es; discriminate).
  destruct (created_store_balanced uuid st s t Hnow Hpw Ht Hnew Hrows Hfk Hsm)
    as [(Hf & _) Hpend].
  rewrite <- Hw in Hf, Hpend.
  assert (Es' : smtp_settings (store w) = ss :: others).
  { rewrite Hw, (create_now_result uuid st s t Hnow Hpw Ht Hnew Hrows).
    exact Es. }
  exists (firstn 50 (getFilteredContacts st)), (skipn 50 (getFilteredContacts st)).
  split; [|split].
  - rewrite (serve_outbox env w (uuid 0) (smtpPassword st) _ ss others Hid Hpw Hf Es').
    cbn [email_templates]. rewrite Hpend. f_equal.
    rewrite <- (map_map contacts (fun k => message_for ss t k)).
    rewrite <- firstn_map, new_rows_contacts, firstn_map, map_map. reflexivity.
  - rewrite firstn_skipn. apply Permutation_refl.
  - apply length_firstn.
Qed.

Lemma first_batch_goes_to_audience_witness :
  exists batch later : list WizardContact,
    outbox (snd (serve env1 (post (uuid1 0) (smtpPassword wizard_large))
                   (world_of (snd (handleCreateCampaign uuid1 wizard_large store_new)))))
    = (outbox (world_of (snd (handleCreateCampaign uuid1 wizard_large store_new)))
       ++ map (fun c => message_for settings1 welcome (fields c)) batch)%list
    /\ Permutation (batch ++ later) (getFilteredContacts wizard_large)
    /\ List.length batch = Nat.min 50 (recipientCount wizard_large).
Proof.
  apply (first_batch_goes_to_audience uuid1 wizard_large store_new welcome settings1 []
           env1 (world_of (snd (handleCreateCampaign uuid1 wizard_large store_new)))).
  - reflexivity.
  - discriminate.
  - reflexivity.
  - discriminate.
  - reflexivity.
  - vm_compute. reflexivity.
  - reflexivity.
  - reflexivity.
  - reflexivity.
Defined.

(** An audience of 60: the first answer sends 50 messages and leaves 10
    rows pending. *)
Example large_audience_first_batch :
  List.length
    (outbox (snd (serve env1 (post (uuid1 0) (smtpPassword wizard_large))
                    (world_of (snd (handleCreateCampaign uuid1 wizard_large store_new))))))
  = 50%nat
  /\ pending_count (uuid1 0)
       (store (snd (serve env1 (post (uuid1 0) (smtpPassword wizard_large))
                      (world_of (snd (handleCreateCampaign uuid1 wizard_large
                                        store_new))))))
     = 10%Z.
Proof. split; vm_compute; reflexivity. Qed.

(** ** X30 *)

(** X30: the wizard's one request never finishes a campaign.  Under the
    conditions of a successful "send now" creation with a non-empty
    audience, the answer of the dispatcher to the request of the wizard
    leaves the campaign in status sending with no [completed_at], and
    leaves the recipients beyond the first 50 pending: further requests
    (the wizard sends this one only) are needed to send to them and to
    mark the campaign completed. *)
Theorem one_request_leaves_campaign_open (uuid : nat -> string) (st : WizardState)
    (s : Store) (t : EmailTemplate) (env : Env) (w : World) :
  scheduledTime st = SendNow ->
  smtpPassword st <> "" ->
  find_template st = Some t ->
  uuid 0 <> "" ->
  existsb (fun c => c_id c =? uuid 0) (campaigns s) = false ->
  distinct (map r_id (campaign_recipients s
                      ++ new_rows uuid (uuid 0) (getFilteredContacts st) 1)) = true ->
  forallb (fun r => existsb (fun c => c_id c =? campaign_id r) (campaigns s))
    (campaign_recipients s) = true ->
  smtp_settings s <> [] ->
  getFilteredContacts st <> [] ->
  store w = snd (handleCreateCampaign uuid st s) ->
  exists c,
    found (uuid 0) (store (snd (serve env (post (uuid 0) (smtpPassword st)) w))) c
    /\ c_status c = CSending
    /\ completed_at c = None
    /\ pending_count (uuid 0)
         (store (snd (serve env (post (uuid 0) (smtpPassword st)) w)))
       = Z.of_nat (recipientCount st - 50).
Proof.
  intros Hnow Hpw Ht Hid Hnew Hrows Hfk Hsm Hne Hw.
  destruct (created_store_balanced uuid st s t Hnow Hpw Ht Hnew Hrows Hfk Hsm)
    as [(Hf & Hsm' & Hnd & _) Hpend].
  rewrite <- Hw in Hf, Hsm', Hnd, Hpend.
  rewrite (serve_post env (uuid 0) (smtpPassword st) w Hid Hpw).
  destruct (smtp_settings (store w)) as [|ss others] eqn:Es; [contradiction|].
  destruct (dispatch_step_spec env (uuid 0) (smtpPassword st) w _ ss others Hf Es Hnd)
    as (c & Hc & _ & _ & Hp & _ & _ & Hbatch).
  assert (Hsome : pending_of (uuid 0) (campaign_recipients (store w)) <> []).
  { rewrite Hpend. intros E. apply (f_equal (@List.length _)) in E.
    rewrite new_rows_length in E. destruct (getFilteredContacts st);
      [contradiction | discriminate]. }
  destruct (Hbatch Hsome) as (sc & fc & _ & _ & _ & _ & Ec & _).
  exists c. split; [exact Hc|]. rewrite Ec.
  split; [reflexivity|]. split; [reflexivity|].
  unfold pending_count. rewrite Hp, Hpend, length_skipn, new_rows_length.
  reflexivity.
Qed.

Lemma one_request_leaves_campaign_open_witness :
  exists c,
    found (uuid1 0)
      (store (snd (serve env1 (post (uuid1 0) (smtpPassword wizard1))
                     (world_of (snd (handleCreateCampaign uuid1 wizard1 store_new))))))
      c
    /\ c_status c = CSending
    /\ completed_at c = None
    /\ pending_count (uuid1 0)
         (store (snd (serve env1 (post (uuid1 0) (smtpPassword wizard1))
                        (world_of (snd (handleCreateCampaign uuid1 wizard1 store_new))))))
       = Z.of_nat (recipientCount wizard1 - 50).
Proof.
  apply (one_request_leaves_campaign_open uuid1 wizard1 store_new welcome env1
           (world_of (snd (handleCreateCampaign uuid1 wizard1 store_new))));
    try reflexivity; discriminate.
Defined.
